(** * DataQuery AI Assistant: chart series, column profiles and reply handling

    A shallow embedding of the data-shaping code of [src/utils/openai.ts] and
    [src/App.tsx], followed by the properties proved about it.

    Conventions of the embedding.

    - A JavaScript number is a [JS.number]: [NaN], the two infinities, or a
      finite value carried as a rational; there is a single zero.  The
      arithmetic of [JS] is exact.  [Binary64] rounds each result to the
      nearest binary64 value, with overflow to an infinity and gradual
      underflow, and [Engine] has the chart builder and the analysis of
      [App.tsx] on that arithmetic, as an engine runs them.
    - A string is a [string] holding the UTF-8 bytes of the text; a text with
      an unpaired surrogate has no such bytes and is outside the model.
      Trimming removes the white space and the line terminators of
      ECMAScript, those beyond ASCII included.  Case folding acts on the
      ASCII letters; letters beyond ASCII are left as they are.
    - A record of the dataset is an association list from column names to
      primitive values; a column that is not listed reads as [undefined].
      Dates are not modelled.
    - An object used as a counter table ([acc[key] = (acc[key] || 0) + 1]) is
      an association list in creation order of its keys, read back through
      [Object_entries].  Keys that are names of [Object.prototype]
      ([inherited_name]) are read from the prototype by the source; the table
      is faithful for the other keys only. *)

From Stdlib Require Import List ZArith QArith Qabs Qround Qpower String Ascii.
From Stdlib Require Import Bool Lia Lqa.
From Stdlib Require Import DecimalString Sorted Permutation.
From Stdlib Require Import PrimFloat FloatOps SpecFloat.
Import ListNotations.

Local Open Scope string_scope.
Local Open Scope Z_scope.

(** ** The JavaScript fragment the sources rely on *)

Module JS.

(** *** Numbers *)

Inductive number : Type :=
| NaN
| PInf
| NInf
| Fin (q : Q).

Definition Qlt_bool (a b : Q) : bool := negb (Qle_bool b a).

Definition of_Z (z : Z) : number := Fin (inject_Z z).

Definition number_isNaN (x : number) : bool :=
  match x with NaN => true | _ => false end.

Definition neg (x : number) : number :=
  match x with
  | NaN => NaN
  | PInf => NInf
  | NInf => PInf
  | Fin q => Fin (- q)
  end.

Definition add (x y : number) : number :=
  match x, y with
  | NaN, _ | _, NaN => NaN
  | PInf, NInf | NInf, PInf => NaN
  | PInf, _ | _, PInf => PInf
  | NInf, _ | _, NInf => NInf
  | Fin a, Fin b => Fin (a + b)
  end.

Definition sub (x y : number) : number := add x (neg y).

(** Sign of a product or quotient with an infinite operand: [neg_a] and
    [neg_b] say which operands are negative. *)
Definition signed_inf (neg_a neg_b : bool) : number :=
  if xorb neg_a neg_b then NInf else PInf.

Definition mul (x y : number) : number :=
  match x, y with
  | NaN, _ | _, NaN => NaN
  | Fin a, Fin b => Fin (a * b)
  | Fin a, PInf | PInf, Fin a =>
      if Qeq_bool a 0 then NaN else signed_inf (Qlt_bool a 0) false
  | Fin a, NInf | NInf, Fin a =>
      if Qeq_bool a 0 then NaN else signed_inf (Qlt_bool a 0) true
  | PInf, PInf | NInf, NInf => PInf
  | PInf, NInf | NInf, PInf => NInf
  end.

(** [x / y].  A finite value over zero is an infinity, zero over zero is
    [NaN]; nothing raises. *)
Definition div (x y : number) : number :=
  match x, y with
  | NaN, _ | _, NaN => NaN
  | Fin a, Fin b =>
      if Qeq_bool b 0
      then if Qeq_bool a 0 then NaN else signed_inf (Qlt_bool a 0) false
      else Fin (a / b)
  | Fin _, (PInf | NInf) => Fin 0
  | PInf, Fin b => signed_inf false (Qlt_bool b 0)
  | NInf, Fin b => signed_inf true (Qlt_bool b 0)
  | (PInf | NInf), (PInf | NInf) => NaN
  end.

(** [x <= y] and [x === y] on numbers; every comparison with [NaN] is false. *)
Definition leb (x y : number) : bool :=
  match x, y with
  | NaN, _ | _, NaN => false
  | NInf, _ => true
  | _, PInf => true
  | Fin a, Fin b => Qle_bool a b
  | _, _ => false
  end.

Definition strict_eqb (x y : number) : bool :=
  match x, y with
  | PInf, PInf | NInf, NInf => true
  | Fin a, Fin b => Qeq_bool a b
  | _, _ => false
  end.

Definition Math_floor (x : number) : number :=
  match x with
  | Fin q => of_Z (Qfloor q)
  | _ => x
  end.

(** [Math.min(x, y)] and [Math.max(x, y)]: [NaN] wins. *)
Definition Math_min2 (x y : number) : number :=
  match x, y with
  | NaN, _ | _, NaN => NaN
  | _, _ => if leb x y then x else y
  end.

Definition Math_max2 (x y : number) : number :=
  match x, y with
  | NaN, _ | _, NaN => NaN
  | _, _ => if leb x y then y else x
  end.

(** [Math.min(...xs)] and [Math.max(...xs)]; with no argument they answer
    [Infinity] and [-Infinity]. *)
Definition Math_min (xs : list number) : number := fold_left Math_min2 xs PInf.
Definition Math_max (xs : list number) : number := fold_left Math_max2 xs NInf.

(** *** Characters and strings *)

(** The white space and line terminators of one byte: U+0009 to U+000D and
    U+0020. *)
Definition is_white (c : ascii) : bool :=
  let n := N_of_ascii c in
  ((9 <=? n) && (n <=? 13) || (n =? 32))%N.

(** Those of two bytes: U+00A0. *)
Definition is_white2 (a b : ascii) : bool :=
  ((N_of_ascii a =? 194) && (N_of_ascii b =? 160))%N.

(** Those of three bytes: U+1680, U+2000 to U+200A, U+2028, U+2029, U+202F,
    U+205F, U+3000 and U+FEFF. *)
Definition is_white3 (a b c : ascii) : bool :=
  let x := N_of_ascii a in
  let y := N_of_ascii b in
  let z := N_of_ascii c in
  ((x =? 225) && (y =? 154) && (z =? 128)
   || (x =? 226) && (y =? 128)
      && ((128 <=? z) && (z <=? 138) || (z =? 168) || (z =? 169) || (z =? 175))
   || (x =? 226) && (y =? 129) && (z =? 159)
   || (x =? 227) && (y =? 128) && (z =? 128)
   || (x =? 239) && (y =? 187) && (z =? 191))%N.

Definition is_digit (c : ascii) : bool :=
  let n := N_of_ascii c in ((48 <=? n) && (n <=? 57))%N.

Definition lower_char (c : ascii) : ascii :=
  let n := N_of_ascii c in
  if ((65 <=? n) && (n <=? 90))%N then ascii_of_N (n + 32) else c.

(** The text without the white space at its start. *)
Fixpoint drop_white (cs : list ascii) : list ascii :=
  match cs with
  | a :: rest =>
      if is_white a then drop_white rest
      else
        match rest with
        | b :: rest2 =>
            if is_white2 a b then drop_white rest2
            else
              match rest2 with
              | c :: rest3 => if is_white3 a b c then drop_white rest3 else cs
              | [] => cs
              end
        | [] => cs
        end
  | [] => []
  end.

(** The same at the end of the text, which is given last byte first. *)
Fixpoint drop_white_back (cs : list ascii) : list ascii :=
  match cs with
  | c :: rest =>
      if is_white c then drop_white_back rest
      else
        match rest with
        | b :: rest2 =>
            if is_white2 b c then drop_white_back rest2
            else
              match rest2 with
              | a :: rest3 =>
                  if is_white3 a b c then drop_white_back rest3 else cs
              | [] => cs
              end
        | [] => cs
        end
  | [] => []
  end.

Definition trim_chars (cs : list ascii) : list ascii :=
  rev (drop_white_back (rev (drop_white cs))).

(** [s.toLowerCase()] and [s.trim()]. *)
Definition toLowerCase (s : string) : string :=
  string_of_list_ascii (map lower_char (list_ascii_of_string s)).

Definition trim (s : string) : string :=
  string_of_list_ascii (trim_chars (list_ascii_of_string s)).

Definition digits_of_N (n : N) : string := NilZero.string_of_uint (N.to_uint n).

(** Decimal digits of a non-negative integer. *)
Definition digits_of_Z (z : Z) : string := digits_of_N (Z.to_N z).

Definition digit_char (d : Z) : ascii := ascii_of_N (48 + Z.to_N d).

(** Digits after the decimal point of [num / den], for [0 <= num < den]:
    long division, stopped after [fuel] digits or when it comes out even. *)
Fixpoint frac_digits (fuel : nat) (num den : Z) : string :=
  match fuel with
  | O => ""
  | S fuel' =>
      if num =? 0 then ""
      else String (digit_char (num * 10 / den))
                  (frac_digits fuel' (num * 10 mod den) den)
  end.

(** [String(x)] on a number.  Integers print their digits.  Any other finite
    value prints its decimal expansion, cut after 17 digits: the source prints
    the shortest digits that read back as the same binary64 value, which is
    the same text for values with a short expansion such as [17.5].  The
    exponent notation of very large and very small magnitudes is not
    modelled. *)
Definition Number_toString (x : number) : string :=
  match x with
  | NaN => "NaN"
  | PInf => "Infinity"
  | NInf => "-Infinity"
  | Fin q =>
      let a := Qabs q in
      let ip := Qfloor a in
      let den := Z.pos (Qden a) in
      let rest := Qnum a - ip * den in
      let body :=
        if rest =? 0 then digits_of_Z ip
        else digits_of_Z ip ++ "." ++ frac_digits 17 rest den in
      if Qlt_bool q 0 then "-" ++ body else body
  end.

Definition pad2 (z : Z) : string :=
  if z <? 10 then "0" ++ digits_of_Z z else digits_of_Z z.

(** [x.toFixed(2)]: the integer [n] with [n / 100] nearest to the magnitude,
    the larger one on a tie, printed with two decimals behind the sign.
    From [10^21] on the source falls back to [String(x)]. *)
Definition toFixed2 (x : number) : string :=
  match x with
  | Fin q =>
      let a := Qabs q in
      if Qle_bool (inject_Z (10 ^ 21)) a then Number_toString x
      else
        let n := Qfloor (a * inject_Z 100 + (1 # 2))%Q in
        let body := digits_of_Z (n / 100) ++ "." ++ pad2 (n mod 100) in
        if Qlt_bool q 0 then "-" ++ body else body
  | _ => Number_toString x
  end.

(** *** Reading a number out of a string ([Number(s)]) *)

Fixpoint span_digits (cs : list ascii) : list ascii * list ascii :=
  match cs with
  | c :: rest =>
      if is_digit c
      then let (ds, tl) := span_digits rest in (c :: ds, tl)
      else ([], cs)
  | [] => ([], [])
  end.

(** Value of a digit in bases up to 16, [None] when the character is not
    a digit of [base]. *)
Definition digit_in_base (base : N) (c : ascii) : option N :=
  let n := N_of_ascii c in
  let d :=
    if ((48 <=? n) && (n <=? 57))%N then Some (n - 48)%N
    else if ((97 <=? n) && (n <=? 102))%N then Some (n - 87)%N
    else if ((65 <=? n) && (n <=? 70))%N then Some (n - 55)%N
    else None in
  match d with
  | Some v => if (v <? base)%N then Some v else None
  | None => None
  end.

Fixpoint number_in_base (base : N) (acc : N) (cs : list ascii) : option N :=
  match cs with
  | [] => Some acc
  | c :: rest =>
      match digit_in_base base c with
      | Some d => number_in_base base (acc * base + d)%N rest
      | None => None
      end
  end.

Definition decimal_value (ds : list ascii) : Z :=
  match number_in_base 10 0 ds with
  | Some n => Z.of_N n
  | None => 0
  end.

Definition is_nil {A} (l : list A) : bool :=
  match l with [] => true | _ => false end.

(** Exponent part [e±ddd] of a decimal literal; [None] when malformed. *)
Definition parse_exponent (cs : list ascii) : option Z :=
  match cs with
  | [] => Some 0
  | ("e" | "E")%char :: rest =>
      let (negative, ds) :=
        match rest with
        | "-"%char :: r => (true, r)
        | "+"%char :: r => (false, r)
        | _ => (false, rest)
        end in
      let (es, tl) := span_digits ds in
      if is_nil es || negb (is_nil tl) then None
      else Some (if negative then - decimal_value es else decimal_value es)
  | _ => None
  end.

(** Unsigned decimal literal: [ddd], [ddd.], [ddd.ddd], [.ddd], each with an
    optional exponent, or [Infinity]. *)
Definition parse_unsigned_decimal (cs : list ascii) : number :=
  if String.eqb (string_of_list_ascii cs) "Infinity" then PInf
  else
    let (ip, r1) := span_digits cs in
    let '(fp, r2) :=
      match r1 with
      | "."%char :: r => span_digits r
      | _ => ([], r1)
      end in
    if is_nil ip && is_nil fp then NaN
    else
      match parse_exponent r2 with
      | None => NaN
      | Some e =>
          let mantissa :=
            (inject_Z (decimal_value (ip ++ fp))
             / inject_Z (10 ^ Z.of_nat (List.length fp)))%Q in
          Fin (mantissa * Qpower (inject_Z 10) e)%Q
      end.

Definition parse_radix (base : N) (cs : list ascii) : number :=
  match cs with
  | [] => NaN
  | _ =>
      match number_in_base base 0 cs with
      | Some n => of_Z (Z.of_N n)
      | None => NaN
      end
  end.

(** [Number(s)] on a string: white space around the literal is dropped, the
    empty string is [0], anything that is not a numeric literal is [NaN]. *)
Definition StringToNumber (s : string) : number :=
  match trim_chars (list_ascii_of_string s) with
  | [] => of_Z 0
  | "0"%char :: ("x" | "X")%char :: rest => parse_radix 16 rest
  | "0"%char :: ("o" | "O")%char :: rest => parse_radix 8 rest
  | "0"%char :: ("b" | "B")%char :: rest => parse_radix 2 rest
  | "-"%char :: rest => neg (parse_unsigned_decimal rest)
  | "+"%char :: rest => parse_unsigned_decimal rest
  | cs => parse_unsigned_decimal cs
  end.

(** *** Primitive values *)

Inductive prim : Type :=
| VUndefined
| VNull
| VBool (b : bool)
| VNum (n : number)
| VStr (s : string).

Definition typeof_number (v : prim) : bool :=
  match v with VNum _ => true | _ => false end.

(** [v !== undefined && v !== null]. *)
Definition is_present (v : prim) : bool :=
  match v with VUndefined | VNull => false | _ => true end.

Definition ToNumber (v : prim) : number :=
  match v with
  | VUndefined => NaN
  | VNull => of_Z 0
  | VBool b => of_Z (if b then 1 else 0)
  | VNum n => n
  | VStr s => StringToNumber s
  end.

(** The global [isNaN(v)]. *)
Definition isNaN (v : prim) : bool := number_isNaN (ToNumber v).

(** [String(v)]. *)
Definition ToString (v : prim) : string :=
  match v with
  | VUndefined => "undefined"
  | VNull => "null"
  | VBool b => if b then "true" else "false"
  | VNum n => Number_toString n
  | VStr s => s
  end.

(** Truthiness, as tested by [||], [!] and [if]. *)
Definition truthy (v : prim) : bool :=
  match v with
  | VUndefined | VNull => false
  | VBool b => b
  | VNum (Fin q) => negb (Qeq_bool q 0)
  | VNum NaN => false
  | VNum _ => true
  | VStr s => negb (String.eqb s "")
  end.

(** [a ?? b] and [a || b]. *)
Definition coalesce (a b : prim) : prim := if is_present a then a else b.
Definition or_else (a b : prim) : prim := if truthy a then a else b.

(** The equality of [Set] membership (SameValueZero). *)
Definition sameValueZero (a b : prim) : bool :=
  match a, b with
  | VUndefined, VUndefined | VNull, VNull => true
  | VBool x, VBool y => Bool.eqb x y
  | VNum NaN, VNum NaN => true
  | VNum x, VNum y => strict_eqb x y
  | VStr x, VStr y => String.eqb x y
  | _, _ => false
  end.

(** A [Set] of primitive values, in insertion order. *)
Definition Set_has (s : list prim) (v : prim) : bool :=
  existsb (sameValueZero v) s.

Definition Set_add (s : list prim) (v : prim) : list prim :=
  if Set_has s v then s else s ++ [v].

Definition Set_size (s : list prim) : Z := Z.of_nat (List.length s).

(** *** Exceptions *)

(** What a [throw] carries in these sources: an [Error] (or one of its
    subclasses) with its message, or the default export of the [axios]
    module, which is not an [Error]. *)
Inductive thrown : Type :=
| Error (message : string)
| AxiosExport.

Inductive completion (A : Type) : Type :=
| Normal (a : A)
| Throw (e : thrown).

Arguments Normal {A} a.
Arguments Throw {A} e.

Definition bind {A B : Type} (c : completion A) (k : A -> completion B)
  : completion B :=
  match c with
  | Normal a => k a
  | Throw e => Throw e
  end.

Notation "x <- c ;; k" := (bind c (fun x => k))
  (at level 61, c at next level, right associativity).

Fixpoint mapM {A B : Type} (f : A -> completion B) (l : list A)
  : completion (list B) :=
  match l with
  | [] => Normal []
  | x :: rest => y <- f x ;; ys <- mapM f rest ;; Normal (y :: ys)
  end.

Fixpoint filterM {A : Type} (f : A -> completion bool) (l : list A)
  : completion (list A) :=
  match l with
  | [] => Normal []
  | x :: rest =>
      keep <- f x ;; ys <- filterM f rest ;;
      Normal (if keep then x :: ys else ys)
  end.

(** *** Values read by [JSON.parse] *)

#[local] Set Warnings "-register-all".

Inductive json : Type :=
| JNull
| JBool (b : bool)
| JNumber (n : number)
| JString (s : string)
| JArray (items : list json)
| JObject (members : list (string * json)).

Fixpoint member_of (members : list (string * json)) (key : string)
  : option json :=
  match members with
  | [] => None
  | (k, v) :: rest => if String.eqb k key then Some v else member_of rest key
  end.

(** [j[key]] for a key that no prototype defines; [None] is [undefined].
    Reading a property of [null] raises a [TypeError]. *)
Definition property (j : json) (key : string) : completion (option json) :=
  match j with
  | JNull =>
      Throw (Error ("Cannot read properties of null (reading '" ++ key ++ "')"))
  | JObject members => Normal (member_of members key)
  | _ => Normal None
  end.

Definition json_truthy (j : option json) : bool :=
  match j with
  | None | Some JNull => false
  | Some (JBool b) => b
  | Some (JNumber n) => truthy (VNum n)
  | Some (JString s) => negb (String.eqb s "")
  | Some (JArray _) | Some (JObject _) => true
  end.

Fixpoint join_with (sep : string) (parts : list string) : string :=
  match parts with
  | [] => ""
  | [x] => x
  | x :: rest => x ++ sep ++ join_with sep rest
  end.

(** [String(j)], as applied by [Array.prototype.join] and by a computed
    property key.  An array prints its elements separated by commas, [null]
    elements as nothing.  A plain object prints as [[object Object]]; one with
    a member named [toString] has no callable conversion left and raises. *)
Fixpoint json_ToString (j : json) : completion string :=
  match j with
  | JNull => Normal "null"
  | JBool b => Normal (if b then "true" else "false")
  | JNumber n => Normal (Number_toString n)
  | JString s => Normal s
  | JArray items =>
      parts <- (fix each (l : list json) : completion (list string) :=
                  match l with
                  | [] => Normal []
                  | JNull :: rest => ps <- each rest ;; Normal ("" :: ps)
                  | x :: rest =>
                      p <- json_ToString x ;; ps <- each rest ;;
                      Normal (p :: ps)
                  end) items ;;
      Normal (join_with "," parts)
  | JObject members =>
      match member_of members "toString" with
      | Some _ => Throw (Error "Cannot convert object to primitive value")
      | None => Normal "[object Object]"
      end
  end.

(** *** The pattern [/\{[\s\S]*\}/] *)

Fixpoint from_first_open (cs : list ascii) : option (list ascii) :=
  match cs with
  | [] => None
  | c :: rest => if Ascii.eqb c "{" then Some rest else from_first_open rest
  end.

(** The longest prefix that ends with a closing brace. *)
Fixpoint upto_last_close (cs : list ascii) : option (list ascii) :=
  match cs with
  | [] => None
  | c :: rest =>
      match upto_last_close rest with
      | Some pre => Some (c :: pre)
      | None => if Ascii.eqb c "}" then Some [c] else None
      end
  end.

(** [text.match(/\{[\s\S]*\}/)]: from the first opening brace to the last
    closing brace behind it; braces are not paired up. *)
Definition match_braces (text : string) : option string :=
  match from_first_open (list_ascii_of_string text) with
  | Some rest =>
      match upto_last_close rest with
      | Some body => Some (String "{" (string_of_list_ascii body))
      | None => None
      end
  | None => None
  end.

(** [text.split('\n')]. *)
Fixpoint split_lines_aux (cur : list ascii) (cs : list ascii) : list string :=
  match cs with
  | [] => [string_of_list_ascii (rev cur)]
  | c :: rest =>
      if Ascii.eqb c "010"
      then string_of_list_ascii (rev cur) :: split_lines_aux [] rest
      else split_lines_aux (c :: cur) rest
  end.

Definition split_lines (text : string) : list string :=
  split_lines_aux [] (list_ascii_of_string text).

End JS.

(** ** Chart series: [processDataForChart]

    The function is written twice, word for word, in [src/utils/openai.ts]
    and at the end of [src/App.tsx]; one embedding serves both. *)

Module Chart.
Import JS.

(** A record of the dataset; [get item column] is [item[column]]. *)
Definition record : Type := list (string * prim).

Fixpoint get (item : record) (column : string) : prim :=
  match item with
  | [] => VUndefined
  | (k, v) :: rest => if String.eqb k column then v else get rest column
  end.

Record ChartPoint : Type := { name : string; value : Z }.

(** *** Counter tables *)

(** The own properties of an object that holds counts (or the entries of a
    [Map] of counts), in the order of their creation. *)
Definition counter : Type := list (string * Z).

(** The own property [key], if there is one. *)
Fixpoint own (acc : counter) (key : string) : option Z :=
  match acc with
  | [] => None
  | (k, n) :: rest => if String.eqb k key then Some n else own rest key
  end.

(** [acc[key] = n]: an existing key keeps its place, a new one goes last. *)
Fixpoint put (acc : counter) (key : string) (n : Z) : counter :=
  match acc with
  | [] => [(key, n)]
  | (k, m) :: rest =>
      if String.eqb k key then (k, n) :: rest else (k, m) :: put rest key n
  end.

(** [acc[key] || 0]. *)
Definition count_or_zero (acc : counter) (key : string) : Z :=
  match own acc key with
  | Some n => n
  | None => 0
  end.

(** [acc[key] = (acc[key] || 0) + 1]. *)
Definition bump (acc : counter) (key : string) : counter :=
  put acc key (count_or_zero acc key + 1).

(** Names every object inherits from [Object.prototype]. *)
Definition inherited_names : list string :=
  [ "constructor"; "__proto__"; "hasOwnProperty"; "isPrototypeOf";
    "propertyIsEnumerable"; "toLocaleString"; "toString"; "valueOf";
    "__defineGetter__"; "__defineSetter__"; "__lookupGetter__";
    "__lookupSetter__" ].

Definition inherited_name (key : string) : bool :=
  existsb (String.eqb key) inherited_names.

(** A key is an array index when it is the canonical decimal text of an
    integer below [2^32 - 1]. *)
Definition array_index (key : string) : option N :=
  match list_ascii_of_string key with
  | [] => None
  | c :: rest =>
      if Ascii.eqb c "0" && negb (is_nil rest) then None
      else
        match number_in_base 10 0 (c :: rest) with
        | Some n => if (n <? 4294967295)%N then Some n else None
        | None => None
        end
  end.

Definition is_array_index (key : string) : bool :=
  match array_index key with Some _ => true | None => false end.

(** [Array.prototype.sort(cmp)].  The sort is stable: an element moves behind
    a later one only when [cmp] is positive on the pair. *)
Fixpoint sort_insert {A : Type} (cmp : A -> A -> Z) (x : A) (sorted : list A)
  : list A :=
  match sorted with
  | [] => [x]
  | y :: rest =>
      if 0 <? cmp x y then y :: sort_insert cmp x rest else x :: sorted
  end.

Definition Array_sort {A : Type} (cmp : A -> A -> Z) (l : list A) : list A :=
  fold_right (sort_insert cmp) [] l.

Definition index_order (a b : string * Z) : Z :=
  match array_index (fst a), array_index (fst b) with
  | Some i, Some j => Z.of_N i - Z.of_N j
  | _, _ => 0
  end.

(** [Object.entries(acc)]: the array-index keys in ascending numeric order,
    then the other keys in the order of their creation. *)
Definition Object_entries (acc : counter) : list (string * Z) :=
  Array_sort index_order (filter (fun e => is_array_index (fst e)) acc)
  ++ filter (fun e => negb (is_array_index (fst e))) acc.

(** *** The numeric branch *)

Definition column_values (data : list record) (column : string) : list prim :=
  map (fun item => get item column) data.

(** The [Set] filled by the first [forEach]. *)
Definition uniqueValues (data : list record) (column : string) : list prim :=
  fold_left
    (fun s item =>
       if is_present (get item column) then Set_add s (get item column) else s)
    data [].

Definition is_null (v : prim) : bool :=
  match v with VNull => true | _ => false end.

(** [data.map(item => item[column]).filter(val => val !== null && !isNaN(val))]. *)
Definition numericValues (data : list record) (column : string) : list prim :=
  filter (fun val => negb (is_null val) && negb (isNaN val))
         (column_values data column).

Definition chart_min (data : list record) (column : string) : number :=
  Math_min (map ToNumber (numericValues data column)).

Definition chart_max (data : list record) (column : string) : number :=
  Math_max (map ToNumber (numericValues data column)).

Definition chart_range (data : list record) (column : string) : number :=
  sub (chart_max data column) (chart_min data column).

(** [Math.min(10, uniqueValues.size)]. *)
Definition binCount (data : list record) (column : string) : Z :=
  Z.min 10 (Set_size (uniqueValues data column)).

Definition binSize (data : list record) (column : string) : number :=
  div (chart_range data column) (of_Z (binCount data column)).

(** [Math.min(Math.floor((value - min) / binSize), binCount - 1)]. *)
Definition binIndex (min size : number) (count : Z) (v : prim) : number :=
  Math_min2 (Math_floor (div (sub (ToNumber v) min) size)) (of_Z (count - 1)).

(** The element of an array of length [len] that the property key [idx]
    names, if any. *)
Definition array_slot (len : nat) (idx : number) : option nat :=
  match idx with
  | Fin q =>
      let z := Qfloor q in
      if Qeq_bool q (inject_Z z) && (0 <=? z) && (z <? Z.of_nat len)
      then Some (Z.to_nat z) else None
  | _ => None
  end.

Fixpoint incr_at (bins : list Z) (i : nat) : list Z :=
  match bins, i with
  | [], _ => []
  | b :: rest, O => (b + 1) :: rest
  | b :: rest, S i' => b :: incr_at rest i'
  end.

(** [bins[idx]++].  A key that names no element ([NaN], a negative number)
    makes a property beside the elements, which [map] never visits.  A key at
    or past the length would lengthen the array; [binIndex] never produces
    one (lemma [binIndex_below]), and the model leaves the array as it is
    there. *)
Definition increment (bins : list Z) (idx : number) : list Z :=
  match array_slot (List.length bins) idx with
  | Some i => incr_at bins i
  | None => bins
  end.

(** [new Array(binCount).fill(0)] after the [forEach] over [values]. *)
Definition fill_bins (min size : number) (count : Z) (values : list prim)
  : list Z :=
  fold_left (fun bins v => increment bins (binIndex min size count v))
            values (repeat 0 (Z.to_nat count)).

Definition bin_label (min size : number) (index : Z) : string :=
  toFixed2 (add min (mul (of_Z index) size)) ++ " - "
  ++ toFixed2 (add min (mul (of_Z (index + 1)) size)).

Fixpoint label_bins (min size : number) (index : Z) (bins : list Z)
  : list ChartPoint :=
  match bins with
  | [] => []
  | c :: rest =>
      {| name := bin_label min size index; value := c |}
      :: label_bins min size (index + 1) rest
  end.

Definition numericSeries (data : list record) (column : string)
  : list ChartPoint :=
  let min := chart_min data column in
  let size := binSize data column in
  label_bins min size 0
    (fill_bins min size (binCount data column) (numericValues data column)).

(** *** The categorical branch *)

(** [String(curr[column] ?? 'undefined')]. *)
Definition category_key (column : string) (curr : record) : string :=
  ToString (coalesce (get curr column) (VStr "undefined")).

Definition groupedData (data : list record) (column : string) : counter :=
  fold_left (fun acc curr => bump acc (category_key column curr)) data [].

Definition to_point (e : string * Z) : ChartPoint :=
  {| name := fst e; value := snd e |}.

(** [(a, b) => b.value - a.value]. *)
Definition by_value_desc (a b : ChartPoint) : Z := value b - value a.

Definition rankedCategories (data : list record) (column : string)
  : list ChartPoint :=
  Array_sort by_value_desc (map to_point (Object_entries (groupedData data column))).

Definition categoricalSeries (data : list record) (column : string)
  : list ChartPoint :=
  firstn 10 (rankedCategories data column).

(** *** [processDataForChart] *)

Definition processDataForChart (data : list record) (column : string)
  : list ChartPoint :=
  match data with
  | [] => []
  | first :: _ =>
      if String.eqb column "" then []
      else if typeof_number (get first column)
           then numericSeries data column
           else categoricalSeries data column
  end.

End Chart.

(** ** Schema and analysis results *)

Module Data.
Import JS.

Record Column : Type := { col_name : string; col_type : string }.

Record Schema : Type := { tableName : string; columns : list Column }.

Inductive ChartType : Type := pie | bar | line.

Record AnalysisResult : Type := {
  answer : string;
  sqlQuery : string;
  needsChart : bool;
  chartType : option ChartType;
  chartDataColumn : string;
  chartData : option (list Chart.ChartPoint)
}.

End Data.

(** ** [src/utils/openai.ts] *)

Module OpenAI.
Import JS Data.

(** *** Column statistics ([schemaInfo]) *)

Record ColumnInfo : Type := {
  info_name : string;
  info_type : string;
  uniqueCount : Z;
  totalCount : Z
}.

(** The set holds the values as they are, not their text. *)
Definition columnInfo (data : list Chart.record) (col : Column) : ColumnInfo :=
  {| info_name := col_name col;
     info_type := col_type col;
     uniqueCount := Set_size (Chart.uniqueValues data (col_name col));
     totalCount := Z.of_nat (List.length data) |}.

Definition schemaInfo (schema : Schema) (data : list Chart.record)
  : list ColumnInfo :=
  map (columnInfo data) (columns schema).

(** *** Chart backfill (lines 112-127) *)

(** [String(row[selectedColumn] || 'Unknown')]. *)
Definition backfill_key (selectedColumn : string) (row : Chart.record) : string :=
  ToString (or_else (Chart.get row selectedColumn) (VStr "Unknown")).

(** The [Map] of counts; its entries come back in insertion order. *)
Definition aggregatedData (data : list Chart.record) (selectedColumn : string)
  : Chart.counter :=
  fold_left (fun m row => Chart.bump m (backfill_key selectedColumn row)) data [].

Definition backfillSeries (data : list Chart.record) (selectedColumn : string)
  : list Chart.ChartPoint :=
  map Chart.to_point (aggregatedData data selectedColumn).

Definition point_to_json (p : Chart.ChartPoint) : json :=
  JObject [("name", JString (Chart.name p));
           ("value", JNumber (of_Z (Chart.value p)))].

Fixpoint set_member (members : list (string * json)) (key : string) (v : json)
  : list (string * json) :=
  match members with
  | [] => [(key, v)]
  | (k, w) :: rest =>
      if String.eqb k key then (k, v) :: rest
      else (k, w) :: set_member rest key v
  end.

(** [schema.columns[0].name]. *)
Definition first_column_name (schema : Schema) : completion string :=
  match columns schema with
  | c :: _ => Normal (col_name c)
  | [] => Throw (Error "Cannot read properties of undefined (reading 'name')")
  end.

(** [result.chartDataColumn || schema.columns[0].name]. *)
Definition selectedColumn (schema : Schema) (chartDataColumn : option json)
  : completion json :=
  match chartDataColumn with
  | Some j =>
      if json_truthy chartDataColumn then Normal j
      else name <- first_column_name schema ;; Normal (JString name)
  | None => name <- first_column_name schema ;; Normal (JString name)
  end.

(** The [forEach] and the [Array.from]: [selected] becomes a property key on
    the first record read, and never with no record to read. *)
Definition aggregate (data : list Chart.record) (selected : json)
  : completion (list Chart.ChartPoint) :=
  match data with
  | [] => Normal []
  | _ => key <- json_ToString selected ;; Normal (backfillSeries data key)
  end.

(** [if (result.needsChart && !result.chartData) { ... }]. *)
Definition backfill (schema : Schema) (data : list Chart.record) (result : json)
  : completion json :=
  wants <- property result "needsChart" ;;
  if json_truthy wants then
    given <- property result "chartData" ;;
    if json_truthy given then Normal result
    else
      column <- property result "chartDataColumn" ;;
      selected <- selectedColumn schema column ;;
      series <- aggregate data selected ;;
      match result with
      | JObject members =>
          Normal (JObject (set_member members "chartData"
                             (JArray (map point_to_json series))))
      | _ => Normal result
      end
  else Normal result.

(** *** [analyzeDataWithAI], from the reply of the POST on *)

Record OllamaResponse : Type := {
  response : option string;
  error : option string
}.

Inductive post_outcome : Type :=
| Rejected (e : thrown)
| Fulfilled (body : OllamaResponse).

Definition text_truthy (s : option string) : bool :=
  match s with
  | Some t => negb (String.eqb t "")
  | None => false
  end.

Section Reply.

(** [JSON.parse]: the value read, or the [SyntaxError] raised. *)
Variable JSON_parse : string -> completion json.

(** [response.data.response || '{}']. *)
Definition text_or (s : option string) (default : string) : string :=
  match s with
  | Some t => if String.eqb t "" then default else t
  | None => default
  end.

(** The body of the first [try] (lines 88-129). *)
Definition first_pass (schema : Schema) (data : list Chart.record)
    (outcome : post_outcome) : completion json :=
  match outcome with
  | Rejected e => Throw e
  | Fulfilled body =>
      if text_truthy (error body) then Throw (Error (text_or (error body) ""))
      else
        result <- JSON_parse (text_or (response body) "{}") ;;
        backfill schema data result
  end.

(** Its handler (lines 130-158) names the module's default export where it
    means the caught value: [axios.isAxiosError] is false on that export, and
    the handler throws the export itself. *)
Definition first_try (schema : Schema) (data : list Chart.record)
    (outcome : post_outcome) : completion json :=
  match first_pass schema data outcome with
  | Normal result => Normal result
  | Throw _ => Throw AxiosExport
  end.

(** [error instanceof Error ? error : new Error(...)] (lines 228-234). *)
Definition readable (e : thrown) : thrown :=
  match e with
  | Error m => Error m
  | AxiosExport => Error "An unexpected error occurred while analyzing data"
  end.

(** [analyzeDataWithAI] once the POST has settled.  The first [try] returns
    or throws, so lines 160-227 are never run. *)
Definition analyzeDataWithAI_resume (schema : Schema)
    (data : list Chart.record) (outcome : post_outcome) : completion json :=
  match first_try schema data outcome with
  | Normal result => Normal result
  | Throw e => Throw (readable e)
  end.

(** *** The second reading of the reply (lines 184-213) *)

Definition requiredFields : list string :=
  ["answer"; "sqlQuery"; "needsChart"; "chartType"; "chartDataColumn"].

(** [field in parsed]. *)
Definition has_field (parsed : json) (field : string) : completion bool :=
  match parsed with
  | JObject members =>
      Normal (match member_of members field with Some _ => true | None => false end)
  | JArray _ => Normal false
  | _ => Throw (Error ("Cannot use 'in' operator to search for '" ++ field ++ "'"))
  end.

Definition extract_result (resultText : string) : completion json :=
  match match_braces resultText with
  | None => Throw (Error "No JSON found in Ollama response")
  | Some jsonStr =>
      parsed <- JSON_parse jsonStr ;;
      present <- mapM (has_field parsed) requiredFields ;;
      let missingFields :=
        map fst (filter (fun fp => negb (snd fp)) (combine requiredFields present)) in
      if is_nil missingFields then Normal parsed
      else Throw (Error ("Missing required fields in response: "
                         ++ join_with ", " missingFields))
  end.

Definition error_message (e : thrown) : string :=
  match e with
  | Error m => m
  | AxiosExport => "Unknown error"
  end.

(** The [try]/[catch] of lines 184-213: every failure is thrown again. *)
Definition parseResultText (resultText : string) : completion json :=
  match extract_result resultText with
  | Normal parsed => Normal parsed
  | Throw parseError =>
      Throw (Error ("Failed to parse Ollama response: " ++ error_message parseError))
  end.

End Reply.

End OpenAI.

(** ** [src/App.tsx] *)

Module App.
Import JS Data.

(** *** Greetings *)

Definition greetings : list string := ["hi"; "hello"; "hey"; "greetings"].

(** [greetings.includes(query.toLowerCase().trim())]. *)
Definition is_greeting (query : string) : bool :=
  existsb (String.eqb (trim (toLowerCase query))) greetings.

Definition greeting_text : string :=
  "Hello! I'm your data analysis assistant. You can ask me questions about your data, and I'll help you analyze it. For example, try asking about specific columns, averages, trends, or distributions in your data.".

(** *** Column statistics ([schemaInfo], lines 1189-1208) *)

Record ColumnInfo : Type := {
  info_name : string;
  info_type : string;
  uniqueCount : Z;
  totalCount : Z;
  valueCounts : Chart.counter
}.

(** One turn of the [forEach]: the set of texts and the table of counts. *)
Definition profile_step (column : string)
    (st : list prim * Chart.counter) (item : Chart.record)
  : list prim * Chart.counter :=
  if is_present (Chart.get item column)
  then
    let value := ToString (Chart.get item column) in
    (Set_add (fst st) (VStr value), Chart.bump (snd st) value)
  else st.

Definition profile (data : list Chart.record) (column : string)
  : list prim * Chart.counter :=
  fold_left (profile_step column) data ([], []).

Definition columnInfo (data : list Chart.record) (col : Column) : ColumnInfo :=
  let st := profile data (col_name col) in
  {| info_name := col_name col;
     info_type := col_type col;
     uniqueCount := Set_size (fst st);
     totalCount := Z.of_nat (List.length data);
     valueCounts := snd st |}.

Definition schemaInfo (schema : Schema) (data : list Chart.record)
  : list ColumnInfo :=
  map (columnInfo data) (columns schema).

(** *** [analyzeDataWithAI], up to its request *)

Definition greetingResult : AnalysisResult :=
  {| answer := greeting_text;
     sqlQuery := "";
     needsChart := false;
     chartType := None;
     chartDataColumn := "";
     chartData := Some [] |}.

(** Either the function has returned, or it has sent its one request, whose
    prompt carries the column statistics, and waits for the reply. *)
Inductive run : Type :=
| Returned (result : AnalysisResult)
| Posted (statistics : list ColumnInfo).

Definition analyzeDataWithAI (query : string) (schema : Schema)
    (data : list Chart.record) : run :=
  if is_greeting query then Returned greetingResult
  else Posted (schemaInfo schema data).

(** *** [handleQuerySubmit], up to its request *)

Inductive Role : Type := user | assistant.

Record Message : Type := { role : Role; content : string }.

Record AppState : Type := {
  data : list Chart.record;
  query : string;
  isAnalyzing : bool;
  conversation : list Message;
  queryResult : option AnalysisResult
}.

Inductive submission : Type :=
| Ignored
| Settled (st : AppState)
| Fetching (st : AppState).

Definition handleQuerySubmit (st : AppState) : submission :=
  if is_nil (data st) || String.eqb (query st) "" || isAnalyzing st
  then Ignored
  else
    let newMessage := {| role := user; content := query st |} in
    if is_greeting (query st) then
      let greetingResponse := {| role := assistant; content := greeting_text |} in
      Settled {| data := data st;
                 query := "";
                 isAnalyzing := false;
                 conversation := conversation st ++ [newMessage] ++ [greetingResponse];
                 queryResult :=
                   Some {| answer := content greetingResponse;
                           sqlQuery := "";
                           needsChart := false;
                           chartType := None;
                           chartDataColumn := "";
                           chartData := None |} |}
    else
      Fetching {| data := data st;
                  query := query st;
                  isAnalyzing := true;
                  conversation := conversation st ++ [newMessage];
                  queryResult := queryResult st |}.

(** *** Reading the reply in [handleQuerySubmit] (lines 359-388) *)

Definition no_json_reply : json :=
  JObject [("answer", JString "I apologize, but I couldn't analyze the text properly. Could you please rephrase your question?");
           ("sqlQuery", JString "");
           ("visualization", JNull)].

Definition parse_error_reply : json :=
  JObject [("answer", JString "I apologize, but I encountered an error processing the response. Could you please try again?");
           ("sqlQuery", JString "");
           ("visualization", JNull)].

Section Reply.

Variable JSON_parse : string -> completion json.

Definition has_response (j : json) : completion bool :=
  r <- property j "response" ;; Normal (json_truthy r).

(** One element of [jsonResponses.map(json => json.response)] as [join]
    prints it: [undefined] and [null] as nothing. *)
Definition response_text (j : json) : completion string :=
  r <- property j "response" ;;
  match r with
  | None | Some JNull => Normal ""
  | Some v => json_ToString v
  end.

(** The text the streamed lines add up to. *)
Definition combinedResponse (responseText : string) : completion string :=
  let lines :=
    filter (fun ln => negb (String.eqb (trim ln) "")) (split_lines responseText) in
  parsed <- mapM JSON_parse lines ;;
  jsonResponses <- filterM has_response parsed ;;
  parts <- mapM response_text jsonResponses ;;
  Normal (join_with "" parts).

(** The body of the [try]. *)
Definition read_reply (responseText : string) : completion json :=
  combined <- combinedResponse responseText ;;
  match match_braces combined with
  | Some jsonStr => JSON_parse jsonStr
  | None => Normal no_json_reply
  end.

(** [llmData] after the [try]/[catch]. *)
Definition llmData (responseText : string) : json :=
  match read_reply responseText with
  | Normal d => d
  | Throw _ => parse_error_reply
  end.

End Reply.

End App.

(** ** Searching texts *)

Module Text.

Fixpoint skip (n : nat) (s : string) : string :=
  match n, s with
  | S n', String _ rest => skip n' rest
  | _, _ => s
  end.

(** [hay.includes(needle)]. *)
Fixpoint includes (hay needle : string) : bool :=
  match hay with
  | EmptyString => String.prefix needle hay
  | String _ rest => String.prefix needle hay || includes rest needle
  end.

(** The text before and the text behind the first occurrence of [pat]. *)
Fixpoint split_at (pat text : string) : option (string * string) :=
  if String.prefix pat text then Some (EmptyString, skip (String.length pat) text)
  else
    match text with
    | EmptyString => None
    | String c rest =>
        match split_at pat rest with
        | Some (before, behind) => Some (String c before, behind)
        | None => None
        end
    end.

End Text.

(** ** [src/App.tsx]: [analyzeDataWithAI] from the reply on, and its helpers *)

Module Analysis.
Import JS Data.

Definition determineChartType (response : string) : option ChartType :=
  let responseLower := toLowerCase response in
  if Text.includes responseLower "pie chart" then Some pie
  else if Text.includes responseLower "bar chart"
          || Text.includes responseLower "histogram" then Some bar
  else if Text.includes responseLower "line chart"
          || Text.includes responseLower "trend" then Some line
  else None.

(** The [for] loop: the first column whose name the reply mentions. *)
Definition mentioned_column (response : string) (columns : list Column)
  : option Column :=
  find (fun column =>
          Text.includes (toLowerCase response) (toLowerCase (col_name column)))
       columns.

Definition determineChartColumn (response : string) (columns : list Column)
  : completion string :=
  match mentioned_column response columns with
  | Some column => Normal (col_name column)
  | None =>
      match find (fun col => String.eqb (col_type col) "number") columns with
      | Some numericColumn => Normal (col_name numericColumn)
      | None =>
          match columns with
          | c :: _ => Normal (col_name c)
          | [] => Throw (Error "Cannot read properties of undefined (reading 'name')")
          end
      end
  end.

Definition newline : string := String "010" EmptyString.

Definition sql_open : string := "```sql" ++ newline.
Definition sql_close : string := newline ++ "```".

(** The group of [llmResponse.match(/```sql\n([\s\S]*?)\n```/)]: the text
    between the first opening fence and the first closing fence behind it. *)
Definition sqlMatch (llmResponse : string) : option string :=
  match Text.split_at sql_open llmResponse with
  | Some (_, rest) =>
      match Text.split_at sql_close rest with
      | Some (body, _) => Some body
      | None => None
      end
  | None => None
  end.

(** [llmResponse.replace(/```sql\n[\s\S]*?\n```/g, '')]: every fenced block
    is cut out, from the left.  Each step consumes a block, so [fuel] equal
    to the length of the text is never used up (lemma [strip_sql_fuel]). *)
Fixpoint strip_sql (fuel : nat) (text : string) : string :=
  match fuel with
  | O => text
  | S fuel' =>
      match Text.split_at sql_open text with
      | Some (before, rest) =>
          match Text.split_at sql_close rest with
          | Some (_, behind) => before ++ strip_sql fuel' behind
          | None => text
          end
      | None => text
      end
  end.

Definition without_sql (text : string) : string :=
  strip_sql (String.length text) text.

Definition wants_chart (llmResponse : string) : bool :=
  Text.includes (toLowerCase llmResponse) "visualiz"
  || Text.includes (toLowerCase llmResponse) "chart".

(** The result object and the chart data added to it (lines 1265-1283). *)
Definition reply_result (schema : Schema) (data : list Chart.record)
    (llmResponse : string) : completion AnalysisResult :=
  column <- determineChartColumn llmResponse (columns schema) ;;
  Normal
    {| answer := trim (without_sql llmResponse);
       sqlQuery := match sqlMatch llmResponse with
                   | Some body => trim body
                   | None => ""
                   end;
       needsChart := wants_chart llmResponse;
       chartType := determineChartType llmResponse;
       chartDataColumn := column;
       chartData :=
         if wants_chart llmResponse && negb (String.eqb column "")
         then Some (Chart.processDataForChart data column)
         else None |}.

(** [error instanceof Error ? error.message : '...']. *)
Definition failure_message (e : thrown) : string :=
  match e with
  | Error m => m
  | AxiosExport => "An unexpected error occurred while analyzing data"
  end.

(** The result the handler returns (lines 1299-1310).  Its first branch, for
    a schema that is null or has no column list, is not modelled: a schema
    is a record here, and with a null schema the column statistics computed
    before the [try] already fail. *)
Definition failure_result (e : thrown) : AnalysisResult :=
  {| answer :=
       "I apologize, but I encountered an issue while processing your request. "
       ++ failure_message e
       ++ ". Please try asking a more specific question about your data.";
     sqlQuery := "";
     needsChart := false;
     chartType := None;
     chartDataColumn := "";
     chartData := Some [] |}.

(** The body of the [try] once the POST has settled. *)
Definition attempt (schema : Schema) (data : list Chart.record)
    (outcome : OpenAI.post_outcome) : completion AnalysisResult :=
  match outcome with
  | OpenAI.Rejected e => Throw e
  | OpenAI.Fulfilled body =>
      if OpenAI.text_truthy (OpenAI.response body)
      then reply_result schema data (OpenAI.text_or (OpenAI.response body) "")
      else Throw (Error "Invalid response from Ollama")
  end.

Definition analyzeDataWithAI_resume (schema : Schema) (data : list Chart.record)
    (outcome : OpenAI.post_outcome) : AnalysisResult :=
  match attempt schema data outcome with
  | Normal result => result
  | Throw e => failure_result e
  end.

End Analysis.

(** ** [src/App.tsx]: [handleQuerySubmit] from the reply of its fetch on *)

Module Submit.
Import JS Data.

Record Turn : Type := { speaker : App.Role; said : json }.

(** The object given to [setQueryResult]; the three merged fields hold
    whatever the reply held. *)
Record Shown : Type := {
  shown_answer : json;
  shown_sqlQuery : json;
  shown_chartType : json;
  shown_needsChart : bool;
  shown_chartDataColumn : string;
  shown_chartData : option (list Chart.ChartPoint)
}.

Record Settlement : Type := {
  conversation : list Turn;
  queryResult : Shown;
  query : string;
  isAnalyzing : bool
}.

Definition turn_of (m : App.Message) : Turn :=
  {| speaker := App.role m; said := JString (App.content m) |}.

Definition chartType_value (t : option ChartType) : json :=
  match t with
  | None => JNull
  | Some pie => JString "pie"
  | Some bar => JString "bar"
  | Some line => JString "line"
  end.

(** [a || b] with [a] read from the reply. *)
Definition or_value (a : option json) (b : json) : json :=
  match a with
  | Some v => if json_truthy a then v else b
  | None => b
  end.

Section Resume.

Variable JSON_parse : string -> completion json.

(** [analyzeData] of [utils/api], which is not part of these sources. *)
Variable analyzeData :
  string -> Schema -> list Chart.record -> completion AnalysisResult.

Definition analyzeQuery (schema : option Schema) (data : list Chart.record)
    (query : string) : completion AnalysisResult :=
  match schema with
  | Some sch =>
      if is_nil data then Throw (Error "Please upload data first")
      else analyzeData query sch data
  | None => Throw (Error "Please upload data first")
  end.

(** The [try] from the reply on (lines 356-407): the turn to add and the
    result to show. *)
Definition settle (st : App.AppState) (schema : option Schema)
    (fetched : completion string) : completion (Turn * Shown) :=
  responseText <- fetched ;;
  let llmData := App.llmData JSON_parse responseText in
  result <- analyzeQuery schema (App.data st) (App.query st) ;;
  answer <- property llmData "answer" ;;
  sql <- property llmData "sqlQuery" ;;
  visualization <- property llmData "visualization" ;;
  Normal
    ({| speaker := App.assistant;
        said := or_value answer (JString (Data.answer result)) |},
     {| shown_answer := or_value answer (JString (Data.answer result));
        shown_sqlQuery := or_value sql (JString (Data.sqlQuery result));
        shown_chartType := or_value visualization (chartType_value (Data.chartType result));
        shown_needsChart := Data.needsChart result;
        shown_chartDataColumn := Data.chartDataColumn result;
        shown_chartData := Data.chartData result |}).

Definition errorMessage (e : thrown) : string :=
  match e with
  | Error m =>
      "I apologize, but I encountered an error while processing your query: " ++ m
  | AxiosExport =>
      "I apologize, but something went wrong. Could you please rephrase your question?"
  end.

(** [handleQuerySubmit] after its fetch, from the state [st] it had reached
    while fetching: the [try], its [catch] and its [finally]. *)
Definition resume (st : App.AppState) (schema : option Schema)
    (fetched : completion string) : Settlement :=
  match settle st schema fetched with
  | Normal (turn, shown) =>
      {| conversation := map turn_of (App.conversation st) ++ [turn];
         queryResult := shown;
         query := "";
         isAnalyzing := false |}
  | Throw e =>
      {| conversation :=
           map turn_of (App.conversation st)
           ++ [ {| speaker := App.assistant; said := JString (errorMessage e) |} ];
         queryResult :=
           {| shown_answer := JString (errorMessage e);
              shown_sqlQuery := JString "";
              shown_chartType := JNull;
              shown_needsChart := false;
              shown_chartDataColumn := "";
              shown_chartData := None |};
         query := App.query st;
         isAnalyzing := false |}
  end.

End Resume.

End Submit.

(** ** [src/App.tsx]: the pages of the data table *)

Module Pages.

Definition rowsPerPage : Z := 10.

(** [Math.ceil(data.length / rowsPerPage)]. *)
Definition totalPages {A : Type} (data : list A) : Z :=
  Qceiling (inject_Z (Z.of_nat (List.length data)) / inject_Z rowsPerPage).

(** [l.slice(start, end)]: a negative bound counts from the end, and both
    bounds are brought into the array. *)
Definition Array_slice {A : Type} (l : list A) (start stop : Z) : list A :=
  let len := Z.of_nat (List.length l) in
  let k := if start <? 0 then Z.max (len + start) 0 else Z.min start len in
  let final := if stop <? 0 then Z.max (len + stop) 0 else Z.min stop len in
  firstn (Z.to_nat (final - k)) (skipn (Z.to_nat k) l).

Definition paginatedData {A : Type} (data : list A) (currentPage : Z) : list A :=
  Array_slice data ((currentPage - 1) * rowsPerPage) (currentPage * rowsPerPage).

(** The three controls: the Previous button, the Next button and the page
    number typed in, as [parseInt] reads it ([None] for [NaN]). *)
Inductive control : Type :=
| Previous
| Next
| Typed (value : option Z).

Definition turn_page (total : Z) (currentPage : Z) (c : control) : Z :=
  match c with
  | Previous => Z.max 1 (currentPage - 1)
  | Next => Z.min total (currentPage + 1)
  | Typed (Some value) =>
      if (1 <=? value) && (value <=? total) then value else currentPage
  | Typed None => currentPage
  end.

End Pages.

(** ** [src/App.tsx]: the schema of an upload and the chart of a chosen column *)

Module Explore.
Import JS Data.

(** [detectColumnType].  A [Date], which the values modelled here leave out,
    would give "datetime". *)
Definition detectColumnType (v : prim) : string :=
  match v with
  | VNum _ => "number"
  | VBool _ => "boolean"
  | _ => "string"
  end.

Definition key_order (a b : string) : Z :=
  match Chart.array_index a, Chart.array_index b with
  | Some i, Some j => Z.of_N i - Z.of_N j
  | _, _ => 0
  end.

(** [Object.keys(firstRow)]: array-index keys first, in ascending order. *)
Definition Object_keys (item : Chart.record) : list string :=
  Chart.Array_sort key_order (filter Chart.is_array_index (map fst item))
  ++ filter (fun k => negb (Chart.is_array_index k)) (map fst item).

(** The columns [handleFileUpload] derives from the first row. *)
Definition inferColumns (firstRow : Chart.record) : list Column :=
  map (fun key => {| col_name := key;
                     col_type := detectColumnType (Chart.get firstRow key) |})
      (Object_keys firstRow).

(** A point of [updateChartData]: its value is a count or a cell. *)
Record Point : Type := { name : string; value : number }.

Record QueryResult : Type := {
  answer : string;
  sqlQuery : string;
  needsChart : bool;
  chartType : ChartType;
  chartData : list Point;
  chartDataColumn : string
}.

(** [v?.toString()]: [None] is [undefined]. *)
Definition toString_opt (v : prim) : option string :=
  match v with
  | VUndefined | VNull => None
  | _ => Some (ToString v)
  end.

(** [v?.toString() || fallback]. *)
Definition text_or (v : prim) (fallback : string) : string :=
  match toString_opt v with
  | Some t => if String.eqb t "" then fallback else t
  | None => fallback
  end.

Section Update.

(** The global [parseFloat]. *)
Variable parseFloat : string -> number.

Fixpoint rows_from (index : Z) (columnName : string) (data : list Chart.record)
  : list Point :=
  match data with
  | [] => []
  | row :: rest =>
      {| name := "Row " ++ digits_of_Z (index + 1);
         value := match Chart.get row columnName with
                  | VNum n => n
                  | v => parseFloat (text_or v "0")
                  end |}
      :: rows_from (index + 1) columnName rest
  end.

(** [row[columnName]?.toString() || 'Unknown']. *)
Definition value_key (columnName : string) (row : Chart.record) : string :=
  text_or (Chart.get row columnName) "Unknown".

Definition valueCounts (data : list Chart.record) (columnName : string)
  : Chart.counter :=
  fold_left (fun acc row => Chart.bump acc (value_key columnName row)) data [].

Definition count_point (e : string * Z) : Point :=
  {| name := fst e; value := of_Z (snd e) |}.

Definition transformedData (data : list Chart.record) (column : Column)
    (columnName : string) : list Point :=
  if String.eqb (col_type column) "number"
  then rows_from 0 columnName data
  else map count_point (Chart.Object_entries (valueCounts data columnName)).

(** [updateChartData]: the result it sets, or [None] when it returns without
    setting one. *)
Definition updateChartData (data : list Chart.record) (schema : option Schema)
    (chartType : ChartType) (columnName : string) : option QueryResult :=
  match schema with
  | None => None
  | Some sch =>
      match find (fun col => String.eqb (col_name col) columnName) (columns sch) with
      | None => None
      | Some column =>
          Some {| answer := "Data loaded successfully";
                  sqlQuery := "";
                  needsChart := true;
                  chartType := chartType;
                  chartData := transformedData data column columnName;
                  chartDataColumn := columnName |}
      end
  end.

End Update.

End Explore.

(** ** The arithmetic of binary64 *)

Module Binary64.
Import JS.

Definition pow2 (e : Z) : Q := Qpower (2 # 1) e.

(** The [e] with [2^e <= q < 2^(e+1)], for a positive [q]. *)
Definition exponent (q : Q) : Z :=
  let e := Z.log2 (Qnum q) - Z.log2 (Z.pos (Qden q)) in
  if Qle_bool (pow2 e) q then e else e - 1.

(** The integer nearest to [q], the even one of two that are equally near. *)
Definition nearest_even (q : Q) : Z :=
  let f := Qfloor q in
  match Qcompare (q - inject_Z f) (1 # 2) with
  | Lt => f
  | Gt => f + 1
  | Eq => if Z.even f then f else f + 1
  end.

(** The binary64 value nearest to a positive [q]: a multiple of the unit in
    the last of 53 significant bits, which is never below [2^-1074], and
    [Infinity] when that multiple reaches [2^1024]. *)
Definition round_positive (q : Q) : number :=
  let ulp := pow2 (Z.max (exponent q - 52) (-1074)) in
  let r := (inject_Z (nearest_even (q / ulp)) * ulp)%Q in
  if Qle_bool (pow2 1024) r then PInf else Fin r.

Definition round (q : Q) : number :=
  match Qcompare q 0 with
  | Eq => Fin 0
  | Gt => round_positive q
  | Lt => neg (round_positive (- q))
  end.

Definition nearest (x : number) : number :=
  match x with
  | Fin q => round q
  | _ => x
  end.

(** The four operations: the exact result, rounded. *)
Definition add (x y : number) : number := nearest (JS.add x y).
Definition sub (x y : number) : number := nearest (JS.sub x y).
Definition mul (x y : number) : number := nearest (JS.mul x y).
Definition div (x y : number) : number := nearest (JS.div x y).

(** The number a float of the kernel stands for, and the comparison of the
    operations above with the kernel's. *)
Definition of_float (f : float) : number :=
  match Prim2SF f with
  | S754_zero _ => Fin 0
  | S754_infinity false => PInf
  | S754_infinity true => NInf
  | S754_nan => NaN
  | S754_finite s m e =>
      Fin ((if s then - (1) else 1) * inject_Z (Z.pos m) * pow2 e)%Q
  end.

Definition same (x y : number) : bool :=
  match x, y with
  | NaN, NaN | PInf, PInf | NInf, NInf => true
  | Fin a, Fin b => Qeq_bool a b
  | _, _ => false
  end.

Definition agree (f : float -> float -> float) (g : number -> number -> number)
    (a b : float) : bool :=
  same (of_float (f a b)) (g (of_float a) (of_float b)).

End Binary64.

(** ** The chart builder and the analysis of [App.tsx] as an engine runs them *)

Module Engine.
Import JS Data.

(** [ToNumber] with its result in binary64. *)
Definition number_of (v : prim) : number := Binary64.nearest (ToNumber v).

Definition chart_min (data : list Chart.record) (column : string) : number :=
  Math_min (map number_of (Chart.numericValues data column)).

Definition chart_max (data : list Chart.record) (column : string) : number :=
  Math_max (map number_of (Chart.numericValues data column)).

Definition chart_range (data : list Chart.record) (column : string) : number :=
  Binary64.sub (chart_max data column) (chart_min data column).

Definition binSize (data : list Chart.record) (column : string) : number :=
  Binary64.div (chart_range data column) (of_Z (Chart.binCount data column)).

(** [Math.min(Math.floor((value - min) / binSize), binCount - 1)]. *)
Definition binIndex (min size : number) (count : Z) (v : prim) : number :=
  Math_min2 (Math_floor (Binary64.div (Binary64.sub (number_of v) min) size))
            (of_Z (count - 1)).

Definition fill_bins (min size : number) (count : Z) (values : list prim)
  : list Z :=
  fold_left (fun bins v => Chart.increment bins (binIndex min size count v))
            values (repeat 0 (Z.to_nat count)).

Definition bin_label (min size : number) (index : Z) : string :=
  toFixed2 (Binary64.add min (Binary64.mul (of_Z index) size)) ++ " - "
  ++ toFixed2 (Binary64.add min (Binary64.mul (of_Z (index + 1)) size)).

Fixpoint label_bins (min size : number) (index : Z) (bins : list Z)
  : list Chart.ChartPoint :=
  match bins with
  | [] => []
  | c :: rest =>
      {| Chart.name := bin_label min size index; Chart.value := c |}
      :: label_bins min size (index + 1) rest
  end.

(** The series of the numeric branch once [min] and [max] are there. *)
Definition binned (data : list Chart.record) (column : string)
  : list Chart.ChartPoint :=
  label_bins (chart_min data column) (binSize data column) 0
    (fill_bins (chart_min data column) (binSize data column)
       (Chart.binCount data column) (Chart.numericValues data column)).

Section Limits.

(** The largest number of arguments the engine takes in one call, and the
    message of the [RangeError] it throws beyond that. *)
Variable argument_limit : nat.
Variable RangeError_message : string.

(** [f(...args)]. *)
Definition spread {A : Type} (f : list number -> A) (args : list number)
  : completion A :=
  if (argument_limit <? List.length args)%nat
  then Throw (Error RangeError_message)
  else Normal (f args).

(** The numeric branch (lines 257-273): [Math.min(...values)] and
    [Math.max(...values)] are the two calls that can fail. *)
Definition numericSeries (data : list Chart.record) (column : string)
  : completion (list Chart.ChartPoint) :=
  let values := Chart.numericValues data column in
  min <- spread Math_min (map number_of values) ;;
  max <- spread Math_max (map number_of values) ;;
  let binCount := Chart.binCount data column in
  let binSize := Binary64.div (Binary64.sub max min) (of_Z binCount) in
  Normal (label_bins min binSize 0 (fill_bins min binSize binCount values)).

Definition processDataForChart (data : list Chart.record) (column : string)
  : completion (list Chart.ChartPoint) :=
  match data with
  | [] => Normal []
  | first :: _ =>
      if String.eqb column "" then Normal []
      else if typeof_number (Chart.get first column)
           then numericSeries data column
           else Normal (Chart.categoricalSeries data column)
  end.

(** The result object and the chart data added to it ([App.tsx], lines
    1265-1283). *)
Definition reply_result (schema : Schema) (data : list Chart.record)
    (llmResponse : string) : completion AnalysisResult :=
  column <- Analysis.determineChartColumn llmResponse (columns schema) ;;
  chartData <-
    (if Analysis.wants_chart llmResponse && negb (String.eqb column "")
     then series <- processDataForChart data column ;; Normal (Some series)
     else Normal None) ;;
  Normal
    {| answer := trim (Analysis.without_sql llmResponse);
       sqlQuery := match Analysis.sqlMatch llmResponse with
                   | Some body => trim body
                   | None => ""
                   end;
       needsChart := Analysis.wants_chart llmResponse;
       chartType := Analysis.determineChartType llmResponse;
       chartDataColumn := column;
       chartData := chartData |}.

(** The body of the [try] once the POST has settled. *)
Definition attempt (schema : Schema) (data : list Chart.record)
    (outcome : OpenAI.post_outcome) : completion AnalysisResult :=
  match outcome with
  | OpenAI.Rejected e => Throw e
  | OpenAI.Fulfilled body =>
      if OpenAI.text_truthy (OpenAI.response body)
      then reply_result schema data (OpenAI.text_or (OpenAI.response body) "")
      else Throw (Error "Invalid response from Ollama")
  end.

Definition analyzeDataWithAI_resume (schema : Schema) (data : list Chart.record)
    (outcome : OpenAI.post_outcome) : AnalysisResult :=
  match attempt schema data outcome with
  | Normal result => result
  | Throw e => Analysis.failure_result e
  end.

End Limits.

End Engine.

(** ** Notions used in the statements *)

(** The distinct keys of a list, in the order of their first occurrence. *)
Fixpoint first_seen (keys : list string) : list string :=
  match keys with
  | [] => []
  | k :: rest => k :: filter (fun x => negb (String.eqb x k)) (first_seen rest)
  end.

(** How often [k] occurs among [keys]. *)
Definition occurrences (keys : list string) (k : string) : Z :=
  Z.of_nat (count_occ string_dec keys k).

(** The table of counts of [keys], one row per distinct key, in the order of
    first occurrence. *)
Definition count_table (keys : list string) : Chart.counter :=
  map (fun k => (k, occurrences keys k)) (first_seen keys).

(** A label that is no array-index text: [Object.entries] leaves it where it
    was created. *)
Definition plain_label (k : string) : Prop := Chart.is_array_index k = false.

(** A label that names no inherited property: the counter table holds its
    count as the source does. *)
Definition own_label (k : string) : Prop := Chart.inherited_name k = false.

(** [x] stands before [y] in [l]. *)
Definition precedes {A : Type} (l : list A) (x y : A) : Prop :=
  exists l1 l2 l3, l = (l1 ++ x :: l2 ++ y :: l3)%list.

Definition total (bins : list Z) : Z := fold_right Z.add 0 bins.




(** The order of a ranking: [b] does not count more than [a]. *)
Definition descending (a b : Chart.ChartPoint) : Prop :=
  Chart.value b <= Chart.value a.

(** Any number but [NaN]. *)
Definition is_number (x : JS.number) : Prop := x <> JS.NaN.

(** The texts of the values present in a column, record by record. *)
Definition texts (data : list Chart.record) (column : string) : list string :=
  map JS.ToString (filter JS.is_present (Chart.column_values data column)).


(** The white space and the line terminators of ECMAScript, each as its
    UTF-8 bytes: tab, line feed, vertical tab, form feed, carriage return,
    space, U+00A0, U+1680, U+2000 to U+200A, U+2028, U+2029, U+202F, U+205F,
    U+3000 and U+FEFF. *)
Definition white_space : list (list ascii) :=
  [ ["009"]; ["010"]; ["011"]; ["012"]; ["013"]; [" "];
    ["194"; "160"];
    ["225"; "154"; "128"];
    ["226"; "128"; "128"]; ["226"; "128"; "129"]; ["226"; "128"; "130"];
    ["226"; "128"; "131"]; ["226"; "128"; "132"]; ["226"; "128"; "133"];
    ["226"; "128"; "134"]; ["226"; "128"; "135"]; ["226"; "128"; "136"];
    ["226"; "128"; "137"]; ["226"; "128"; "138"];
    ["226"; "128"; "168"]; ["226"; "128"; "169"]; ["226"; "128"; "175"];
    ["226"; "129"; "159"];
    ["227"; "128"; "128"];
    ["239"; "187"; "191"] ]%char.

(** [ws] is white space from end to end. *)
Definition blank (ws : list ascii) : Prop :=
  exists units,
    Forall (fun u => In u white_space) units /\ ws = List.concat units.

(** [c] is the lower-case letter [d] or its capital. *)
Definition same_letter (c d : ascii) : Prop :=
  (97 <= N_of_ascii d <= 122)%N
  /\ (c = d \/ N_of_ascii d = (N_of_ascii c + 32)%N).

(** [s] spells the lower-case word [word] in some casing. *)
Definition casing_of (s word : string) : Prop :=
  Forall2 same_letter (list_ascii_of_string s) (list_ascii_of_string word).

(** ** Sample inputs *)

(** One record per number, all under the same column. *)
Definition number_rows (column : string) (ns : list Z) : list Chart.record :=
  map (fun n => [(column, JS.VNum (JS.of_Z n))]) ns.

Definition ages : list Chart.record := number_rows "age" [20; 25; 30; 90].

Definition letters : list Chart.record :=
  [ [("c", JS.VStr "a")]; [("c", JS.VStr "a")]; [("c", JS.VStr "b")];
    [("c", JS.VStr "c")]; [("c", JS.VStr "c")] ].

Definition mixed_labels : list Chart.record :=
  [ [("c", JS.VStr "x")]; [("c", JS.VNum (JS.of_Z 2))];
    [("c", JS.VNum (JS.of_Z 1))]; [("c", JS.VNull)] ].

Definition late_numbers : list Chart.record :=
  [ [("x", JS.VNull)]; [("x", JS.VNum (JS.of_Z 1))]; [("x", JS.VNum (JS.of_Z 2))];
    [("y", JS.VNum (JS.of_Z 3))] ].

Definition one_row : list Chart.record := [ [("a", JS.VNum (JS.of_Z 1))] ].

Definition eleven : list Chart.record :=
  number_rows "k" [1; 2; 3; 4; 5; 6; 7; 8; 9; 10; 11].

Definition chart_wanted : JS.json :=
  JS.JObject [("needsChart", JS.JBool true);
              ("chartDataColumn", JS.JString "k")].

Definition column_c : Data.Column :=
  {| Data.col_name := "c"; Data.col_type := "number" |}.

Definition only_null : list Chart.record := [ [("c", JS.VNull)] ].

Definition one_and_text : list Chart.record :=
  [ [("c", JS.VNum (JS.of_Z 1))]; [("c", JS.VStr "1")] ].

(** A parser that accepts nothing. *)
Definition rejecting_parser (text : string) : JS.completion JS.json :=
  JS.Throw (JS.Error "Unexpected token in JSON").


Definition prose : string := "I cannot answer that from the data.".


(** The greeting HeLLo behind a no-break space and two spaces and before an
    em space (U+2003) and a line feed. *)
Definition loaded : App.AppState :=
  {| App.data := one_row;
     App.query :=
       String "194" (String "160" "  HeLLo")
       ++ String "226" (String "128" (String "131" (String "010" "")));
     App.isAnalyzing := false;
     App.conversation := [];
     App.queryResult := None |}.

(** ** Notions and sample inputs of the further properties *)

(** An engine with room for 100 arguments in a call, and the message of its
    [RangeError]. *)
Definition argument_room : nat := 100.

Definition stack_message : string := "Maximum call stack size exceeded".





(** The largest number of binary64, and a column that holds it and its
    opposite. *)
Definition largest : Z := (2 ^ 53 - 1) * 2 ^ 971.

Definition extremes : list Chart.record := number_rows "x" [- largest; largest].

(** A column of multiples of the smallest positive number of binary64,
    [2^-1074]: 0 to 9 times and 16 times. *)
Definition smallest_multiples : list Chart.record :=
  map (fun k => [("x", JS.VNum (JS.Fin (k # 2 ^ 1074)))])
      [0; 1; 2; 3; 4; 5; 6; 7; 8; 9; 16].

(** Pairs of floats, some of whose sums, differences, products and quotients
    are inexact, overflow or fall below the normal numbers. *)
Definition float_pairs : list (float * float) :=
  [ (1, 3); (2, 3); (1, 10); (7, 3); (70, 9); (-1, 3);
    (0x1.999999999999ap-4, 0x1.999999999999ap-3);
    (0x1.3333333333333p-2, 0x1.999999999999ap-4);
    (0x1.fffffffffffffp+1023, -0x1.fffffffffffffp+1023);
    (0x1.fffffffffffffp+1023, 0x1p+970);
    (0x1.fffffffffffffp+1023, 0x1.fffffffffffffp+969);
    (0x1p-1074, 2); (0x1p-1074, 3); (0x1.8p-1073, 2); (0x1.4p-1072, 2);
    (0x1p-1074, 0x1p-1); (0x1p-1074, 0x1.8p-1);
    (0x1p-1022, 2); (0x1p-1022, 3); (0x1p-1021, 3);
    (0x1.2p+3, 0x1p-1000); (0x1p+600, 0x1p+600); (0x1p-600, 0x1p-600);
    (0x1p+53, 1); (0x1p+53, 3); (10, 0x1p-1073) ]%float.

(** The reply holds the name, whatever the casing of either. *)
Definition mentions (response name : string) : Prop :=
  exists before behind,
    JS.toLowerCase response = (before ++ JS.toLowerCase name ++ behind)%string.

Definition sales_schema : Data.Schema :=
  {| Data.tableName := "sales";
     Data.columns := [ {| Data.col_name := "Region"; Data.col_type := "string" |};
                       {| Data.col_name := "Amount"; Data.col_type := "number" |} ] |}.

Definition sales : list Chart.record :=
  [ [("Region", JS.VStr "north"); ("Amount", JS.VNum (JS.of_Z 10))];
    [("Region", JS.VStr "south"); ("Amount", JS.VNum (JS.of_Z 30))] ].

(** A state in which a question on the sales waits to be submitted. *)
Definition asking : App.AppState :=
  {| App.data := sales;
     App.query := "total amount per region";
     App.isAnalyzing := false;
     App.conversation := [];
     App.queryResult := None |}.

(** A stand-in for [analyzeData] that always answers the same. *)
Definition fixed_analysis (query : string) (schema : Data.Schema)
    (data : list Chart.record) : JS.completion Data.AnalysisResult :=
  JS.Normal {| Data.answer := "Here is the total.";
               Data.sqlQuery := "SELECT 1";
               Data.needsChart := true;
               Data.chartType := Some Data.bar;
               Data.chartDataColumn := "Amount";
               Data.chartData := Some [] |}.

(** The page numbers [1 .. count]. *)
Definition page_numbers (count : Z) : list Z :=
  map (fun i => Z.of_nat i + 1) (seq 0 (Z.to_nat count)).

(** The page reached from [currentPage] by using the controls one after the
    other. *)
Definition browse (total currentPage : Z) (controls : list Pages.control) : Z :=
  fold_left (Pages.turn_page total) controls currentPage.

(** Twenty-three rows. *)
Definition rows23 : list Z := map Z.of_nat (seq 0 23).

(** A stand-in for [parseFloat] that reads nothing. *)
Definition reads_nothing (text : string) : JS.number := JS.NaN.

(** Answers of a survey, some of them missing. *)
Definition survey : list Chart.record :=
  [ [("Name", JS.VStr "Ada"); ("Member", JS.VBool false)];
    [("Name", JS.VStr ""); ("Member", JS.VBool true)];
    [("Name", JS.VNull); ("Member", JS.VBool false)];
    [("Member", JS.VBool false)] ].

(** A result object with all five fields, and a parser that reads every text
    as this object. *)
Definition full_result : JS.json :=
  JS.JObject [("answer", JS.JString "Two regions.");
              ("sqlQuery", JS.JString "SELECT 1");
              ("needsChart", JS.JBool false);
              ("chartType", JS.JNull);
              ("chartDataColumn", JS.JString "")].

Definition obliging_parser (text : string) : JS.completion JS.json :=
  JS.Normal full_result.

(** A reply with two objects in it. *)
Definition two_objects : string := "first {a} then {b} last".

(** ** Checks of the trimming and of the printing and reading of numbers *)

Example trim_beyond_ascii :
  JS.trim (String "194" (String "160" "hi")
           ++ String "227" (String "128" (String "128" " ")))
  = "hi".
Proof. reflexivity. Qed.

Example toFixed2_sample :
  JS.toFixed2 (JS.Fin (75 # 2)) = "37.50"
  /\ JS.toFixed2 (JS.Fin (- (1 # 1000))) = "-0.00"
  /\ JS.toFixed2 (JS.Fin (5 # 1000)) = "0.01"
  /\ JS.Number_toString (JS.Fin (35 # 2)) = "17.5"
  /\ JS.Number_toString (JS.Fin (- (4 # 2))) = "-2"
  /\ JS.StringToNumber " 1.5e1 " = JS.Fin ((15 # 10) * (10 # 1)).
Proof. vm_compute. repeat split. Qed.

(** ** Facts on keys and counter tables *)

Local Open Scope list_scope.

Section Counters.

Lemma mem_In (k : string) (l : list string) :
  existsb (String.eqb k) l = true <-> In k l.
Proof.
  rewrite existsb_exists. split.
  - intros [x [Hx E]]. apply String.eqb_eq in E. now subst.
  - intro H. exists k. split; [assumption | apply String.eqb_refl].
Qed.

Lemma first_seen_In (keys : list string) (k : string) :
  In k (first_seen keys) <-> In k keys.
Proof.
  induction keys as [|a keys IH]; simpl; [tauto|].
  rewrite filter_In, IH. split.
  - intros [H | [H _]]; auto.
  - intros [H | H]; [now left|].
    destruct (String.eqb_spec k a) as [E | N]; [left; congruence|].
    right. split; [assumption | reflexivity].
Qed.

Lemma first_seen_NoDup (keys : list string) : NoDup (first_seen keys).
Proof.
  induction keys as [|a keys IH]; simpl; constructor.
  - rewrite filter_In. intros [_ H]. now rewrite String.eqb_refl in H.
  - now apply NoDup_filter.
Qed.

Lemma filter_snoc_out (k a : string) (l : list string) :
  filter (fun x => negb (String.eqb x a)) (l ++ [k])
  = filter (fun x => negb (String.eqb x a)) l
    ++ (if String.eqb k a then [] else [k]).
Proof.
  rewrite filter_app. simpl. now destruct (String.eqb k a).
Qed.

Lemma first_seen_snoc (keys : list string) (k : string) :
  first_seen (keys ++ [k])
  = if existsb (String.eqb k) keys then first_seen keys
    else first_seen keys ++ [k].
Proof.
  induction keys as [|a keys IH]; simpl; [reflexivity|].
  rewrite IH. destruct (String.eqb_spec k a) as [E | N]; simpl.
  - subst a. destruct (existsb (String.eqb k) keys); [reflexivity|].
    rewrite filter_snoc_out, String.eqb_refl. now rewrite app_nil_r.
  - destruct (existsb (String.eqb k) keys); [reflexivity|].
    rewrite filter_snoc_out. now rewrite (proj2 (String.eqb_neq k a)).
Qed.

Lemma occurrences_snoc (keys : list string) (k x : string) :
  occurrences (keys ++ [k]) x
  = occurrences keys x + (if String.eqb x k then 1 else 0).
Proof.
  unfold occurrences. rewrite count_occ_app. simpl.
  destruct (string_dec k x) as [E | N].
  - subst. rewrite String.eqb_refl. lia.
  - rewrite (proj2 (String.eqb_neq x k)) by congruence. lia.
Qed.

Lemma occurrences_pos (keys : list string) (k : string) :
  In k keys <-> 0 < occurrences keys k.
Proof.
  unfold occurrences. rewrite (count_occ_In string_dec). lia.
Qed.

Variable g : string -> Z.

Lemma own_rows (l : list string) (k : string) :
  Chart.own (map (fun x => (x, g x)) l) k
  = if existsb (String.eqb k) l then Some (g k) else None.
Proof.
  induction l as [|a l IH]; simpl; [reflexivity|].
  rewrite (String.eqb_sym k a).
  destruct (String.eqb_spec a k) as [E | N]; simpl; [now subst | exact IH].
Qed.

Lemma put_rows (l : list string) (k : string) (v : Z) :
  NoDup l ->
  Chart.put (map (fun x => (x, g x)) l) k v
  = if existsb (String.eqb k) l
    then map (fun x => (x, if String.eqb x k then v else g x)) l
    else map (fun x => (x, g x)) l ++ [(k, v)].
Proof.
  induction 1 as [|a l Ha Hl IH]; simpl; [reflexivity|].
  rewrite (String.eqb_sym k a).
  destruct (String.eqb_spec a k) as [E | N]; simpl.
  - subst a. f_equal. apply map_ext_in. intros x Hx.
    destruct (String.eqb_spec x k) as [E | _]; [now subst | reflexivity].
  - rewrite IH. now destruct (existsb (String.eqb k) l).
Qed.

End Counters.

(** Counting key by key builds the table of counts. *)
Lemma tally_is_count_table (keys : list string) :
  fold_left Chart.bump keys [] = count_table keys.
Proof.
  induction keys as [|k keys IH] using rev_ind; [reflexivity|].
  rewrite fold_left_app, IH. simpl. unfold Chart.bump, Chart.count_or_zero, count_table.
  rewrite own_rows, put_rows by apply first_seen_NoDup.
  rewrite first_seen_snoc.
  assert (Hmem : forall l, existsb (String.eqb k) (first_seen l) = existsb (String.eqb k) l).
  { intro l. apply eq_true_iff_eq. now rewrite !mem_In, first_seen_In. }
  rewrite Hmem.
  destruct (existsb (String.eqb k) keys) eqn:Hk.
  - apply map_ext. intro x. rewrite occurrences_snoc.
    destruct (String.eqb_spec x k) as [E | _]; [now subst | f_equal; lia].
  - rewrite map_app. simpl. f_equal.
    + apply map_ext_in. intros x Hx. rewrite occurrences_snoc.
      destruct (String.eqb_spec x k) as [E | _]; [|f_equal; lia].
      subst x. apply first_seen_In, mem_In in Hx. congruence.
    + rewrite occurrences_snoc, String.eqb_refl.
      assert (occurrences keys k = 0); [|repeat f_equal; lia].
      unfold occurrences. rewrite (proj1 (count_occ_not_In string_dec keys k)); [reflexivity|].
      intro H. apply mem_In in H. congruence.
Qed.

(** ** Facts on [Array_sort] *)

Section Sorting.

Context {A : Type} (cmp : A -> A -> Z).

Lemma sort_insert_perm (x : A) (l : list A) :
  Permutation (Chart.sort_insert cmp x l) (x :: l).
Proof.
  induction l as [|y l IH]; simpl; [reflexivity|].
  destruct (0 <? cmp x y); [|reflexivity].
  rewrite IH. apply perm_swap.
Qed.

Lemma Array_sort_perm (l : list A) : Permutation (Chart.Array_sort cmp l) l.
Proof.
  induction l as [|x l IH]; simpl; [reflexivity|].
  rewrite sort_insert_perm. now constructor.
Qed.

(** Elements that [cmp] never puts behind one another keep their order. *)
Lemma sort_insert_filter (f : A -> bool) (x : A) (l : list A) :
  (forall y, In y l -> f x = true -> f y = true -> cmp x y <= 0) ->
  filter f (Chart.sort_insert cmp x l) = filter f (x :: l).
Proof.
  induction l as [|y l IH]; intro H; [reflexivity|].
  cbn [Chart.sort_insert]. destruct (0 <? cmp x y) eqn:E; [|reflexivity].
  cbn [filter]. rewrite IH by (intros; apply H; simpl; auto).
  cbn [filter]. destruct (f x) eqn:Fx, (f y) eqn:Fy; try reflexivity.
  apply Z.ltb_lt in E. specialize (H y (or_introl eq_refl) eq_refl Fy). lia.
Qed.

Lemma Array_sort_stable (f : A -> bool) (l : list A) :
  (forall x y, f x = true -> f y = true -> cmp x y <= 0) ->
  filter f (Chart.Array_sort cmp l) = filter f l.
Proof.
  intro H. induction l as [|x l IH]; [reflexivity|].
  cbn [Chart.Array_sort fold_right]. rewrite sort_insert_filter by (intros; now apply H).
  cbn [filter]. fold (Chart.Array_sort cmp l). now rewrite IH.
Qed.

End Sorting.

Lemma sort_insert_descending (x : Chart.ChartPoint) (l : list Chart.ChartPoint) :
  StronglySorted descending l ->
  StronglySorted descending (Chart.sort_insert Chart.by_value_desc x l).
Proof.
  induction 1 as [|y l Hl IH Hy]; simpl.
  - repeat constructor.
  - unfold Chart.by_value_desc at 1. destruct (Z.ltb_spec 0 (Chart.value y - Chart.value x)).
    + constructor; [exact IH|].
      apply (Permutation_Forall (Permutation_sym (sort_insert_perm _ x l))).
      constructor; [unfold descending; lia | exact Hy].
    + constructor; [now constructor|].
      constructor; [unfold descending; lia|].
      eapply Forall_impl; [|exact Hy]. unfold descending. intros; lia.
Qed.

Lemma Array_sort_descending (l : list Chart.ChartPoint) :
  StronglySorted descending (Chart.Array_sort Chart.by_value_desc l).
Proof.
  induction l as [|x l IH]; simpl; [constructor|].
  now apply sort_insert_descending.
Qed.

(** ** Facts on [precedes] *)

Section Precedes.

Context {A : Type}.

Lemma precedes_filter (f : A -> bool) (l : list A) (x y : A) :
  precedes l x y -> f x = true -> f y = true -> precedes (filter f l) x y.
Proof.
  intros (l1 & l2 & l3 & ->) Hx Hy.
  exists (filter f l1), (filter f l2), (filter f l3).
  rewrite filter_app. cbn [filter]. rewrite Hx, filter_app. cbn [filter].
  now rewrite Hy.
Qed.

Lemma precedes_cons (a : A) (l : list A) (x y : A) :
  precedes l x y -> precedes (a :: l) x y.
Proof.
  intros (l1 & l2 & l3 & ->). now exists (a :: l1), l2, l3.
Qed.

Lemma precedes_head (x y : A) (l : list A) : In y l -> precedes (x :: l) x y.
Proof.
  intro H. apply in_split in H as (l2 & l3 & ->). now exists [], l2, l3.
Qed.

Lemma precedes_cons_inv (a : A) (l : list A) (x y : A) :
  precedes (a :: l) x y -> (a = x /\ In y l) \/ precedes l x y.
Proof.
  intros (l1 & l2 & l3 & E). destruct l1 as [|b l1]; simpl in E.
  - injection E as -> ->. left. split; [reflexivity|].
    apply in_or_app. right. now left.
  - injection E as -> ->. right. now exists l1, l2, l3.
Qed.

Lemma precedes_unfilter (f : A -> bool) (l : list A) (x y : A) :
  precedes (filter f l) x y -> precedes l x y.
Proof.
  induction l as [|a l IH]; simpl.
  - intros (l1 & l2 & l3 & E). now destruct l1.
  - destruct (f a).
    + intro H. apply precedes_cons_inv in H as [[-> H] | H].
      * apply precedes_head. now apply filter_In in H.
      * now apply precedes_cons, IH.
    + intro H. now apply precedes_cons, IH.
Qed.

Lemma precedes_map {B : Type} (h : A -> B) (l : list A) (x y : A) :
  precedes l x y -> precedes (map h l) (h x) (h y).
Proof.
  intros (l1 & l2 & l3 & ->). exists (map h l1), (map h l2), (map h l3).
  now rewrite map_app, (map_cons h x), map_app.
Qed.

End Precedes.

(** ** The categorical branch *)

Lemma fold_left_through_map {A B C : Type} (f : A -> B -> A) (h : C -> B)
    (l : list C) (a : A) :
  fold_left (fun acc x => f acc (h x)) l a = fold_left f (map h l) a.
Proof.
  revert a. induction l as [|x l IH]; intro a; simpl; [reflexivity | apply IH].
Qed.

Lemma groupedData_table (data : list Chart.record) (column : string) :
  Chart.groupedData data column
  = count_table (map (Chart.category_key column) data).
Proof.
  unfold Chart.groupedData.
  rewrite (fold_left_through_map Chart.bump (Chart.category_key column)).
  apply tally_is_count_table.
Qed.

Lemma filter_none {A : Type} (f : A -> bool) (l : list A) :
  (forall x, In x l -> f x = false) -> filter f l = [].
Proof.
  induction l as [|x l IH]; intro H; simpl; [reflexivity|].
  rewrite (H x) by now left. apply IH. intros; apply H; now right.
Qed.

Lemma filter_all {A : Type} (f : A -> bool) (l : list A) :
  (forall x, In x l -> f x = true) -> filter f l = l.
Proof.
  induction l as [|x l IH]; intro H; simpl; [reflexivity|].
  rewrite (H x) by now left. f_equal. apply IH. intros; apply H; now right.
Qed.

(** Without array-index keys, [Object.entries] is the creation order. *)
Lemma Object_entries_plain (acc : Chart.counter) :
  (forall e, In e acc -> Chart.is_array_index (fst e) = false) ->
  Chart.Object_entries acc = acc.
Proof.
  intro H. unfold Chart.Object_entries.
  rewrite filter_none by exact H.
  rewrite filter_all; [reflexivity|].
  intros e He. now rewrite (H e He).
Qed.

Lemma count_table_keys (keys : list string) :
  map fst (count_table keys) = first_seen keys.
Proof.
  unfold count_table. rewrite map_map. simpl. apply map_id.
Qed.

Lemma ranked_plain (data : list Chart.record) (column : string) :
  (forall k, In k (map (Chart.category_key column) data) -> plain_label k) ->
  Chart.rankedCategories data column
  = Chart.Array_sort Chart.by_value_desc
      (map Chart.to_point (count_table (map (Chart.category_key column) data))).
Proof.
  intro H. unfold Chart.rankedCategories.
  rewrite groupedData_table, Object_entries_plain; [reflexivity|].
  intros e He. apply H, first_seen_In. rewrite <- count_table_keys.
  now apply in_map.
Qed.

Lemma category_key_spec (column : string) (item : Chart.record) :
  Chart.category_key column item
  = if JS.is_present (Chart.get item column)
    then JS.ToString (Chart.get item column)
    else "undefined".
Proof.
  unfold Chart.category_key, JS.coalesce.
  now destruct (JS.is_present (Chart.get item column)).
Qed.

Lemma filter_split_perm {A : Type} (f : A -> bool) (l : list A) :
  Permutation (filter f l ++ filter (fun x => negb (f x)) l) l.
Proof.
  induction l as [|x l IH]; [constructor|].
  cbn [filter]. destruct (f x); cbn [negb app].
  - now constructor.
  - rewrite <- Permutation_middle. now constructor.
Qed.

Lemma Object_entries_perm (acc : Chart.counter) :
  Permutation (Chart.Object_entries acc) acc.
Proof.
  unfold Chart.Object_entries.
  rewrite Array_sort_perm. apply filter_split_perm.
Qed.

(** A stable sort leaves tied categories in the order they came in. *)
Lemma ranking_keeps_ties (l : list Chart.ChartPoint) (a b : Chart.ChartPoint) :
  precedes (Chart.Array_sort Chart.by_value_desc l) a b ->
  Chart.value a = Chart.value b ->
  precedes l a b.
Proof.
  intros Hab Hv.
  apply (precedes_unfilter (fun p => Chart.value p =? Chart.value a)).
  rewrite <- (Array_sort_stable Chart.by_value_desc).
  - apply precedes_filter; [assumption | apply Z.eqb_refl|].
    apply Z.eqb_eq. congruence.
  - intros x y Hx Hy. apply Z.eqb_eq in Hx, Hy. unfold Chart.by_value_desc. lia.
Qed.

(** C5, as the code has it.  Take a column whose first record's value is not
    a number and whose labels name no inherited property of the counting
    object.  The series is the first 10 of the ranked categories.  Every
    value is turned into text, a null or missing value into the label
    "undefined", which is counted like any other label.  The ranked
    categories are the rows of the table of counts, one for each distinct
    text with the number of its occurrences, in descending order of count.
    The sort is stable: two categories with the same count stand as they do
    in [Object.entries] of the counts; provided no label is an array-index
    text, that is the order in which their labels were first met.  For the
    values a, a, b, c, c the tied categories come out as a, then c, then
    b. *)
Theorem categorical_series_ranked
    (data : list Chart.record) (column : string)
    (first : Chart.record) (rest : list Chart.record) :
  data = first :: rest ->
  column <> "" ->
  JS.typeof_number (Chart.get first column) = false ->
  (forall k, In k (map (Chart.category_key column) data) -> own_label k) ->
  let keys := map (Chart.category_key column) data in
  let ranked := Chart.rankedCategories data column in
  Chart.processDataForChart data column = firstn 10 ranked
  /\ (forall item, In item data ->
        Chart.category_key column item
        = if JS.is_present (Chart.get item column)
          then JS.ToString (Chart.get item column)
          else "undefined")
  /\ Permutation ranked (map Chart.to_point (count_table keys))
  /\ StronglySorted descending ranked
  /\ (forall a b, precedes ranked a b -> Chart.value a = Chart.value b ->
        precedes (map Chart.to_point
                    (Chart.Object_entries (Chart.groupedData data column))) a b)
  /\ ((forall k, In k keys -> plain_label k) ->
      forall a b, precedes ranked a b -> Chart.value a = Chart.value b ->
        precedes (first_seen keys) (Chart.name a) (Chart.name b))
  /\ Chart.processDataForChart letters "c"
     = [ {| Chart.name := "a"; Chart.value := 2 |};
         {| Chart.name := "c"; Chart.value := 2 |};
         {| Chart.name := "b"; Chart.value := 1 |} ].
Proof.
  intros -> Hcol Hfirst _ keys ranked.
  split; [|split; [|split; [|split; [|split; [|split]]]]].
  - unfold Chart.processDataForChart.
    rewrite (proj2 (String.eqb_neq column "")) by assumption.
    now rewrite Hfirst.
  - intros item _. apply category_key_spec.
  - unfold ranked, Chart.rankedCategories.
    rewrite Array_sort_perm, Object_entries_perm, groupedData_table.
    reflexivity.
  - apply Array_sort_descending.
  - intros a b. apply ranking_keeps_ties.
  - intros Hplain a b Hab Hv. rewrite <- count_table_keys.
    unfold ranked in Hab. rewrite ranked_plain in Hab by assumption.
    apply ranking_keeps_ties in Hab; [|assumption].
    apply (precedes_map (fun p => (Chart.name p, Chart.value p))) in Hab.
    rewrite map_map in Hab.
    rewrite (map_ext _ (fun e => e)) in Hab by now intros [k n].
    rewrite map_id in Hab.
    now apply (precedes_map fst) in Hab.
  - reflexivity.
Qed.

Lemma categorical_series_ranked_witness :
  let data := letters in
  let keys := map (Chart.category_key "c") data in
  let ranked := Chart.rankedCategories data "c" in
  (data = [("c", JS.VStr "a")] :: tl letters
   /\ "c" <> ""
   /\ JS.typeof_number (Chart.get [("c", JS.VStr "a")] "c") = false
   /\ (forall k, In k keys -> own_label k)
   /\ (forall k, In k keys -> plain_label k))
  /\ Chart.processDataForChart data "c" = firstn 10 ranked
  /\ StronglySorted descending ranked
  /\ (forall a b, precedes ranked a b -> Chart.value a = Chart.value b ->
        precedes (first_seen keys) (Chart.name a) (Chart.name b)).
Proof.
  assert (Hown : forall k, In k (map (Chart.category_key "c") letters) -> own_label k).
  { simpl. intros k [<- | [<- | [<- | [<- | [<- | []]]]]]; reflexivity. }
  assert (Hplain : forall k, In k (map (Chart.category_key "c") letters) -> plain_label k).
  { simpl. intros k [<- | [<- | [<- | [<- | [<- | []]]]]]; reflexivity. }
  destruct (categorical_series_ranked letters "c" [("c", JS.VStr "a")] (tl letters)
              eq_refl ltac:(discriminate) eq_refl Hown)
    as (H1 & _ & _ & H4 & _ & H6 & _).
  split; [|split; [exact H1 | split; [exact H4 | exact (H6 Hplain)]]].
  split; [reflexivity|]. split; [discriminate|]. split; [reflexivity|].
  split; [exact Hown | exact Hplain].
Defined.

(** C5 as stated fails on the column x, 2, 1, null.  The null value is
    counted, under the label "undefined"; and the four categories, all tied
    at one occurrence, come out as 1, 2, x, undefined: the label 1 stands
    before the label x although x was met first. *)
Lemma ties_follow_key_order_not_first_met :
  let series := Chart.processDataForChart mixed_labels "c" in
  let keys := map (Chart.category_key "c") mixed_labels in
  series = [ {| Chart.name := "1"; Chart.value := 1 |};
             {| Chart.name := "2"; Chart.value := 1 |};
             {| Chart.name := "x"; Chart.value := 1 |};
             {| Chart.name := "undefined"; Chart.value := 1 |} ]
  /\ first_seen keys = ["x"; "2"; "1"; "undefined"]
  /\ ~ (forall a b, precedes series a b -> Chart.value a = Chart.value b ->
          precedes (first_seen keys) (Chart.name a) (Chart.name b)).
Proof.
  cbv zeta. split; [reflexivity|]. split; [reflexivity|]. intro H.
  specialize (H {| Chart.name := "1"; Chart.value := 1 |}
                {| Chart.name := "x"; Chart.value := 1 |}).
  destruct H as (l1 & l2 & l3 & E).
  - now exists [], [{| Chart.name := "2"; Chart.value := 1 |}],
               [{| Chart.name := "undefined"; Chart.value := 1 |}].
  - reflexivity.
  - change (["x"; "2"; "1"; "undefined"]
            = l1 ++ "1" :: l2 ++ "x" :: l3) in E.
    destruct l1 as [|a1 [|a2 [|a3 [|a4 [|a5 l1]]]]]; try discriminate E.
    injection E as _ _ E. destruct l2 as [|b1 [|b2 l2]]; discriminate E.
Qed.

(** ** Length of a series *)

Lemma incr_at_length (bins : list Z) (i : nat) :
  List.length (Chart.incr_at bins i) = List.length bins.
Proof.
  revert i. induction bins as [|b bins IH]; intros [|i]; simpl; auto.
Qed.

Lemma increment_length (bins : list Z) (idx : JS.number) :
  List.length (Chart.increment bins idx) = List.length bins.
Proof.
  unfold Chart.increment. destruct (Chart.array_slot _ idx); [|reflexivity].
  apply incr_at_length.
Qed.

Lemma fill_bins_length (min size : JS.number) (count : Z) (values : list JS.prim) :
  List.length (Chart.fill_bins min size count values) = Z.to_nat count.
Proof.
  unfold Chart.fill_bins.
  assert (H : forall bins,
             List.length (fold_left (fun bins v =>
                 Chart.increment bins (Chart.binIndex min size count v)) values bins)
             = List.length bins).
  { induction values as [|v values IH]; intro bins; simpl; [reflexivity|].
    now rewrite IH, increment_length. }
  now rewrite H, repeat_length.
Qed.

Lemma label_bins_length (min size : JS.number) (index : Z) (bins : list Z) :
  List.length (Chart.label_bins min size index bins) = List.length bins.
Proof.
  revert index. induction bins as [|b bins IH]; intro index; simpl; auto.
Qed.

Lemma label_bins_values (min size : JS.number) (index : Z) (bins : list Z) :
  map Chart.value (Chart.label_bins min size index bins) = bins.
Proof.
  revert index. induction bins as [|b bins IH]; intro index; simpl; [reflexivity|].
  now rewrite IH.
Qed.

Lemma numericSeries_length (data : list Chart.record) (column : string) :
  List.length (Chart.numericSeries data column)
  = Z.to_nat (Chart.binCount data column).
Proof.
  unfold Chart.numericSeries. now rewrite label_bins_length, fill_bins_length.
Qed.

Lemma backfillSeries_table (data : list Chart.record) (selected : string) :
  OpenAI.backfillSeries data selected
  = map Chart.to_point (count_table (map (OpenAI.backfill_key selected) data)).
Proof.
  unfold OpenAI.backfillSeries, OpenAI.aggregatedData.
  rewrite (fold_left_through_map Chart.bump (OpenAI.backfill_key selected)).
  now rewrite tally_is_count_table.
Qed.

(** C3 as stated fails in the chart backfill of [utils/openai.ts]: for a
    reply that wants a chart on a column with eleven distinct values and
    carries no chartData, the backfilled series has eleven points. *)
Lemma backfill_series_of_eleven :
  exists series,
    OpenAI.backfill {| Data.tableName := "t"; Data.columns := [] |} eleven chart_wanted
    = JS.Normal (JS.JObject [("needsChart", JS.JBool true);
                             ("chartDataColumn", JS.JString "k");
                             ("chartData", JS.JArray (map OpenAI.point_to_json series))])
    /\ List.length series = 11%nat
    /\ ~ (List.length series <= 10)%nat.
Proof.
  exists (OpenAI.backfillSeries eleven "k").
  split; [reflexivity|]. split; [reflexivity|]. vm_compute. lia.
Qed.

(** C3, as the code has it.  Every series [processDataForChart] returns has
    at most 10 points, for every dataset and column.  The chart backfill of
    [utils/openai.ts] does not go through it: its series has one point for
    each distinct key of the column, in the order of first occurrence, with
    no limit. *)
Theorem series_length_bounds (data : list Chart.record) (column : string) :
  (List.length (Chart.processDataForChart data column) <= 10)%nat
  /\ OpenAI.backfillSeries data column
     = map Chart.to_point (count_table (map (OpenAI.backfill_key column) data))
  /\ List.length (OpenAI.backfillSeries data column)
     = List.length (first_seen (map (OpenAI.backfill_key column) data)).
Proof.
  split; [|split].
  - unfold Chart.processDataForChart. destruct data as [|first rest]; [simpl; lia|].
    destruct (String.eqb column ""); [simpl; lia|].
    destruct (JS.typeof_number _).
    + rewrite numericSeries_length. unfold Chart.binCount. lia.
    + unfold Chart.categoricalSeries. rewrite length_firstn. lia.
  - apply backfillSeries_table.
  - rewrite backfillSeries_table. unfold count_table. now rewrite !length_map.
Qed.

(** ** Empty inputs and absent columns *)

Lemma first_seen_repeat (k : string) (n : nat) :
  first_seen (repeat k (S n)) = [k].
Proof.
  induction n as [|n IH]; [reflexivity|].
  change (repeat k (S (S n))) with (k :: repeat k (S n)).
  cbn [first_seen]. fold (first_seen (repeat k (S n))). rewrite IH.
  simpl. now rewrite String.eqb_refl.
Qed.

Lemma occurrences_repeat (k : string) (n : nat) :
  occurrences (repeat k n) k = Z.of_nat n.
Proof.
  unfold occurrences. induction n as [|n IH]; [reflexivity|].
  simpl. destruct (string_dec k k); [|congruence]. lia.
Qed.

Lemma absent_column_keys (data : list Chart.record) (column : string) :
  (forall item, In item data -> Chart.get item column = JS.VUndefined) ->
  map (Chart.category_key column) data = repeat "undefined" (List.length data).
Proof.
  induction data as [|item data IH]; intro H; [reflexivity|].
  simpl. rewrite IH by (intros; apply H; now right).
  unfold Chart.category_key. now rewrite (H item) by now left.
Qed.


(** ** The choice of the branch *)

Lemma count_table_lookup (keys : list string) (k : string) :
  Chart.count_or_zero (count_table keys) k = occurrences keys k.
Proof.
  unfold Chart.count_or_zero, count_table. rewrite own_rows.
  destruct (existsb (String.eqb k) (first_seen keys)) eqn:E; [reflexivity|].
  unfold occurrences. rewrite (proj1 (count_occ_not_In string_dec keys k)); [reflexivity|].
  intro H. apply first_seen_In, mem_In in H. congruence.
Qed.

Lemma missing_counted (data : list Chart.record) (column : string) :
  Z.of_nat (List.length
              (filter (fun item => negb (JS.is_present (Chart.get item column))) data))
  <= occurrences (map (Chart.category_key column) data) "undefined".
Proof.
  unfold occurrences. induction data as [|item data IH]; [simpl; lia|].
  cbn [filter map count_occ]. rewrite category_key_spec.
  destruct (JS.is_present (Chart.get item column)); cbn [negb].
  - destruct (string_dec _ _); lia.
  - destruct (string_dec "undefined" "undefined"); [|congruence].
    cbn [List.length]. lia.
Qed.

(** C10.  [processDataForChart] takes the records and the column name only,
    no declared type.  For a non-empty dataset and a non-empty column name
    the branch is fixed by the first record's value alone: a number sends the
    whole column to the bins, anything else (a missing value included) sends
    the whole column to the categories, whatever the later values are.  In
    the categorical branch each null or missing value has the key
    "undefined", and the count kept under "undefined" is the number of
    records with that key, so it covers every missing value.  For the column
    null, 1, 2, (missing) the series is undefined, 1, 2 with counts 2, 1, 1. *)
Theorem branch_chosen_by_first_value
    (data : list Chart.record) (column : string)
    (first : Chart.record) (rest : list Chart.record) :
  data = first :: rest ->
  column <> "" ->
  (JS.typeof_number (Chart.get first column) = true ->
   Chart.processDataForChart data column = Chart.numericSeries data column)
  /\ (JS.typeof_number (Chart.get first column) = false ->
      Chart.processDataForChart data column = Chart.categoricalSeries data column
      /\ (forall item, In item data ->
            JS.is_present (Chart.get item column) = false ->
            Chart.category_key column item = "undefined")
      /\ Chart.count_or_zero (Chart.groupedData data column) "undefined"
         = occurrences (map (Chart.category_key column) data) "undefined"
      /\ Z.of_nat (List.length
           (filter (fun item => negb (JS.is_present (Chart.get item column))) data))
         <= Chart.count_or_zero (Chart.groupedData data column) "undefined")
  /\ Chart.processDataForChart late_numbers "x"
     = [ {| Chart.name := "undefined"; Chart.value := 2 |};
         {| Chart.name := "1"; Chart.value := 1 |};
         {| Chart.name := "2"; Chart.value := 1 |} ].
Proof.
  intros -> Hcol. unfold Chart.processDataForChart.
  rewrite (proj2 (String.eqb_neq column "")) by assumption.
  split; [now intros ->|]. split; [|reflexivity].
  intros ->. split; [reflexivity|]. split; [|split].
  - intros item _ H. now rewrite category_key_spec, H.
  - now rewrite groupedData_table, count_table_lookup.
  - rewrite groupedData_table, count_table_lookup. apply missing_counted.
Qed.

Lemma branch_chosen_by_first_value_witness :
  (late_numbers = [("x", JS.VNull)] :: tl late_numbers /\ "x" <> ""
   /\ JS.typeof_number (Chart.get [("x", JS.VNull)] "x") = false)
  /\ Chart.processDataForChart late_numbers "x"
     = Chart.categoricalSeries late_numbers "x"
  /\ Chart.count_or_zero (Chart.groupedData late_numbers "x") "undefined" = 2.
Proof.
  destruct (branch_chosen_by_first_value late_numbers "x" [("x", JS.VNull)]
              (tl late_numbers) eq_refl ltac:(discriminate))
    as (_ & H & _).
  destruct (H eq_refl) as (H1 & _ & H3 & _).
  split; [split; [reflexivity | split; [discriminate | reflexivity]]|].
  split; [exact H1 | rewrite H3; reflexivity].
Defined.

(** ** Order on numbers *)

Lemma leb_refl (x : JS.number) : is_number x -> JS.leb x x = true.
Proof.
  destruct x; simpl; intro H; try reflexivity; [now elim H|].
  apply Qle_bool_iff, Qle_refl.
Qed.

Lemma leb_trans (x y z : JS.number) :
  JS.leb x y = true -> JS.leb y z = true -> JS.leb x z = true.
Proof.
  destruct x, y, z; simpl; try congruence.
  rewrite !Qle_bool_iff. apply Qle_trans.
Qed.

Lemma leb_total (x y : JS.number) :
  is_number x -> is_number y -> JS.leb x y = false -> JS.leb y x = true.
Proof.
  destruct x, y; simpl; unfold is_number; try congruence.
  intros _ _ H. apply Qle_bool_iff. apply Qlt_le_weak, Qnot_le_lt.
  intro L. apply Qle_bool_iff in L. congruence.
Qed.

Lemma leb_is_number (x y : JS.number) :
  JS.leb x y = true -> is_number x /\ is_number y.
Proof. destruct x, y; simpl; unfold is_number; split; congruence. Qed.

Lemma Math_min2_spec (x y : JS.number) :
  is_number x -> is_number y ->
  let m := JS.Math_min2 x y in
  (m = x \/ m = y) /\ JS.leb m x = true /\ JS.leb m y = true.
Proof.
  intros Hx Hy. cbv zeta.
  assert (E : JS.Math_min2 x y = if JS.leb x y then x else y).
  { destruct x, y; try reflexivity; now (elim Hx + elim Hy). }
  rewrite E. destruct (JS.leb x y) eqn:L.
  - auto using leb_refl.
  - auto using leb_refl, leb_total.
Qed.

Lemma Math_max2_spec (x y : JS.number) :
  is_number x -> is_number y ->
  let m := JS.Math_max2 x y in
  (m = x \/ m = y) /\ JS.leb x m = true /\ JS.leb y m = true.
Proof.
  intros Hx Hy. cbv zeta.
  assert (E : JS.Math_max2 x y = if JS.leb x y then y else x).
  { destruct x, y; try reflexivity; now (elim Hx + elim Hy). }
  rewrite E. destruct (JS.leb x y) eqn:L.
  - auto using leb_refl.
  - auto using leb_refl, leb_total.
Qed.

(** The least of a list of numbers is below the start value and every
    element, and is one of them. *)
Lemma fold_min_spec (xs : list JS.number) (a : JS.number) :
  is_number a -> Forall is_number xs ->
  let m := fold_left JS.Math_min2 xs a in
  (m = a \/ In m xs) /\ JS.leb m a = true
  /\ Forall (fun x => JS.leb m x = true) xs.
Proof.
  intros Ha Hxs. revert a Ha. induction Hxs as [|x xs Hx Hxs IH]; intros a Ha.
  - simpl. auto using leb_refl.
  - cbn [fold_left]. cbv zeta.
    destruct (Math_min2_spec a x Ha Hx) as (Hm & La & Lx).
    assert (Hn : is_number (JS.Math_min2 a x)) by (destruct Hm as [-> | ->]; assumption).
    destruct (IH _ Hn) as (Hin & Lm & Lall).
    split; [|split].
    + destruct Hin as [-> | Hin]; [|right; now right].
      destruct Hm as [-> | ->]; [now left | right; now left].
    + eauto using leb_trans.
    + constructor; [eauto using leb_trans | exact Lall].
Qed.

Lemma fold_max_spec (xs : list JS.number) (a : JS.number) :
  is_number a -> Forall is_number xs ->
  let m := fold_left JS.Math_max2 xs a in
  (m = a \/ In m xs) /\ JS.leb a m = true
  /\ Forall (fun x => JS.leb x m = true) xs.
Proof.
  intros Ha Hxs. revert a Ha. induction Hxs as [|x xs Hx Hxs IH]; intros a Ha.
  - simpl. auto using leb_refl.
  - cbn [fold_left]. cbv zeta.
    destruct (Math_max2_spec a x Ha Hx) as (Hm & La & Lx).
    assert (Hn : is_number (JS.Math_max2 a x)) by (destruct Hm as [-> | ->]; assumption).
    destruct (IH _ Hn) as (Hin & Lm & Lall).
    split; [|split].
    + destruct Hin as [-> | Hin]; [|right; now right].
      destruct Hm as [-> | ->]; [now left | right; now left].
    + eauto using leb_trans.
    + constructor; [eauto using leb_trans | exact Lall].
Qed.

Lemma numericValues_are_numbers (data : list Chart.record) (column : string) :
  Forall is_number (map JS.ToNumber (Chart.numericValues data column)).
Proof.
  apply Forall_map, Forall_forall. intros v Hv.
  apply filter_In in Hv as [_ Hv]. apply andb_true_iff in Hv as [_ Hv].
  unfold JS.isNaN in Hv. unfold is_number. now destruct (JS.ToNumber v).
Qed.

Lemma sub_finite (x y : JS.number) (r : Q) :
  JS.sub x y = JS.Fin r ->
  exists a b, x = JS.Fin a /\ y = JS.Fin b /\ r = (a + - b)%Q.
Proof.
  destruct x as [| | |a], y as [| | |b]; try discriminate.
  intro E. injection E as <-. now exists a, b.
Qed.

Lemma of_Z_nonzero (z : Z) : z <> 0 -> Qeq_bool (inject_Z z) 0 = false.
Proof.
  intro H. destruct (Qeq_bool (inject_Z z) 0) eqn:E; [|reflexivity].
  apply Qeq_bool_eq in E. unfold Qeq in E. simpl in E. lia.
Qed.

Lemma positive_nonzero (q : Q) : (0 < q)%Q -> Qeq_bool q 0 = false.
Proof.
  intro H. destruct (Qeq_bool q 0) eqn:E; [|reflexivity].
  apply Qeq_bool_eq in E. rewrite E in H. now apply Qlt_irrefl in H.
Qed.

Lemma Math_min2_of_Z (a b : Z) :
  JS.Math_min2 (JS.of_Z a) (JS.of_Z b) = JS.of_Z (Z.min a b).
Proof.
  unfold JS.of_Z. simpl. destruct (Qle_bool (inject_Z a) (inject_Z b)) eqn:E.
  - apply Qle_bool_iff in E. rewrite <- Zle_Qle in E. now rewrite Z.min_l.
  - destruct (Z.le_gt_cases a b) as [L | L].
    + rewrite Zle_Qle in L. apply Qle_bool_iff in L. congruence.
    + rewrite Z.min_r by lia. reflexivity.
Qed.

(** ** The set of distinct values *)

Lemma Set_add_length (s : list JS.prim) (v : JS.prim) :
  (List.length s <= List.length (JS.Set_add s v))%nat.
Proof.
  unfold JS.Set_add. destruct (JS.Set_has s v); [lia|].
  rewrite length_app. simpl. lia.
Qed.

Lemma uniqueValues_grow (column : string) (data : list Chart.record) (s : list JS.prim) :
  (List.length s
   <= List.length
        (fold_left
           (fun s item =>
              if JS.is_present (Chart.get item column)
              then JS.Set_add s (Chart.get item column) else s)
           data s))%nat.
Proof.
  revert s. induction data as [|item data IH]; intro s; simpl; [lia|].
  etransitivity; [|apply IH].
  destruct (JS.is_present _); [apply Set_add_length | lia].
Qed.

Lemma binCount_range (first : Chart.record) (rest : list Chart.record) (column : string) :
  JS.typeof_number (Chart.get first column) = true ->
  1 <= Chart.binCount (first :: rest) column <= 10.
Proof.
  intro H. unfold Chart.binCount, Chart.uniqueValues, JS.Set_size.
  cbn [fold_left].
  assert (P : JS.is_present (Chart.get first column) = true)
    by now destruct (Chart.get first column).
  rewrite P. pose proof (uniqueValues_grow column rest
                           (JS.Set_add [] (Chart.get first column))) as L.
  change (JS.Set_add [] (Chart.get first column)) with [Chart.get first column] in *.
  cbn [List.length] in L. lia.
Qed.

(** ** Filling the bins *)

(** The clamp keeps every index under the number of bins: no write of the
    [forEach] lands at or past the length of the array. *)
Lemma binIndex_below (min size : JS.number) (count : Z) (v : JS.prim) (q : Q) :
  Chart.binIndex min size count v = JS.Fin q ->
  (q <= inject_Z (count - 1))%Q.
Proof.
  unfold Chart.binIndex.
  destruct (JS.Math_floor (JS.div (JS.sub (JS.ToNumber v) min) size))
    as [| | |a]; simpl; try discriminate.
  - intro E. injection E as <-. apply Qle_refl.
  - destruct (Qle_bool a (inject_Z (count - 1))) eqn:L; intro E; injection E as <-.
    + now apply Qle_bool_iff.
    + apply Qle_refl.
Qed.

Lemma array_slot_of_Z (len : nat) (i : Z) :
  0 <= i < Z.of_nat len ->
  Chart.array_slot len (JS.of_Z i) = Some (Z.to_nat i).
Proof.
  intros [Hlo Hhi]. unfold Chart.array_slot, JS.of_Z.
  rewrite Qfloor_Z, Qeq_bool_refl.
  rewrite (proj2 (Z.leb_le 0 i)) by assumption.
  now rewrite (proj2 (Z.ltb_lt i (Z.of_nat len))) by assumption.
Qed.

Lemma incr_at_total (bins : list Z) (i : nat) :
  (i < List.length bins)%nat -> total (Chart.incr_at bins i) = total bins + 1.
Proof.
  revert i. induction bins as [|b bins IH]; intros [|i] H; simpl in *; try lia.
  rewrite IH by lia. lia.
Qed.

Lemma increment_total (bins : list Z) (i : Z) :
  0 <= i < Z.of_nat (List.length bins) ->
  total (Chart.increment bins (JS.of_Z i)) = total bins + 1.
Proof.
  intro H. unfold Chart.increment. rewrite array_slot_of_Z by assumption.
  apply incr_at_total. lia.
Qed.

Lemma total_repeat_zero (n : nat) : total (repeat 0 n) = 0.
Proof. induction n as [|n IH]; simpl; [reflexivity | exact IH]. Qed.

(** ** The numeric branch on a column with a positive range *)


(** ** The worked example on ages *)

(** C4 as stated fails: the counts for the ages 20, 25, 30, 90 are not
    2, 0, 0, 2; the value 30 lies in the first bin [20, 37.5). *)
Lemma ages_counts_are_not_2_0_0_2 :
  map Chart.value (Chart.processDataForChart ages "age") <> [2; 0; 0; 2]
  /\ Chart.binIndex (Chart.chart_min ages "age") (Chart.binSize ages "age")
       (Chart.binCount ages "age") (JS.VNum (JS.of_Z 30))
     = JS.of_Z 0.
Proof.
  split; [discriminate | reflexivity].
Qed.

(** C4, as the code has it.  For the ages 20, 25, 30, 90 the minimum is 20,
    the maximum 90, there are 4 distinct values and 4 bins of width 17.5,
    labelled 20.00 - 37.50, 37.50 - 55.00, 55.00 - 72.50, 72.50 - 90.00, and
    the counts are 3, 0, 0, 1: the values 20, 25 and 30 fall in the first
    bin, and 90, whose quotient by the width is 4, is clamped to the last
    index 3. *)
Theorem ages_series :
  Chart.chart_min ages "age" = JS.of_Z 20
  /\ Chart.chart_max ages "age" = JS.of_Z 90
  /\ JS.Set_size (Chart.uniqueValues ages "age") = 4
  /\ Chart.binCount ages "age" = 4
  /\ JS.strict_eqb (Chart.binSize ages "age") (JS.Fin (35 # 2)) = true
  /\ Chart.processDataForChart ages "age"
     = [ {| Chart.name := "20.00 - 37.50"; Chart.value := 3 |};
         {| Chart.name := "37.50 - 55.00"; Chart.value := 0 |};
         {| Chart.name := "55.00 - 72.50"; Chart.value := 0 |};
         {| Chart.name := "72.50 - 90.00"; Chart.value := 1 |} ]
  /\ JS.Math_floor
       (JS.div (JS.sub (JS.of_Z 90) (Chart.chart_min ages "age"))
               (Chart.binSize ages "age"))
     = JS.of_Z 4
  /\ Chart.binIndex (Chart.chart_min ages "age") (Chart.binSize ages "age")
       (Chart.binCount ages "age") (JS.VNum (JS.of_Z 90))
     = JS.of_Z 3.
Proof.
  repeat split.
Qed.

(** ** A column of identical numbers *)

Section Identical.

Variables (column : string) (q : Q).

Local Abbreviation v := (JS.VNum (JS.Fin q)).

Lemma identical_values (data : list Chart.record) :
  (forall item, In item data -> Chart.get item column = v) ->
  Chart.column_values data column = repeat v (List.length data)
  /\ Chart.numericValues data column = repeat v (List.length data).
Proof.
  intro H.
  assert (E : Chart.column_values data column = repeat v (List.length data)).
  { induction data as [|item data IH]; [reflexivity|].
    simpl. rewrite (H item) by now left.
    f_equal. apply IH. intros; apply H; now right. }
  split; [exact E|]. unfold Chart.numericValues. rewrite E.
  apply filter_all. intros x Hx. apply repeat_spec in Hx. now subst x.
Qed.

Lemma identical_unique (data : list Chart.record) :
  (forall item, In item data -> Chart.get item column = v) ->
  fold_left
    (fun s item =>
       if JS.is_present (Chart.get item column)
       then JS.Set_add s (Chart.get item column) else s)
    data [v]
  = [v].
Proof.
  induction data as [|item data IH]; intro H; [reflexivity|].
  cbn [fold_left]. rewrite (H item) by now left.
  cbn [JS.is_present].
  unfold JS.Set_add, JS.Set_has. cbn [existsb JS.sameValueZero JS.strict_eqb].
  rewrite Qeq_bool_refl. cbn [orb]. apply IH. intros; apply H; now right.
Qed.

Lemma fold_min_repeat (n : nat) :
  fold_left JS.Math_min2 (repeat (JS.Fin q) n) (JS.Fin q) = JS.Fin q.
Proof.
  induction n as [|n IH]; [reflexivity|].
  simpl. now rewrite (proj2 (Qle_bool_iff q q) (Qle_refl q)).
Qed.

Lemma fold_max_repeat (n : nat) :
  fold_left JS.Math_max2 (repeat (JS.Fin q) n) (JS.Fin q) = JS.Fin q.
Proof.
  induction n as [|n IH]; [reflexivity|].
  simpl. now rewrite (proj2 (Qle_bool_iff q q) (Qle_refl q)).
Qed.

Lemma zero_width_index :
  Chart.binIndex (JS.Fin q)
    (JS.div (JS.sub (JS.Fin q) (JS.Fin q)) (JS.of_Z 1)) 1 v
  = JS.NaN.
Proof.
  unfold Chart.binIndex. cbn [JS.ToNumber JS.sub JS.neg JS.add].
  unfold JS.div at 2. unfold JS.of_Z. rewrite (of_Z_nonzero 1) by lia.
  unfold JS.div.
  assert (Z1 : Qeq_bool ((q + - q) / inject_Z 1) 0 = true).
  { apply Qeq_eq_bool. field. }
  assert (Z2 : Qeq_bool (q + - q) 0 = true).
  { apply Qeq_eq_bool. ring. }
  now rewrite Z1, Z2.
Qed.

Lemma zero_width_bins (n : nat) :
  Chart.fill_bins (JS.Fin q)
    (JS.div (JS.sub (JS.Fin q) (JS.Fin q)) (JS.of_Z 1)) 1 (repeat v n)
  = [0].
Proof.
  unfold Chart.fill_bins. change (repeat 0 (Z.to_nat 1)) with [0].
  induction n as [|n IH]; [reflexivity|].
  cbn [repeat fold_left]. rewrite zero_width_index. exact IH.
Qed.

(** C1, on the code.  When every record holds the same finite number in the
    column, the range is 0, the set of distinct values has one element and
    the width of the single bin is 0.  Each value then gets the index
    [floor(0 / 0)], which is [NaN]: no element of the array is incremented
    and the series is one bin that counts no value at all.  For three
    records holding 7 the series is the single point ("7.00 - 7.00", 0). *)
Theorem zero_range_bin_counts_nothing
    (data : list Chart.record) (first : Chart.record) (rest : list Chart.record) :
  data = first :: rest ->
  column <> "" ->
  (forall item, In item data -> Chart.get item column = JS.VNum (JS.Fin q)) ->
  Chart.chart_range data column = JS.Fin (q + - q)
  /\ Chart.binCount data column = 1
  /\ (forall item, In item data ->
        Chart.binIndex (Chart.chart_min data column) (Chart.binSize data column)
          (Chart.binCount data column) (Chart.get item column)
        = JS.NaN)
  /\ map Chart.value (Chart.processDataForChart data column) = [0]
  /\ Chart.processDataForChart (number_rows "x" [7; 7; 7]) "x"
     = [ {| Chart.name := "7.00 - 7.00"; Chart.value := 0 |} ].
Proof.
  intros Hdata Hcol Hall.
  destruct (identical_values data Hall) as [_ Hvalues].
  assert (Hlen : List.length data = S (List.length rest)) by now subst data.
  assert (Hmin : Chart.chart_min data column = JS.Fin q).
  { unfold Chart.chart_min, JS.Math_min. rewrite Hvalues, map_repeat, Hlen.
    apply (fold_min_repeat (List.length rest)). }
  assert (Hmax : Chart.chart_max data column = JS.Fin q).
  { unfold Chart.chart_max, JS.Math_max. rewrite Hvalues, map_repeat, Hlen.
    apply (fold_max_repeat (List.length rest)). }
  assert (Hcount : Chart.binCount data column = 1).
  { unfold Chart.binCount, Chart.uniqueValues. subst data. cbn [fold_left].
    rewrite (Hall first) by now left. cbn [JS.is_present].
    change (JS.Set_add [] (JS.VNum (JS.Fin q))) with [v].
    rewrite identical_unique by (intros; apply Hall; now right).
    reflexivity. }
  assert (Hrange : Chart.chart_range data column = JS.Fin (q + - q)).
  { unfold Chart.chart_range. now rewrite Hmin, Hmax. }
  assert (Hsize : Chart.binSize data column
                  = JS.div (JS.sub (JS.Fin q) (JS.Fin q)) (JS.of_Z 1)).
  { unfold Chart.binSize. now rewrite Hrange, Hcount. }
  split; [exact Hrange|]. split; [exact Hcount|]. split; [|split; [|reflexivity]].
  - intros item Hitem. rewrite (Hall item Hitem), Hmin, Hsize, Hcount.
    apply zero_width_index.
  - unfold Chart.processDataForChart. subst data.
    rewrite (proj2 (String.eqb_neq column "")) by assumption.
    rewrite (Hall first) by now left. cbn [JS.typeof_number].
    unfold Chart.numericSeries.
    rewrite label_bins_values, Hmin, Hsize, Hcount, Hvalues.
    apply zero_width_bins.
Qed.

End Identical.

Lemma zero_range_bin_counts_nothing_witness :
  let data := number_rows "x" [7; 7; 7] in
  (data = [("x", JS.VNum (JS.of_Z 7))] :: tl data
   /\ "x" <> ""
   /\ (forall item, In item data -> Chart.get item "x" = JS.VNum (JS.of_Z 7)))
  /\ map Chart.value (Chart.processDataForChart data "x") = [0]
  /\ total (map Chart.value (Chart.processDataForChart data "x"))
     < Z.of_nat (List.length (Chart.numericValues data "x")).
Proof.
  cbv zeta.
  assert (H : forall item, In item (number_rows "x" [7; 7; 7]) ->
                Chart.get item "x" = JS.VNum (JS.of_Z 7)).
  { intros item [<- | [<- | [<- | []]]]; reflexivity. }
  destruct (zero_range_bin_counts_nothing "x" (inject_Z 7)
              (number_rows "x" [7; 7; 7]) [("x", JS.VNum (JS.of_Z 7))]
              (tl (number_rows "x" [7; 7; 7])) eq_refl ltac:(discriminate) H)
    as (_ & _ & _ & H4 & _).
  split; [split; [reflexivity | split; [discriminate | exact H]]|].
  split; [exact H4|]. rewrite H4. reflexivity.
Defined.

(** ** Column statistics *)

Lemma Set_has_text (l : list string) (t : string) :
  JS.Set_has (map JS.VStr l) (JS.VStr t) = existsb (String.eqb t) l.
Proof.
  unfold JS.Set_has. induction l as [|x l IH]; [reflexivity|].
  simpl. now rewrite IH.
Qed.

Lemma text_set_is_first_seen (keys : list string) :
  fold_left (fun s t => JS.Set_add s (JS.VStr t)) keys []
  = map JS.VStr (first_seen keys).
Proof.
  induction keys as [|k keys IH] using rev_ind; [reflexivity|].
  rewrite fold_left_app, IH. simpl. unfold JS.Set_add.
  rewrite Set_has_text, first_seen_snoc.
  assert (E : existsb (String.eqb k) (first_seen keys) = existsb (String.eqb k) keys).
  { apply eq_true_iff_eq. now rewrite !mem_In, first_seen_In. }
  rewrite E. destruct (existsb (String.eqb k) keys); [reflexivity|].
  now rewrite map_app.
Qed.

Lemma profile_fold (column : string) (data : list Chart.record)
    (s : list JS.prim) (c : Chart.counter) :
  fold_left (App.profile_step column) data (s, c)
  = (fold_left (fun s t => JS.Set_add s (JS.VStr t)) (texts data column) s,
     fold_left Chart.bump (texts data column) c).
Proof.
  revert s c. induction data as [|item data IH]; intros s c; [reflexivity|].
  cbn [fold_left]. unfold App.profile_step at 2. unfold texts.
  cbn [Chart.column_values map filter].
  destruct (JS.is_present (Chart.get item column)); cbn [fst snd map fold_left];
    apply IH.
Qed.

Lemma profile_spec (data : list Chart.record) (column : string) :
  App.profile data column
  = (map JS.VStr (first_seen (texts data column)), count_table (texts data column)).
Proof.
  unfold App.profile. rewrite profile_fold.
  now rewrite text_set_is_first_seen, tally_is_count_table.
Qed.

Lemma texts_skip (data1 data2 : list Chart.record) (item : Chart.record)
    (column : string) :
  JS.is_present (Chart.get item column) = false ->
  texts (data1 ++ item :: data2) column = texts (data1 ++ data2) column.
Proof.
  intro H. unfold texts, Chart.column_values.
  rewrite !map_app, !filter_app. cbn [map filter]. now rewrite H.
Qed.

Lemma uniqueValues_skip (data1 data2 : list Chart.record) (item : Chart.record)
    (column : string) :
  JS.is_present (Chart.get item column) = false ->
  Chart.uniqueValues (data1 ++ item :: data2) column
  = Chart.uniqueValues (data1 ++ data2) column.
Proof.
  intro H. unfold Chart.uniqueValues. rewrite !fold_left_app.
  cbn [fold_left]. now rewrite H.
Qed.

(** C6 as stated fails.  On the dataset whose only record holds null in the
    column, both profilers report a total count of 1: the skipped record
    counts toward the total.  And the profiler of [utils/openai.ts] keeps the
    number 1 and the text "1" apart: its unique count for the two is 2. *)
Lemma null_records_count_toward_total :
  App.totalCount (App.columnInfo only_null column_c) = 1
  /\ OpenAI.totalCount (OpenAI.columnInfo only_null column_c) = 1
  /\ App.uniqueCount (App.columnInfo only_null column_c) = 0
  /\ App.totalCount (App.columnInfo only_null column_c)
     <> App.totalCount (App.columnInfo [] column_c)
  /\ OpenAI.uniqueCount (OpenAI.columnInfo one_and_text column_c) = 2.
Proof.
  repeat split. discriminate.
Qed.

(** C6, as the code has it.  In both profilers the total count is the number
    of records, whether or not they hold a value in the column.  A record
    whose value is null or undefined adds nothing to the unique count nor to
    the value counts, and one to the total count.  The profiler of [App.tsx]
    counts texts: its unique count is the number of distinct texts of the
    present values and its value counts are their table of counts (for
    texts that name no inherited property of the counting object), so the
    number 1 and the text "1" share one bucket.  The profiler of
    [utils/openai.ts] compares the values themselves and keeps no value
    counts: there the number 1 and the text "1" are two values. *)
Theorem column_statistics
    (data data1 data2 : list Chart.record) (item : Chart.record)
    (col : Data.Column) :
  let column := Data.col_name col in
  (App.totalCount (App.columnInfo data col) = Z.of_nat (List.length data)
   /\ OpenAI.totalCount (OpenAI.columnInfo data col) = Z.of_nat (List.length data)
   /\ App.uniqueCount (App.columnInfo data col)
      = Z.of_nat (List.length (first_seen (texts data column)))
   /\ ((forall k, In k (texts data column) -> own_label k) ->
       App.valueCounts (App.columnInfo data col) = count_table (texts data column)
       /\ forall k, Chart.count_or_zero (App.valueCounts (App.columnInfo data col)) k
                    = occurrences (texts data column) k))
  /\ (JS.is_present (Chart.get item column) = false ->
      let with_item := data1 ++ item :: data2 in
      let without := data1 ++ data2 in
      App.uniqueCount (App.columnInfo with_item col)
      = App.uniqueCount (App.columnInfo without col)
      /\ App.valueCounts (App.columnInfo with_item col)
         = App.valueCounts (App.columnInfo without col)
      /\ App.totalCount (App.columnInfo with_item col)
         = App.totalCount (App.columnInfo without col) + 1
      /\ OpenAI.uniqueCount (OpenAI.columnInfo with_item col)
         = OpenAI.uniqueCount (OpenAI.columnInfo without col)
      /\ OpenAI.totalCount (OpenAI.columnInfo with_item col)
         = OpenAI.totalCount (OpenAI.columnInfo without col) + 1)
  /\ (App.uniqueCount (App.columnInfo one_and_text column_c) = 1
      /\ App.valueCounts (App.columnInfo one_and_text column_c) = [("1", 2)]
      /\ OpenAI.uniqueCount (OpenAI.columnInfo one_and_text column_c) = 2).
Proof.
  intro column. split; [|split].
  - unfold App.columnInfo, OpenAI.columnInfo. cbn [App.totalCount OpenAI.totalCount
      App.uniqueCount App.valueCounts]. fold column.
    rewrite profile_spec. cbn [fst snd]. unfold JS.Set_size.
    rewrite length_map. repeat split. intro k. apply count_table_lookup.
  - intros H with_item without.
    unfold App.columnInfo, OpenAI.columnInfo. cbn [App.totalCount OpenAI.totalCount
      App.uniqueCount App.valueCounts OpenAI.uniqueCount]. fold column.
    rewrite !profile_spec. unfold with_item, without.
    rewrite texts_skip, uniqueValues_skip by assumption.
    rewrite !length_app. cbn [List.length].
    repeat split; lia.
  - repeat split.
Qed.

Lemma column_statistics_witness :
  (JS.is_present (Chart.get [("c", JS.VNull)] "c") = false
   /\ (forall k, In k (texts one_and_text "c") -> own_label k))
  /\ App.uniqueCount (App.columnInfo ([("c", JS.VNull)] :: one_and_text) column_c)
     = App.uniqueCount (App.columnInfo one_and_text column_c)
  /\ App.totalCount (App.columnInfo ([("c", JS.VNull)] :: one_and_text) column_c)
     = App.totalCount (App.columnInfo one_and_text column_c) + 1
  /\ App.valueCounts (App.columnInfo one_and_text column_c)
     = count_table (texts one_and_text "c").
Proof.
  assert (Hown : forall k, In k (texts one_and_text "c") -> own_label k).
  { simpl. intros k [<- | [<- | []]]; reflexivity. }
  destruct (column_statistics one_and_text [] one_and_text [("c", JS.VNull)] column_c)
    as ((_ & _ & _ & Hcounts) & H & _).
  destruct (H eq_refl) as (H1 & _ & H3 & _).
  destruct (Hcounts Hown) as (H4 & _).
  split; [split; [reflexivity | exact Hown]|].
  split; [exact H1 | split; [exact H3 | exact H4]].
Defined.

(** ** Replies that cannot be read *)


Section Replies.

Variable JSON_parse : string -> JS.completion JS.json.


End Replies.


(** ** Greetings *)

Lemma same_letter_lower (c d : ascii) : same_letter c d -> JS.lower_char c = d.
Proof.
  intros [Hd [-> | E]]; unfold JS.lower_char.
  - destruct (N.leb_spec 65 (N_of_ascii d)), (N.leb_spec (N_of_ascii d) 90);
      simpl; try reflexivity. lia.
  - destruct (N.leb_spec 65 (N_of_ascii c)), (N.leb_spec (N_of_ascii c) 90);
      simpl; try lia.
    rewrite <- E. apply ascii_N_embedding.
Qed.

Lemma casing_lower (s word : string) :
  casing_of s word ->
  map JS.lower_char (list_ascii_of_string s) = list_ascii_of_string word.
Proof.
  unfold casing_of. induction 1 as [|c d cs ds Hcd _ IH]; [reflexivity|].
  simpl. now rewrite (same_letter_lower c d Hcd), IH.
Qed.

Ltac each_white H :=
  repeat (destruct H as [<- | H]; [reflexivity|]); destruct H.

Lemma white_lower (ws : list ascii) : blank ws -> map JS.lower_char ws = ws.
Proof.
  intros (units & H & ->). induction H as [|u units Hu _ IH]; [reflexivity|].
  cbn [List.concat]. rewrite map_app, IH. f_equal. each_white Hu.
Qed.

Lemma drop_white_prefix (ws rest : list ascii) :
  blank ws -> JS.drop_white (ws ++ rest) = JS.drop_white rest.
Proof.
  intros (units & H & ->). induction H as [|u units Hu _ IH]; [reflexivity|].
  cbn [List.concat]. rewrite <- app_assoc, <- IH.
  generalize (List.concat units ++ rest). intro tail. each_white Hu.
Qed.

Lemma drop_white_back_suffix (ws rest : list ascii) :
  blank ws -> JS.drop_white_back (rev ws ++ rest) = JS.drop_white_back rest.
Proof.
  intros (units & H & ->). revert rest.
  induction H as [|u units Hu _ IH]; intro rest; [reflexivity|].
  cbn [List.concat]. rewrite rev_app_distr, <- app_assoc, IH.
  generalize rest. intro tail. each_white Hu.
Qed.

(** A byte below 128 that is no white space starts no white space and ends
    none. *)
Lemma drop_white_solid (c : ascii) (rest : list ascii) :
  (N_of_ascii c < 128)%N -> JS.is_white c = false ->
  JS.drop_white (c :: rest) = c :: rest.
Proof.
  intros Hc Hw. cbn [JS.drop_white]. rewrite Hw.
  assert (H2 : forall b, JS.is_white2 c b = false).
  { intro b. unfold JS.is_white2.
    destruct (N.eqb_spec (N_of_ascii c) 194); [lia | reflexivity]. }
  assert (H3 : forall b d, JS.is_white3 c b d = false).
  { intros b d. unfold JS.is_white3. cbv zeta.
    destruct (N.eqb_spec (N_of_ascii c) 225); [lia|].
    destruct (N.eqb_spec (N_of_ascii c) 226); [lia|].
    destruct (N.eqb_spec (N_of_ascii c) 227); [lia|].
    destruct (N.eqb_spec (N_of_ascii c) 239); [lia | reflexivity]. }
  destruct rest as [|b [|d rest]]; [reflexivity | |].
  - now rewrite H2.
  - now rewrite H2, H3.
Qed.

Lemma drop_white_back_solid (c : ascii) (rest : list ascii) :
  (N_of_ascii c < 128)%N -> JS.is_white c = false ->
  JS.drop_white_back (c :: rest) = c :: rest.
Proof.
  intros Hc Hw. cbn [JS.drop_white_back]. rewrite Hw.
  assert (H2 : forall b, JS.is_white2 b c = false).
  { intro b. unfold JS.is_white2.
    destruct (N.eqb_spec (N_of_ascii c) 160); [lia | apply andb_false_r]. }
  assert (H3 : forall a b, JS.is_white3 a b c = false).
  { intros a b. unfold JS.is_white3. cbv zeta.
    destruct (N.eqb_spec (N_of_ascii c) 128); [lia|].
    destruct (N.leb_spec 128 (N_of_ascii c)); [lia|].
    destruct (N.eqb_spec (N_of_ascii c) 168); [lia|].
    destruct (N.eqb_spec (N_of_ascii c) 169); [lia|].
    destruct (N.eqb_spec (N_of_ascii c) 175); [lia|].
    destruct (N.eqb_spec (N_of_ascii c) 159); [lia|].
    destruct (N.eqb_spec (N_of_ascii c) 191); [lia|].
    cbn [andb orb]. now rewrite !andb_false_r. }
  destruct rest as [|b [|a rest]]; [reflexivity | |].
  - now rewrite H2.
  - now rewrite H2, H3.
Qed.

(** Trimming a word that begins and ends with a solid ASCII character,
    wrapped in white space, gives the word back. *)
Lemma trim_wrapped (ws1 ws2 : list ascii) (c e : ascii) (mid : list ascii) :
  blank ws1 -> blank ws2 ->
  (N_of_ascii c < 128)%N -> JS.is_white c = false ->
  (N_of_ascii e < 128)%N -> JS.is_white e = false ->
  JS.trim_chars (ws1 ++ (c :: mid ++ [e]) ++ ws2) = c :: mid ++ [e].
Proof.
  intros H1 H2 Lc Hc Le He. unfold JS.trim_chars.
  rewrite drop_white_prefix by assumption.
  cbn [app]. rewrite drop_white_solid by assumption.
  change (c :: (mid ++ [e]) ++ ws2) with ((c :: mid ++ [e]) ++ ws2).
  rewrite rev_app_distr.
  rewrite drop_white_back_suffix by assumption.
  change (c :: mid ++ [e]) with ((c :: mid) ++ [e]).
  rewrite rev_app_distr. cbn [rev app].
  rewrite drop_white_back_solid by assumption.
  cbn [rev]. rewrite rev_app_distr, rev_involutive. reflexivity.
Qed.

Lemma greeting_recognised (word s : string) (ws1 ws2 : list ascii) :
  In word App.greetings ->
  casing_of s word ->
  blank ws1 ->
  blank ws2 ->
  JS.trim (JS.toLowerCase
             (string_of_list_ascii (ws1 ++ list_ascii_of_string s ++ ws2)))
  = word.
Proof.
  intros Hword Hs H1 H2. unfold JS.trim, JS.toLowerCase.
  rewrite !list_ascii_of_string_of_list_ascii, !map_app.
  rewrite (casing_lower s word Hs), !white_lower by assumption.
  rewrite <- (string_of_list_ascii_of_string word) at 2. f_equal.
  destruct Hword as [<- | [<- | [<- | [<- | []]]]].
  - apply (trim_wrapped ws1 ws2 "h" "i" []); auto; reflexivity.
  - apply (trim_wrapped ws1 ws2 "h" "o" ["e"; "l"; "l"]%char); auto; reflexivity.
  - apply (trim_wrapped ws1 ws2 "h" "y" ["e"]%char); auto; reflexivity.
  - apply (trim_wrapped ws1 ws2 "g" "s"
             ["r"; "e"; "e"; "t"; "i"; "n"; "g"]%char); auto; reflexivity.
Qed.

Lemma is_greeting_of_word (query : string) :
  In (JS.trim (JS.toLowerCase query)) App.greetings ->
  App.is_greeting query = true.
Proof.
  intro H. unfold App.is_greeting. apply existsb_exists.
  exists (JS.trim (JS.toLowerCase query)). split; [exact H | apply String.eqb_refl].
Qed.

(** C9.  Take one of the words hi, hello, hey, greetings in any casing, with
    any white space before and after it (any run of the white space and line
    terminators that [trim] removes, those beyond ASCII included), as the
    question.  Then
    [analyzeDataWithAI] of [App.tsx] returns at once, without sending its
    request, the canned answer with an empty sqlQuery, needsChart false and a
    null chartType.  And [handleQuerySubmit], once a dataset is loaded and no
    analysis is running, settles without its fetch: it records the question
    and the canned answer in the conversation and sets a result with the
    canned answer, an empty sqlQuery, needsChart false and a null
    chartType. *)
Theorem greetings_answered_without_request
    (word s : string) (ws1 ws2 : list ascii)
    (schema : Data.Schema) (data : list Chart.record) (st : App.AppState) :
  In word App.greetings ->
  casing_of s word ->
  blank ws1 ->
  blank ws2 ->
  let question :=
    string_of_list_ascii (ws1 ++ list_ascii_of_string s ++ ws2) in
  (exists result,
     App.analyzeDataWithAI question schema data = App.Returned result
     /\ Data.answer result = App.greeting_text
     /\ Data.answer result <> ""
     /\ Data.sqlQuery result = ""
     /\ Data.needsChart result = false
     /\ Data.chartType result = None)
  /\ (App.query st = question ->
      App.data st <> [] ->
      App.isAnalyzing st = false ->
      exists st' result,
        App.handleQuerySubmit st = App.Settled st'
        /\ App.queryResult st' = Some result
        /\ Data.answer result = App.greeting_text
        /\ Data.sqlQuery result = ""
        /\ Data.needsChart result = false
        /\ Data.chartType result = None
        /\ App.conversation st'
           = App.conversation st
             ++ [ {| App.role := App.user; App.content := question |};
                  {| App.role := App.assistant; App.content := App.greeting_text |} ]
        /\ App.isAnalyzing st' = false).
Proof.
  intros Hword Hs H1 H2 question.
  assert (G : App.is_greeting question = true).
  { apply is_greeting_of_word. unfold question.
    now rewrite (greeting_recognised word s ws1 ws2). }
  split.
  - exists App.greetingResult. unfold App.analyzeDataWithAI. rewrite G.
    repeat split. discriminate.
  - intros Hq Hdata Hidle. unfold App.handleQuerySubmit.
    rewrite Hq, Hidle, G.
    assert (Hne : String.eqb question "" = false).
    { destruct (String.eqb_spec question "") as [E | _]; [|reflexivity].
      rewrite E in G. discriminate G. }
    rewrite Hne. destruct (App.data st) as [|row rows] eqn:Ed; [congruence|].
    cbn [JS.is_nil orb]. eexists. eexists. repeat split.
Qed.

Lemma greetings_answered_without_request_witness :
  (In "hello" App.greetings
   /\ casing_of "HeLLo" "hello"
   /\ blank ["194"; "160"; " "; " "]%char
   /\ blank ["226"; "128"; "131"; "010"]%char
   /\ App.query loaded
      = string_of_list_ascii
          (["194"; "160"; " "; " "]%char
           ++ list_ascii_of_string "HeLLo" ++ ["226"; "128"; "131"; "010"]%char)
   /\ App.data loaded <> []
   /\ App.isAnalyzing loaded = false)
  /\ (exists result,
        App.analyzeDataWithAI (App.query loaded)
          {| Data.tableName := "t"; Data.columns := [] |} one_row
        = App.Returned result
        /\ Data.sqlQuery result = "")
  /\ (exists st', App.handleQuerySubmit loaded = App.Settled st').
Proof.
  assert (Hin : In "hello" App.greetings) by (simpl; auto).
  assert (Hcase : casing_of "HeLLo" "hello").
  { unfold casing_of. simpl.
    repeat (constructor; [split; [vm_compute; split; discriminate
                                 | first [left; reflexivity | right; reflexivity]]|]).
    constructor. }
  assert (Hw1 : blank ["194"; "160"; " "; " "]%char).
  { exists [["194"; "160"]; [" "]; [" "]]%char.
    split; [|reflexivity].
    repeat (apply Forall_cons;
            [simpl; repeat (first [left; reflexivity | right])|]).
    apply Forall_nil. }
  assert (Hw2 : blank ["226"; "128"; "131"; "010"]%char).
  { exists [["226"; "128"; "131"]; ["010"]]%char.
    split; [|reflexivity].
    repeat (apply Forall_cons;
            [simpl; repeat (first [left; reflexivity | right])|]).
    apply Forall_nil. }
  destruct (greetings_answered_without_request "hello" "HeLLo"
              ["194"; "160"; " "; " "]%char
              ["226"; "128"; "131"; "010"]%char
              {| Data.tableName := "t"; Data.columns := [] |} one_row loaded
              Hin Hcase Hw1 Hw2) as [(result & R1 & _ & _ & R4 & _) H].
  destruct (H eq_refl ltac:(discriminate) eq_refl) as (st' & _ & S1 & _).
  split; [|split].
  - repeat split; try assumption. discriminate.
  - exists result. split; [exact R1 | exact R4].
  - exists st'. exact S1.
Defined.

(** * Further properties of the code *)

(** ** Sums of counts *)

Lemma total_app (l1 l2 : list Z) : total (l1 ++ l2) = total l1 + total l2.
Proof.
  induction l1 as [|x l1 IH]; simpl; [reflexivity|]. rewrite IH. lia.
Qed.

Lemma total_perm (l1 l2 : list Z) : Permutation l1 l2 -> total l1 = total l2.
Proof.
  induction 1; simpl; lia.
Qed.

Lemma total_firstn (n : nat) (l : list Z) :
  Forall (fun x => 0 <= x) l -> total (firstn n l) <= total l.
Proof.
  intro H. rewrite <- (firstn_skipn n l) at 2. rewrite total_app.
  assert (0 <= total (skipn n l)); [|lia].
  assert (Hs : Forall (fun x => 0 <= x) (skipn n l)).
  { rewrite <- (firstn_skipn n l) in H. now apply Forall_app in H. }
  induction Hs; simpl; lia.
Qed.

(** Over any duplicate-free list that holds all the keys, the occurrence
    counts add up to the number of keys. *)
Lemma occurrences_total (keys labels : list string) :
  NoDup labels -> incl keys labels ->
  total (map (occurrences keys) labels) = Z.of_nat (List.length keys).
Proof.
  intro Hnodup. induction keys as [|a keys IH]; intro Hincl.
  - clear. induction labels as [|l labels IH]; simpl; [reflexivity|].
    rewrite IH. reflexivity.
  - assert (Ha : In a labels) by (apply Hincl; now left).
    assert (Hk : incl keys labels) by (intros x Hx; apply Hincl; now right).
    specialize (IH Hk). cbn [List.length]. rewrite Nat2Z.inj_succ, <- IH.
    clear IH Hincl Hk. induction Hnodup as [|l labels Hl _ IHl]; [destruct Ha|].
    cbn [map total fold_right]. fold (total (map (occurrences (a :: keys)) labels)).
    fold (total (map (occurrences keys) labels)).
    unfold occurrences at 1 3. cbn [count_occ].
    destruct Ha as [-> | Ha].
    + destruct (string_dec a a); [|congruence].
      assert (E : map (occurrences (a :: keys)) labels = map (occurrences keys) labels).
      { apply map_ext_in. intros x Hx. unfold occurrences. cbn [count_occ].
        destruct (string_dec a x) as [<- | _]; [contradiction | reflexivity]. }
      rewrite E. lia.
    + destruct (string_dec a l) as [<- | _]; [contradiction|].
      rewrite (IHl Ha). lia.
Qed.

Lemma count_table_total (keys : list string) :
  total (map snd (count_table keys)) = Z.of_nat (List.length keys).
Proof.
  unfold count_table. rewrite map_map. cbn [snd].
  apply occurrences_total; [apply first_seen_NoDup|].
  intros k Hk. now apply first_seen_In.
Qed.

Lemma to_point_values (t : Chart.counter) :
  map Chart.value (map Chart.to_point t) = map snd t.
Proof. rewrite map_map. reflexivity. Qed.

Lemma to_point_names (t : Chart.counter) :
  map Chart.name (map Chart.to_point t) = map fst t.
Proof. rewrite map_map. reflexivity. Qed.

Lemma ranked_is_count_table (data : list Chart.record) (column : string) :
  Permutation (Chart.rankedCategories data column)
    (map Chart.to_point (count_table (map (Chart.category_key column) data))).
Proof.
  unfold Chart.rankedCategories.
  now rewrite Array_sort_perm, Object_entries_perm, groupedData_table.
Qed.

Lemma count_table_rows (keys : list string) (p : Chart.ChartPoint) :
  In p (map Chart.to_point (count_table keys)) ->
  In (Chart.name p) keys
  /\ Chart.value p = occurrences keys (Chart.name p)
  /\ 1 <= Chart.value p.
Proof.
  unfold count_table. rewrite map_map. intro H.
  apply in_map_iff in H as (k & <- & Hk).
  apply (proj1 (first_seen_In keys k)) in Hk.
  cbn. split; [assumption|]. split; [reflexivity|].
  apply (proj1 (occurrences_pos keys k)) in Hk. lia.
Qed.

Lemma firstn_incl_In {A : Type} (n : nat) (l : list A) (x : A) :
  In x (firstn n l) -> In x l.
Proof.
  intro H. rewrite <- (firstn_skipn n l). apply in_or_app. now left.
Qed.

Lemma firstn_NoDup {A : Type} (n : nat) (l : list A) :
  NoDup l -> NoDup (firstn n l).
Proof.
  intro H. rewrite <- (firstn_skipn n l) in H. now apply NoDup_app_remove_r in H.
Qed.

(** X1.  Take a column whose labels name no property that every object
    inherits (constructor, toString, __proto__ and the like).  In the
    categorical branch every record is counted once: the counts of the
    ranked categories add up to the number of records.  The series,
    cut at 10 categories, never counts more than that, and counts exactly
    the number of records when the column has at most 10 distinct labels. *)
Theorem categorical_counts_add_up
    (data : list Chart.record) (column : string)
    (first : Chart.record) (rest : list Chart.record) :
  data = first :: rest ->
  column <> "" ->
  JS.typeof_number (Chart.get first column) = false ->
  (forall k, In k (map (Chart.category_key column) data) -> own_label k) ->
  let keys := map (Chart.category_key column) data in
  let series := Chart.processDataForChart data column in
  total (map Chart.value (Chart.rankedCategories data column))
  = Z.of_nat (List.length data)
  /\ total (map Chart.value series) <= Z.of_nat (List.length data)
  /\ ((List.length (first_seen keys) <= 10)%nat ->
      total (map Chart.value series) = Z.of_nat (List.length data)).
Proof.
  intros -> Hcol Hfirst _ keys series.
  assert (Hs : series = firstn 10 (Chart.rankedCategories (first :: rest) column)).
  { unfold series, Chart.processDataForChart.
    rewrite (proj2 (String.eqb_neq column "")) by assumption.
    now rewrite Hfirst. }
  pose proof (ranked_is_count_table (first :: rest) column) as Hperm.
  fold keys in Hperm.
  assert (Htotal : total (map Chart.value (Chart.rankedCategories (first :: rest) column))
                   = Z.of_nat (List.length (first :: rest))).
  { rewrite (total_perm _ _ (Permutation_map Chart.value Hperm)).
    rewrite to_point_values, count_table_total. unfold keys. now rewrite length_map. }
  split; [exact Htotal|]. split.
  - rewrite Hs, <- Htotal, <- firstn_map. apply total_firstn.
    apply Forall_forall. intros x Hx. apply in_map_iff in Hx as (p & <- & Hp).
    apply (Permutation_in _ Hperm) in Hp. apply count_table_rows in Hp. lia.
  - intro Hlen. rewrite Hs, <- Htotal. f_equal. f_equal.
    apply firstn_all2. rewrite (Permutation_length Hperm), length_map.
    unfold count_table. now rewrite length_map.
Qed.

Lemma categorical_counts_add_up_witness :
  (letters = [("c", JS.VStr "a")] :: tl letters
   /\ "c" <> ""
   /\ JS.typeof_number (Chart.get [("c", JS.VStr "a")] "c") = false
   /\ (forall k, In k (map (Chart.category_key "c") letters) -> own_label k)
   /\ (List.length (first_seen (map (Chart.category_key "c") letters)) <= 10)%nat)
  /\ total (map Chart.value (Chart.processDataForChart letters "c")) = 5.
Proof.
  assert (Hown : forall k, In k (map (Chart.category_key "c") letters) -> own_label k).
  { simpl. intros k [<- | [<- | [<- | [<- | [<- | []]]]]]; reflexivity. }
  assert (Hlen : (List.length (first_seen (map (Chart.category_key "c") letters)) <= 10)%nat)
    by (simpl; lia).
  destruct (categorical_counts_add_up letters "c" [("c", JS.VStr "a")] (tl letters)
              eq_refl ltac:(discriminate) eq_refl Hown) as (_ & _ & H).
  split; [|exact (H Hlen)].
  split; [reflexivity|]. split; [discriminate|]. split; [reflexivity|].
  split; [exact Hown | exact Hlen].
Defined.

(** X2.  Take a column whose labels name no property that every object
    inherits (constructor, toString, __proto__ and the like).  The labels of
    its categorical series are pairwise distinct, and each point carries the
    number of records whose text is its label, which is at least 1: no
    category is listed twice and none is empty. *)
Theorem categorical_labels_distinct
    (data : list Chart.record) (column : string)
    (first : Chart.record) (rest : list Chart.record) :
  data = first :: rest ->
  column <> "" ->
  JS.typeof_number (Chart.get first column) = false ->
  (forall k, In k (map (Chart.category_key column) data) -> own_label k) ->
  let keys := map (Chart.category_key column) data in
  let series := Chart.processDataForChart data column in
  NoDup (map Chart.name series)
  /\ forall p, In p series ->
       In (Chart.name p) keys
       /\ Chart.value p = occurrences keys (Chart.name p)
       /\ 1 <= Chart.value p.
Proof.
  intros -> Hcol Hfirst _ keys series.
  assert (Hs : series = firstn 10 (Chart.rankedCategories (first :: rest) column)).
  { unfold series, Chart.processDataForChart.
    rewrite (proj2 (String.eqb_neq column "")) by assumption.
    now rewrite Hfirst. }
  pose proof (ranked_is_count_table (first :: rest) column) as Hperm.
  fold keys in Hperm. split.
  - rewrite Hs, <- firstn_map. apply firstn_NoDup.
    apply (Permutation_NoDup (Permutation_sym (Permutation_map Chart.name Hperm))).
    rewrite to_point_names, count_table_keys. apply first_seen_NoDup.
  - intros p Hp. rewrite Hs in Hp. apply firstn_incl_In in Hp.
    apply (Permutation_in _ Hperm) in Hp. now apply count_table_rows.
Qed.

Lemma categorical_labels_distinct_witness :
  (letters = [("c", JS.VStr "a")] :: tl letters
   /\ "c" <> ""
   /\ JS.typeof_number (Chart.get [("c", JS.VStr "a")] "c") = false
   /\ (forall k, In k (map (Chart.category_key "c") letters) -> own_label k))
  /\ NoDup (map Chart.name (Chart.processDataForChart letters "c")).
Proof.
  assert (Hown : forall k, In k (map (Chart.category_key "c") letters) -> own_label k).
  { simpl. intros k [<- | [<- | [<- | [<- | [<- | []]]]]]; reflexivity. }
  destruct (categorical_labels_distinct letters "c" [("c", JS.VStr "a")] (tl letters)
              eq_refl ltac:(discriminate) eq_refl Hown) as (H & _).
  split; [|exact H].
  split; [reflexivity|]. split; [discriminate|]. split; [reflexivity | exact Hown].
Defined.

(** ** Bounds on the bins *)

Lemma incr_at_bounds (bins : list Z) (i : nat) :
  Forall (fun x => 0 <= x) bins ->
  Forall (fun x => 0 <= x) (Chart.incr_at bins i)
  /\ total bins <= total (Chart.incr_at bins i) <= total bins + 1.
Proof.
  intro H. revert i. induction H as [|b bins Hb Hbins IH]; intros [|i]; simpl.
  - split; [constructor | lia].
  - split; [constructor | lia].
  - split; [constructor; [lia | assumption] | lia].
  - destruct (IH i) as [F T]. split; [now constructor | lia].
Qed.

Lemma increment_bounds (bins : list Z) (idx : JS.number) :
  Forall (fun x => 0 <= x) bins ->
  Forall (fun x => 0 <= x) (Chart.increment bins idx)
  /\ total bins <= total (Chart.increment bins idx) <= total bins + 1.
Proof.
  intro H. unfold Chart.increment. destruct (Chart.array_slot _ idx).
  - now apply incr_at_bounds.
  - split; [assumption | lia].
Qed.

(** ** Column statistics: bounds *)

Lemma first_seen_length (keys : list string) :
  (List.length (first_seen keys) <= List.length keys)%nat.
Proof.
  induction keys as [|k keys IH]; simpl; [lia|].
  pose proof (filter_length_le (fun x => negb (String.eqb x k)) (first_seen keys)).
  lia.
Qed.

Lemma uniqueValues_bound (column : string) (data : list Chart.record)
    (s : list JS.prim) :
  (List.length
     (fold_left
        (fun s item =>
           if JS.is_present (Chart.get item column)
           then JS.Set_add s (Chart.get item column) else s)
        data s)
   <= List.length s
      + List.length (filter JS.is_present (Chart.column_values data column)))%nat.
Proof.
  revert s. induction data as [|item data IH]; intro s; simpl; [lia|].
  etransitivity; [apply IH|].
  destruct (JS.is_present (Chart.get item column)); simpl; [|lia].
  unfold JS.Set_add. destruct (JS.Set_has s _); [lia|].
  rewrite length_app. simpl. lia.
Qed.

(** X4.  In both profilers the unique count is never above the number of
    records that hold a value in the column, which is never above the total
    count.  In the profiler of [App.tsx], when no text of the column names
    a property that every object inherits (constructor, toString, __proto__
    and the like), the value counts add up to the number of records that
    hold a value: each such record is counted under exactly one text. *)
Theorem column_statistics_bounds (data : list Chart.record) (col : Data.Column) :
  let column := Data.col_name col in
  let present :=
    Z.of_nat (List.length (filter JS.is_present (Chart.column_values data column))) in
  (0 <= OpenAI.uniqueCount (OpenAI.columnInfo data col) <= present
   /\ present <= OpenAI.totalCount (OpenAI.columnInfo data col))
  /\ (0 <= App.uniqueCount (App.columnInfo data col) <= present
      /\ present <= App.totalCount (App.columnInfo data col))
  /\ ((forall k, In k (texts data column) -> own_label k) ->
      total (map snd (App.valueCounts (App.columnInfo data col))) = present).
Proof.
  intros column present.
  assert (Hp : present <= Z.of_nat (List.length data)).
  { unfold present, Chart.column_values.
    pose proof (filter_length_le JS.is_present (map (fun item => Chart.get item column) data)) as L.
    rewrite length_map in L. lia. }
  assert (Ht : Z.of_nat (List.length (texts data column)) = present).
  { unfold texts, present. now rewrite length_map. }
  split; [|split].
  - unfold OpenAI.columnInfo. cbn [OpenAI.uniqueCount OpenAI.totalCount].
    fold column. unfold JS.Set_size, Chart.uniqueValues.
    pose proof (uniqueValues_bound column data []) as L. cbn [List.length] in L.
    fold present. unfold present in *. lia.
  - unfold App.columnInfo. cbn [App.uniqueCount App.totalCount]. fold column.
    rewrite profile_spec. cbn [fst]. unfold JS.Set_size. rewrite length_map.
    pose proof (first_seen_length (texts data column)). lia.
  - intros _. unfold App.columnInfo. cbn [App.valueCounts]. fold column.
    rewrite profile_spec. cbn [snd]. now rewrite count_table_total.
Qed.

Lemma column_statistics_bounds_witness :
  (forall k, In k (texts one_and_text "c") -> own_label k)
  /\ total (map snd (App.valueCounts (App.columnInfo one_and_text column_c))) = 2.
Proof.
  assert (Hown : forall k, In k (texts one_and_text "c") -> own_label k).
  { simpl. intros k [<- | [<- | []]]; reflexivity. }
  destruct (column_statistics_bounds one_and_text column_c) as (_ & _ & H).
  split; [exact Hown | exact (H Hown)].
Defined.

(** ** The chart backfill *)

Lemma falsy_counted (data : list Chart.record) (selected : string) :
  Z.of_nat (List.length
              (filter (fun row => negb (JS.truthy (Chart.get row selected))) data))
  <= occurrences (map (OpenAI.backfill_key selected) data) "Unknown".
Proof.
  unfold occurrences. induction data as [|row data IH]; [simpl; lia|].
  cbn [filter map count_occ].
  assert (K : JS.truthy (Chart.get row selected) = false ->
              OpenAI.backfill_key selected row = "Unknown").
  { intro T. unfold OpenAI.backfill_key, JS.or_else. now rewrite T. }
  destruct (JS.truthy (Chart.get row selected)); cbn [negb].
  - destruct (string_dec _ _); lia.
  - rewrite (K eq_refl). destruct (string_dec "Unknown" "Unknown"); [|congruence].
    cbn [List.length]. lia.
Qed.

(** X5.  The chart backfill counts every record once: the values of its
    series add up to the number of records, its labels are pairwise distinct
    and no point has a count below 1.  Every record whose value in the
    column is falsy (missing, null, the number 0, [NaN], the empty text,
    false) is counted under the label "Unknown". *)
Theorem backfill_counts_every_record
    (data : list Chart.record) (selected : string) :
  let series := OpenAI.backfillSeries data selected in
  total (map Chart.value series) = Z.of_nat (List.length data)
  /\ NoDup (map Chart.name series)
  /\ (forall p, In p series -> 1 <= Chart.value p)
  /\ Z.of_nat (List.length
                 (filter (fun row => negb (JS.truthy (Chart.get row selected))) data))
     <= Chart.count_or_zero (OpenAI.aggregatedData data selected) "Unknown".
Proof.
  cbv zeta. rewrite backfillSeries_table. split; [|split; [|split]].
  - now rewrite to_point_values, count_table_total, length_map.
  - rewrite to_point_names, count_table_keys. apply first_seen_NoDup.
  - intros p Hp. now apply count_table_rows in Hp.
  - unfold OpenAI.aggregatedData.
    rewrite (fold_left_through_map Chart.bump (OpenAI.backfill_key selected)).
    rewrite tally_is_count_table, count_table_lookup. apply falsy_counted.
Qed.

Lemma backfill_counts_every_record_witness :
  In {| Chart.name := "Unknown"; Chart.value := 3 |}
     (OpenAI.backfillSeries survey "Name")
  /\ 1 <= 3.
Proof.
  assert (H : In {| Chart.name := "Unknown"; Chart.value := 3 |}
                 (OpenAI.backfillSeries survey "Name")) by (right; now left).
  destruct (backfill_counts_every_record survey "Name") as (_ & _ & B & _).
  split; [exact H | exact (B _ H)].
Defined.

Lemma member_of_set_other (members : list (string * JS.json)) (key other : string)
    (v : JS.json) :
  other <> key ->
  JS.member_of (OpenAI.set_member members key v) other = JS.member_of members other.
Proof.
  intro H. induction members as [|[k w] members IH]; simpl.
  - now rewrite (proj2 (String.eqb_neq key other)) by congruence.
  - destruct (String.eqb_spec k key) as [-> | N]; simpl.
    + now rewrite (proj2 (String.eqb_neq key other)) by congruence.
    + now rewrite IH.
Qed.

Lemma member_of_set_same (members : list (string * JS.json)) (key : string)
    (v : JS.json) :
  JS.member_of (OpenAI.set_member members key v) key = Some v.
Proof.
  induction members as [|[k w] members IH]; simpl.
  - now rewrite String.eqb_refl.
  - destruct (String.eqb_spec k key) as [-> | N]; simpl.
    + now rewrite String.eqb_refl.
    + now rewrite (proj2 (String.eqb_neq k key)) by assumption.
Qed.

(** X6.  The chart backfill touches nothing but chartData and is idempotent:
    when it returns, every other property of the reply reads as before, and
    running it again on its own result returns that result unchanged. *)
Theorem backfill_idempotent
    (schema : Data.Schema) (data : list Chart.record) (result filled : JS.json) :
  OpenAI.backfill schema data result = JS.Normal filled ->
  OpenAI.backfill schema data filled = JS.Normal filled
  /\ forall key, key <> "chartData" ->
       JS.property filled key = JS.property result key.
Proof.
  unfold OpenAI.backfill. destruct result as [| b | n | s | items | members];
    cbn [JS.property JS.bind JS.json_truthy]; try discriminate;
    try (intro E; injection E as <-; split; reflexivity).
  destruct (JS.json_truthy (JS.member_of members "needsChart")) eqn:W.
  - destruct (JS.json_truthy (JS.member_of members "chartData")) eqn:G.
    + intro E. injection E as <-. cbn [JS.property JS.bind]. rewrite W, G.
      split; reflexivity.
    + destruct (OpenAI.selectedColumn schema (JS.member_of members "chartDataColumn"))
        as [selected | e]; cbn [JS.bind]; [|discriminate].
      destruct (OpenAI.aggregate data selected) as [series | e]; cbn [JS.bind];
        [|discriminate].
      intro E. injection E as <-. cbn [JS.property JS.bind].
      rewrite member_of_set_other by discriminate. rewrite W.
      rewrite member_of_set_same. cbn [JS.json_truthy].
      split; [reflexivity|]. intros key Hkey.
      now rewrite member_of_set_other.
  - intro E. injection E as <-. cbn [JS.property JS.bind]. rewrite W.
    split; reflexivity.
Qed.

Lemma backfill_idempotent_witness :
  let schema := {| Data.tableName := "t"; Data.columns := [] |} in
  exists filled,
    OpenAI.backfill schema eleven chart_wanted = JS.Normal filled
    /\ OpenAI.backfill schema eleven filled = JS.Normal filled.
Proof.
  cbv zeta. eexists. split; [reflexivity|].
  apply (backfill_idempotent _ eleven chart_wanted). reflexivity.
Defined.


(** ** The brace block of a reply *)

Lemma from_first_open_some (cs rest : list ascii) :
  JS.from_first_open cs = Some rest ->
  exists pre, cs = pre ++ "{"%char :: rest /\ ~ In "{"%char pre.
Proof.
  revert rest. induction cs as [|c cs IH]; intros rest H; [discriminate|].
  simpl in H. destruct (Ascii.eqb_spec c "{") as [-> | N].
  - injection H as <-. exists []. split; [reflexivity | intros []].
  - destruct (IH rest H) as (pre & -> & Hpre). exists (c :: pre).
    split; [reflexivity|]. intros [E | E]; [congruence | contradiction].
Qed.

Lemma from_first_open_none (cs : list ascii) :
  JS.from_first_open cs = None <-> ~ In "{"%char cs.
Proof.
  induction cs as [|c cs IH]; simpl; [tauto|].
  destruct (Ascii.eqb_spec c "{") as [-> | N].
  - split; [discriminate | intro H; elim H; now left].
  - rewrite IH. split; [intros H [E | E]; [congruence | contradiction] | tauto].
Qed.

Lemma upto_last_close_none (cs : list ascii) :
  JS.upto_last_close cs = None <-> ~ In "}"%char cs.
Proof.
  induction cs as [|c cs IH]; simpl; [tauto|].
  destruct (JS.upto_last_close cs) as [pre|].
  - split; [discriminate|]. intro H. exfalso.
    assert (X : ~ In "}"%char cs) by tauto. apply IH in X. discriminate X.
  - destruct (Ascii.eqb_spec c "}") as [-> | N].
    + split; [discriminate | intro H; elim H; now left].
    + split; [|reflexivity]. intros _ [E | E]; [congruence|].
      now apply (proj1 IH).
Qed.

Lemma upto_last_close_some (cs taken : list ascii) :
  JS.upto_last_close cs = Some taken ->
  exists body post,
    taken = body ++ ["}"%char] /\ cs = body ++ "}"%char :: post
    /\ ~ In "}"%char post.
Proof.
  revert taken. induction cs as [|c cs IH]; intros taken H; [discriminate|].
  simpl in H. destruct (JS.upto_last_close cs) as [pre|] eqn:E.
  - injection H as <-. destruct (IH pre eq_refl) as (body & post & -> & -> & Hp).
    exists (c :: body), post. repeat split; assumption.
  - destruct (Ascii.eqb_spec c "}") as [-> | N]; [|discriminate].
    injection H as <-. exists [], cs. repeat split.
    now apply upto_last_close_none.
Qed.

(** X8.  The pattern that picks the JSON block out of a reply takes the text
    from the first opening brace to the last closing brace behind it: before
    the block there is no opening brace and after it no closing brace, so
    braces are not paired up and two objects in one reply come out as one
    block.  There is no block exactly when no closing brace stands behind an
    opening brace. *)
Theorem brace_block_first_to_last (text : string) :
  (forall block,
     JS.match_braces text = Some block ->
     exists pre body post,
       list_ascii_of_string text = pre ++ "{"%char :: body ++ "}"%char :: post
       /\ ~ In "{"%char pre
       /\ ~ In "}"%char post
       /\ list_ascii_of_string block = "{"%char :: body ++ ["}"%char])
  /\ (JS.match_braces text = None <->
      ~ exists pre body post,
          list_ascii_of_string text = pre ++ "{"%char :: body ++ "}"%char :: post).
Proof.
  unfold JS.match_braces. split.
  - intros block H.
    destruct (JS.from_first_open (list_ascii_of_string text)) as [rest|] eqn:F;
      [|discriminate].
    destruct (JS.upto_last_close rest) as [taken|] eqn:U; [|discriminate].
    injection H as <-.
    destruct (from_first_open_some _ _ F) as (pre & E & Hpre).
    destruct (upto_last_close_some _ _ U) as (body & post & -> & -> & Hpost).
    exists pre, body, post. repeat split; try assumption.
    cbn [list_ascii_of_string]. now rewrite list_ascii_of_string_of_list_ascii.
  - split.
    + intros H (pre & body & post & E).
      destruct (JS.from_first_open (list_ascii_of_string text)) as [rest|] eqn:F.
      * destruct (JS.upto_last_close rest) as [taken|] eqn:U; [discriminate|].
        apply upto_last_close_none in U.
        destruct (from_first_open_some _ _ F) as (pre' & E' & Hpre').
        rewrite E' in E. clear F E' H.
        revert pre E. induction pre' as [|a pre' IH]; intros pre E.
        -- destruct pre as [|b pre]; simpl in E.
           ++ injection E as E. apply U. rewrite E. apply in_or_app. right. now left.
           ++ injection E as _ E. apply U. rewrite E.
              apply in_or_app. right. right. apply in_or_app. right. now left.
        -- destruct pre as [|b pre]; simpl in E.
           ++ injection E as E _. apply Hpre'. now left.
           ++ injection E as _ E. apply (IH (fun X => Hpre' (or_intror X)) pre E).
      * apply from_first_open_none in F. apply F. rewrite E.
        apply in_or_app. right. now left.
    + intro H.
      destruct (JS.from_first_open (list_ascii_of_string text)) as [rest|] eqn:F;
        [|reflexivity].
      destruct (JS.upto_last_close rest) as [taken|] eqn:U; [|reflexivity].
      exfalso. apply H.
      destruct (from_first_open_some _ _ F) as (pre & E & _).
      destruct (upto_last_close_some _ _ U) as (body & post & _ & -> & _).
      now exists pre, body, post.
Qed.

Lemma brace_block_first_to_last_witness :
  JS.match_braces two_objects = Some "{a} then {b}"
  /\ exists pre body post,
       list_ascii_of_string two_objects = pre ++ "{"%char :: body ++ "}"%char :: post
       /\ ~ In "{"%char pre
       /\ ~ In "}"%char post
       /\ list_ascii_of_string "{a} then {b}" = "{"%char :: body ++ ["}"%char].
Proof.
  destruct (brace_block_first_to_last two_objects) as [H _].
  split; [reflexivity | exact (H _ eq_refl)].
Defined.

(** ** The second reading of the reply in [utils/openai.ts] *)

Lemma has_field_object (members : list (string * JS.json)) (fields : list string) :
  JS.mapM (OpenAI.has_field (JS.JObject members)) fields
  = JS.Normal (map (fun f => match JS.member_of members f with
                             | Some _ => true
                             | None => false
                             end) fields).
Proof.
  induction fields as [|f fields IH]; [reflexivity|].
  cbn [JS.mapM map]. cbn [OpenAI.has_field JS.bind]. now rewrite IH.
Qed.

Lemma missing_none (members : list (string * JS.json)) (fields : list string) :
  JS.is_nil
    (map fst
       (filter (fun fp => negb (snd fp))
          (combine fields
             (map (fun f => match JS.member_of members f with
                            | Some _ => true
                            | None => false
                            end) fields)))) = true
  <-> forall f, In f fields -> JS.member_of members f <> None.
Proof.
  induction fields as [|f fields IH]; [simpl; tauto|].
  cbn [map combine filter snd]. destruct (JS.member_of members f) eqn:M; cbn [negb].
  - rewrite IH. split.
    + intros H g [<- | Hg]; [congruence | now apply H].
    + intros H g Hg. apply H. now right.
  - cbn [map JS.is_nil]. split; [discriminate|].
    intro H. exfalso. apply (H f); [now left | assumption].
Qed.

(** X9.  The second reading of the reply in [utils/openai.ts] accepts a
    reply exactly when it holds a brace block that parses to an object with
    all five fields answer, sqlQuery, needsChart, chartType and
    chartDataColumn, and then returns that object as it is; a block that
    parses to anything else, or lacks a field, is refused with an [Error].
    The block stands behind the first [try], which always returns or throws,
    so the property is one of the text of the function, not of its runs. *)
Theorem second_reading_validates
    (JSON_parse : string -> JS.completion JS.json)
    (resultText : string) (parsed : JS.json) :
  OpenAI.parseResultText JSON_parse resultText = JS.Normal parsed
  <-> exists jsonStr members,
        JS.match_braces resultText = Some jsonStr
        /\ JSON_parse jsonStr = JS.Normal parsed
        /\ parsed = JS.JObject members
        /\ forall f, In f OpenAI.requiredFields -> JS.member_of members f <> None.
Proof.
  unfold OpenAI.parseResultText, OpenAI.extract_result. split.
  - destruct (JS.match_braces resultText) as [jsonStr|]; [|discriminate].
    destruct (JSON_parse jsonStr) as [value | e] eqn:P; cbn [JS.bind]; [|discriminate].
    destruct value as [| b | n | s | items | members];
      try (cbn; discriminate).
    rewrite has_field_object. cbn [JS.bind].
    destruct (JS.is_nil _) eqn:Hnil; [|discriminate].
    intro E. injection E as <-. exists jsonStr, members.
    split; [reflexivity|]. split; [exact P|]. split; [reflexivity|].
    exact (proj1 (missing_none members OpenAI.requiredFields) Hnil).
  - intros (jsonStr & members & -> & -> & -> & H).
    cbn [JS.bind]. rewrite has_field_object. cbn [JS.bind].
    now rewrite (proj2 (missing_none members OpenAI.requiredFields) H).
Qed.

Lemma second_reading_validates_witness :
  (JS.match_braces two_objects = Some "{a} then {b}"
   /\ forall f, In f OpenAI.requiredFields ->
                JS.member_of
                  [("answer", JS.JString "Two regions.");
                   ("sqlQuery", JS.JString "SELECT 1");
                   ("needsChart", JS.JBool false);
                   ("chartType", JS.JNull);
                   ("chartDataColumn", JS.JString "")] f <> None)
  /\ OpenAI.parseResultText obliging_parser two_objects = JS.Normal full_result.
Proof.
  assert (H : forall f, In f OpenAI.requiredFields ->
                JS.member_of
                  [("answer", JS.JString "Two regions.");
                   ("sqlQuery", JS.JString "SELECT 1");
                   ("needsChart", JS.JBool false);
                   ("chartType", JS.JNull);
                   ("chartDataColumn", JS.JString "")] f <> None).
  { intros f [<- | [<- | [<- | [<- | [<- | []]]]]]; discriminate. }
  split; [split; [reflexivity | exact H]|].
  apply (proj2 (second_reading_validates obliging_parser two_objects full_result)).
  exists "{a} then {b}". eexists. split; [reflexivity|]. split; [reflexivity|].
  split; [reflexivity | exact H].
Defined.

(** ** Facts on searching texts *)

Local Open Scope string_scope.


Lemma append_assoc (a b c : string) : (a ++ b) ++ c = a ++ b ++ c.
Proof.
  induction a as [|x a IH]; simpl; [reflexivity | now rewrite IH].
Qed.

Lemma append_empty (a : string) : a ++ "" = a.
Proof.
  induction a as [|x a IH]; simpl; [reflexivity | now rewrite IH].
Qed.

Lemma prefix_spec (p s : string) :
  String.prefix p s = true <-> exists behind, s = p ++ behind.
Proof.
  revert s. induction p as [|c p IH]; intro s.
  - split; [intros _; now exists s | intros _; now destruct s].
  - destruct s as [|d s]; simpl.
    + split; [discriminate | intros [b E]; discriminate E].
    + destruct (Ascii.ascii_dec c d) as [-> | N].
      * rewrite IH. split; intros [b E]; exists b; [now rewrite E|].
        now injection E.
      * split; [discriminate|]. intros [b E]. injection E as E _. congruence.
Qed.


Lemma includes_spec (hay needle : string) :
  Text.includes hay needle = true
  <-> exists before behind, hay = before ++ needle ++ behind.
Proof.
  induction hay as [|c hay IH].
  - cbn [Text.includes]. rewrite prefix_spec. split.
    + intros [b E]. now exists "", b.
    + intros (a & b & E). destruct a; [now exists b | discriminate E].
  - cbn [Text.includes]. rewrite orb_true_iff, prefix_spec, IH. split.
    + intros [[b E] | (a & b & E)].
      * now exists "", b.
      * exists (String c a), b. simpl. now rewrite E.
    + intros (a & b & E). destruct a as [|x a].
      * left. now exists b.
      * right. injection E as _ E. now exists a, b.
Qed.

(** A text that holds [x ++ y] holds [y]. *)
Lemma includes_tail (hay x y : string) :
  Text.includes hay (x ++ y) = true -> Text.includes hay y = true.
Proof.
  rewrite !includes_spec. intros (a & b & E).
  exists (a ++ x), b. now rewrite E, !append_assoc.
Qed.




(** ** Cutting the SQL blocks out of a reply *)


(** ** The chart column and the chart type read out of a reply *)

Lemma determineChartColumn_named (response : string) (columns : list Data.Column) :
  columns <> [] ->
  exists column,
    Analysis.determineChartColumn response columns = JS.Normal (Data.col_name column)
    /\ In column columns.
Proof.
  intro Hne. unfold Analysis.determineChartColumn, Analysis.mentioned_column.
  destruct (find _ columns) as [c|] eqn:F.
  - apply find_some in F as [Hin _]. now exists c.
  - destruct (find (fun col => String.eqb (Data.col_type col) "number") columns)
      as [n|] eqn:N.
    + apply find_some in N as [Hin _]. now exists n.
    + destruct columns as [|c0 columns]; [congruence|]. exists c0.
      split; [reflexivity | now left].
Qed.

Lemma determineChartColumn_empty (response : string) :
  exists message,
    Analysis.determineChartColumn response [] = JS.Throw (JS.Error message).
Proof. eexists. reflexivity. Qed.

Lemma processDataForChart_length (data : list Chart.record) (column : string) :
  (List.length (Chart.processDataForChart data column) <= 10)%nat.
Proof.
  unfold Chart.processDataForChart. destruct data as [|first rest]; [simpl; lia|].
  destruct (String.eqb column ""); [simpl; lia|].
  destruct (JS.typeof_number _).
  - rewrite numericSeries_length. unfold Chart.binCount. lia.
  - unfold Chart.categoricalSeries. rewrite length_firstn. lia.
Qed.

(** X10.  [determineChartColumn] never invents a column.  For a schema with
    at least one column it returns the name of one of them: a column the
    reply mentions (in any casing) if there is one, else a column of type
    number if there is one, else the first column.  For a schema without
    columns it raises a [TypeError]. *)
Theorem chart_column_is_a_column (response : string) (columns : list Data.Column) :
  (columns <> [] ->
   exists column,
     Analysis.determineChartColumn response columns
     = JS.Normal (Data.col_name column)
     /\ In column columns
     /\ ((exists c, In c columns /\ mentions response (Data.col_name c)) ->
         mentions response (Data.col_name column))
     /\ ((forall c, In c columns -> ~ mentions response (Data.col_name c)) ->
         (exists c, In c columns /\ Data.col_type c = "number") ->
         Data.col_type column = "number")
     /\ ((forall c, In c columns -> ~ mentions response (Data.col_name c)) ->
         (forall c, In c columns -> Data.col_type c <> "number") ->
         hd_error columns = Some column))
  /\ (columns = [] ->
      exists message,
        Analysis.determineChartColumn response columns
        = JS.Throw (JS.Error message)).
Proof.
  assert (M : forall c,
             Text.includes (JS.toLowerCase response) (JS.toLowerCase (Data.col_name c))
             = true <-> mentions response (Data.col_name c)).
  { intro c. apply includes_spec. }
  split.
  - intro Hne. unfold Analysis.determineChartColumn, Analysis.mentioned_column.
    destruct (find _ columns) as [c|] eqn:F.
    + apply find_some in F as [Hin Hc]. exists c.
      split; [reflexivity|]. split; [assumption|]. split; [|split].
      * intros _. now apply M.
      * intros Hnone _. exfalso. apply (Hnone c Hin). now apply M.
      * intros Hnone _. exfalso. apply (Hnone c Hin). now apply M.
    + pose proof (find_none _ _ F) as Hnone.
      destruct (find (fun col => String.eqb (Data.col_type col) "number") columns)
        as [n|] eqn:N.
      * apply find_some in N as [Hin Hn]. apply String.eqb_eq in Hn. exists n.
        split; [reflexivity|]. split; [assumption|]. split; [|split].
        -- intros (c & Hc & Hm). apply M in Hm. rewrite (Hnone c Hc) in Hm.
           discriminate Hm.
        -- intros _ _. exact Hn.
        -- intros _ Hno. exfalso. now apply (Hno n Hin).
      * pose proof (find_none _ _ N) as Hnum.
        destruct columns as [|c0 columns]; [congruence|]. exists c0.
        split; [reflexivity|]. split; [now left|]. split; [|split].
        -- intros (c & Hc & Hm). apply M in Hm. rewrite (Hnone c Hc) in Hm.
           discriminate Hm.
        -- intros _ (c & Hc & Ht). specialize (Hnum c Hc). cbv beta in Hnum.
           rewrite Ht in Hnum. discriminate Hnum.
        -- intros _ _. reflexivity.
  - intros ->. eexists. reflexivity.
Qed.

Lemma chart_column_is_a_column_witness :
  Data.columns sales_schema <> []
  /\ exists column,
       Analysis.determineChartColumn "Totals per REGION follow."
         (Data.columns sales_schema)
       = JS.Normal (Data.col_name column)
       /\ In column (Data.columns sales_schema).
Proof.
  destruct (chart_column_is_a_column "Totals per REGION follow."
              (Data.columns sales_schema)) as [H _].
  assert (Hne : Data.columns sales_schema <> []) by discriminate.
  destruct (H Hne) as (column & H1 & H2 & _).
  split; [exact Hne|]. exists column. split; assumption.
Defined.

(** ** What [analyzeDataWithAI] of [App.tsx] returns *)

Lemma pie_wants_chart (llmResponse : string) :
  Analysis.determineChartType llmResponse = Some Data.pie ->
  Analysis.wants_chart llmResponse = true.
Proof.
  unfold Analysis.determineChartType, Analysis.wants_chart.
  destruct (Text.includes (JS.toLowerCase llmResponse) "pie chart") eqn:P.
  - intros _. apply orb_true_iff. right.
    apply (includes_tail _ "pie " "chart"). exact P.
  - destruct (_ || _); [discriminate|]. destruct (_ || _); discriminate.
Qed.

(** X11.  Every result of [analyzeDataWithAI] of [App.tsx], whatever the
    reply was: when chart data is present it has at most 10 points; without
    needsChart there are no chart points; the chart column is empty or the
    name of a column of the schema; and a pie chart type comes only together
    with needsChart. *)
Theorem analysis_result_invariants
    (schema : Data.Schema) (data : list Chart.record)
    (outcome : OpenAI.post_outcome) :
  let result := Analysis.analyzeDataWithAI_resume schema data outcome in
  (forall series, Data.chartData result = Some series ->
                  (List.length series <= 10)%nat)
  /\ (Data.needsChart result = false ->
      Data.chartData result = None \/ Data.chartData result = Some [])
  /\ (Data.chartDataColumn result = ""
      \/ In (Data.chartDataColumn result) (map Data.col_name (Data.columns schema)))
  /\ (Data.chartType result = Some Data.pie -> Data.needsChart result = true).
Proof.
  cbv zeta. unfold Analysis.analyzeDataWithAI_resume.
  destruct (Analysis.attempt schema data outcome) as [result | e] eqn:A.
  - unfold Analysis.attempt in A. destruct outcome as [e | body]; [discriminate|].
    destruct (OpenAI.text_truthy (OpenAI.response body)); [|discriminate].
    unfold Analysis.reply_result in A.
    set (text := OpenAI.text_or (OpenAI.response body) "") in *.
    destruct (Analysis.determineChartColumn text (Data.columns schema))
      as [column | e] eqn:D; cbn [JS.bind] in A; [|discriminate].
    injection A as <-. cbn [Data.chartData Data.needsChart Data.chartDataColumn
                            Data.chartType].
    split; [|split; [|split]].
    + intros series. destruct (_ && _); [|discriminate].
      intro E. injection E as <-.
      apply processDataForChart_length.
    + intros ->. now left.
    + destruct (Data.columns schema) as [|c0 cs] eqn:Ec.
      * destruct (determineChartColumn_empty text) as [m Hm].
        rewrite Hm in D. discriminate D.
      * destruct (determineChartColumn_named text (c0 :: cs) ltac:(discriminate))
          as (c & Hc & Hin).
        rewrite Hc in D. injection D as <-. right. now apply in_map.
    + apply pie_wants_chart.
  - cbn. split; [|split; [|split]].
    + intros series E. injection E as <-. simpl. lia.
    + intros _. now right.
    + now left.
    + discriminate.
Qed.

Lemma analysis_result_invariants_witness :
  let reply :=
    OpenAI.Fulfilled {| OpenAI.response := Some "A pie chart of the Amount helps.";
                        OpenAI.error := None |} in
  let result := Analysis.analyzeDataWithAI_resume sales_schema sales reply in
  Data.chartType result = Some Data.pie
  /\ Data.needsChart result = true
  /\ Data.chartDataColumn result = "Amount"
  /\ exists series, Data.chartData result = Some series
                    /\ (List.length series <= 10)%nat.
Proof.
  cbv zeta.
  destruct (analysis_result_invariants sales_schema sales
              (OpenAI.Fulfilled
                 {| OpenAI.response := Some "A pie chart of the Amount helps.";
                    OpenAI.error := None |}))
    as (H1 & _ & _ & H4).
  split; [reflexivity|]. split; [exact (H4 eq_refl)|]. split; [reflexivity|].
  eexists. split; [reflexivity|]. exact (H1 _ eq_refl).
Defined.


(** ** Texts without the pattern *)



(** ** [handleQuerySubmit]: one answer for each question *)

Section Submitting.

Variable JSON_parse : string -> JS.completion JS.json.
Variable analyzeData :
  string -> Data.Schema -> list Chart.record -> JS.completion Data.AnalysisResult.

Local Abbreviation resume := (Submit.resume JSON_parse analyzeData).
Local Abbreviation settle := (Submit.settle JSON_parse analyzeData).

(** X14.  [handleQuerySubmit] takes one question at a time and answers each
    one once.  A submission with no data, an empty question or an analysis
    in flight is ignored.  Any other submission adds the question and, on
    every path (the greeting, a reply that settles, any failure of the
    fetch, of the reply or of the analysis), exactly one assistant message
    to the conversation, and ends with isAnalyzing false; while the fetch is
    awaited isAnalyzing is true. *)
Theorem one_answer_per_question
    (st : App.AppState) (schema : option Data.Schema)
    (fetched : JS.completion string) :
  ((App.data st = [] \/ App.query st = "" \/ App.isAnalyzing st = true) ->
   App.handleQuerySubmit st = App.Ignored)
  /\ (App.data st <> [] -> App.query st <> "" -> App.isAnalyzing st = false ->
      let question := {| App.role := App.user; App.content := App.query st |} in
      (exists st' answer,
         App.handleQuerySubmit st = App.Settled st'
         /\ App.conversation st'
            = (App.conversation st
               ++ [question; {| App.role := App.assistant; App.content := answer |}])%list
         /\ App.isAnalyzing st' = false)
      \/ (exists st1 answer,
            App.handleQuerySubmit st = App.Fetching st1
            /\ App.isAnalyzing st1 = true
            /\ Submit.conversation (resume st1 schema fetched)
               = (map Submit.turn_of (App.conversation st)
                  ++ [Submit.turn_of question;
                      {| Submit.speaker := App.assistant; Submit.said := answer |}])%list
            /\ Submit.isAnalyzing (resume st1 schema fetched) = false)).
Proof.
  split.
  - unfold App.handleQuerySubmit. intros [-> | [-> | ->]]; cbn [JS.is_nil orb].
    + reflexivity.
    + now rewrite orb_true_r.
    + now rewrite orb_true_r.
  - intros Hdata Hquery Hidle question. unfold App.handleQuerySubmit.
    rewrite Hidle, (proj2 (String.eqb_neq (App.query st) "")) by assumption.
    destruct (App.data st) as [|row rows] eqn:Ed; [congruence|].
    cbn [JS.is_nil orb]. destruct (App.is_greeting (App.query st)).
    + left. eexists. eexists. split; [reflexivity|]. split; reflexivity.
    + right. eexists. unfold Submit.resume.
      match goal with
      | |- context [Submit.settle _ _ ?s _ _] =>
          destruct (Submit.settle JSON_parse analyzeData s schema fetched)
            as [[turn shown] | e] eqn:S
      end.
      * assert (Hs : Submit.speaker turn = App.assistant).
        { unfold Submit.settle in S.
          destruct fetched as [text | e]; cbn [JS.bind] in S; [|discriminate].
          destruct (Submit.analyzeQuery _ _ _ _); cbn [JS.bind] in S; [|discriminate].
          destruct (JS.property _ "answer"); cbn [JS.bind] in S; [|discriminate].
          destruct (JS.property _ "sqlQuery"); cbn [JS.bind] in S; [|discriminate].
          destruct (JS.property _ "visualization"); cbn [JS.bind] in S; [|discriminate].
          now injection S as <- _. }
        exists (Submit.said turn). split; [reflexivity|]. split; [reflexivity|].
        cbn [Submit.conversation Submit.isAnalyzing App.conversation].
        split; [|reflexivity]. rewrite map_app, <- app_assoc. cbn [map app].
        destruct turn as [sp sd]. cbn in Hs |- *. now rewrite Hs.
      * eexists. split; [reflexivity|]. split; [reflexivity|].
        cbn [Submit.conversation Submit.isAnalyzing App.conversation].
        split; [|reflexivity]. rewrite map_app, <- app_assoc. reflexivity.
Qed.

(** X15.  When anything fails after the fetch of [handleQuerySubmit], the
    one message added to the conversation is an assistant's apology that
    quotes the error, and the result shown has that apology for its answer,
    an empty sqlQuery, needsChart false, a null chart type, an empty chart
    column and no chart data; the question stays in the input and
    isAnalyzing ends false.  A rejected fetch fails
    with its own error, a missing schema with "Please upload data first",
    and a failing [analyzeData] with its own error. *)
Theorem submit_failures_are_answered
    (st : App.AppState) (schema : option Data.Schema)
    (fetched : JS.completion string) :
  (forall e, fetched = JS.Throw e -> settle st schema fetched = JS.Throw e)
  /\ (forall text, fetched = JS.Normal text -> schema = None ->
        settle st schema fetched = JS.Throw (JS.Error "Please upload data first"))
  /\ (forall text sch e,
        fetched = JS.Normal text -> schema = Some sch -> App.data st <> [] ->
        analyzeData (App.query st) sch (App.data st) = JS.Throw e ->
        settle st schema fetched = JS.Throw e)
  /\ (forall e,
        settle st schema fetched = JS.Throw e ->
        let after := resume st schema fetched in
        Submit.conversation after
        = (map Submit.turn_of (App.conversation st)
           ++ [ {| Submit.speaker := App.assistant;
                   Submit.said := JS.JString (Submit.errorMessage e) |} ])%list
        /\ Submit.shown_answer (Submit.queryResult after)
           = JS.JString (Submit.errorMessage e)
        /\ String.prefix "I apologize" (Submit.errorMessage e) = true
        /\ (forall m, e = JS.Error m ->
              Submit.errorMessage e
              = "I apologize, but I encountered an error while processing your query: "
                ++ m)
        /\ Submit.shown_sqlQuery (Submit.queryResult after) = JS.JString ""
        /\ Submit.shown_needsChart (Submit.queryResult after) = false
        /\ Submit.shown_chartType (Submit.queryResult after) = JS.JNull
        /\ Submit.shown_chartDataColumn (Submit.queryResult after) = ""
        /\ Submit.shown_chartData (Submit.queryResult after) = None
        /\ Submit.query after = App.query st
        /\ Submit.isAnalyzing after = false).
Proof.
  split; [|split; [|split]].
  - intros e ->. reflexivity.
  - intros text -> ->. reflexivity.
  - intros text sch e -> -> Hdata He. unfold Submit.settle. cbn [JS.bind].
    unfold Submit.analyzeQuery. destruct (App.data st); [congruence|].
    cbn [JS.is_nil]. now rewrite He.
  - intros e S. cbv zeta. unfold Submit.resume. rewrite S.
    cbn [Submit.queryResult Submit.shown_answer Submit.shown_sqlQuery
         Submit.shown_needsChart Submit.shown_chartType Submit.shown_chartData
         Submit.shown_chartDataColumn Submit.query Submit.conversation
         Submit.isAnalyzing].
    split; [reflexivity|]. split; [reflexivity|]. split; [now destruct e|].
    split; [now intros m ->|]. repeat split.
Qed.

(** X16.  A reply that cannot be read does not stop the analysis: when
    [llmData] is one of the two fallback objects and [analyzeData] returns a
    result, the assistant's message and the shown answer are the fallback's
    apology, but the shown sqlQuery, chart type and chart data are those of
    [analyzeData], since the fallback's own are empty; the input is
    cleared. *)
Theorem unreadable_reply_keeps_the_analysis
    (st : App.AppState) (sch : Data.Schema)
    (text : string) (result : Data.AnalysisResult) :
  App.data st <> [] ->
  (App.llmData JSON_parse text = App.no_json_reply
   \/ App.llmData JSON_parse text = App.parse_error_reply) ->
  analyzeData (App.query st) sch (App.data st) = JS.Normal result ->
  let after := resume st (Some sch) (JS.Normal text) in
  (exists turns apology,
     Submit.conversation after
     = (turns ++ [ {| Submit.speaker := App.assistant;
                      Submit.said := JS.JString apology |} ])%list
     /\ Submit.shown_answer (Submit.queryResult after) = JS.JString apology
     /\ String.prefix "I apologize" apology = true)
  /\ Submit.shown_sqlQuery (Submit.queryResult after)
     = JS.JString (Data.sqlQuery result)
  /\ Submit.shown_chartType (Submit.queryResult after)
     = Submit.chartType_value (Data.chartType result)
  /\ Submit.shown_needsChart (Submit.queryResult after) = Data.needsChart result
  /\ Submit.shown_chartData (Submit.queryResult after) = Data.chartData result
  /\ Submit.query after = "".
Proof.
  intros Hdata Hllm Hres. cbv zeta. unfold Submit.resume, Submit.settle.
  cbn [JS.bind]. unfold Submit.analyzeQuery.
  destruct (App.data st) as [|row rows] eqn:Ed; [congruence|]. cbn [JS.is_nil].
  rewrite Hres. cbn [JS.bind].
  destruct Hllm as [-> | ->]; cbn; (split; [|repeat split]);
    eexists; eexists; (split; [reflexivity|]); split; reflexivity.
Qed.

End Submitting.

Lemma one_answer_per_question_witness :
  (App.data asking <> [] /\ App.query asking <> "" /\ App.isAnalyzing asking = false)
  /\ exists st1,
       App.handleQuerySubmit asking = App.Fetching st1
       /\ List.length
            (Submit.conversation
               (Submit.resume rejecting_parser fixed_analysis st1 (Some sales_schema)
                  (JS.Throw (JS.Error "Failed to fetch"))))
          = 2%nat.
Proof.
  destruct (one_answer_per_question rejecting_parser fixed_analysis asking
              (Some sales_schema) (JS.Throw (JS.Error "Failed to fetch")))
    as [_ H].
  destruct (H ltac:(discriminate) ltac:(discriminate) eq_refl)
    as [(st' & a & E & _) | (st1 & a & E & _ & C & _)]; [discriminate E|].
  split; [split; [discriminate | split; [discriminate | reflexivity]]|].
  exists st1. split; [exact E|]. rewrite C. reflexivity.
Defined.

Lemma submit_failures_are_answered_witness :
  Submit.settle rejecting_parser fixed_analysis asking (Some sales_schema)
    (JS.Throw (JS.Error "Failed to fetch"))
  = JS.Throw (JS.Error "Failed to fetch")
  /\ Submit.conversation
       (Submit.resume rejecting_parser fixed_analysis asking (Some sales_schema)
          (JS.Throw (JS.Error "Failed to fetch")))
     = [ {| Submit.speaker := App.assistant;
            Submit.said :=
              JS.JString
                "I apologize, but I encountered an error while processing your query: Failed to fetch" |} ].
Proof.
  destruct (submit_failures_are_answered rejecting_parser fixed_analysis asking
              (Some sales_schema) (JS.Throw (JS.Error "Failed to fetch")))
    as (H1 & _ & _ & H4).
  destruct (H4 _ (H1 _ eq_refl)) as (H & _).
  split; [exact (H1 _ eq_refl) | exact H].
Defined.

Lemma unreadable_reply_keeps_the_analysis_witness :
  (App.data asking <> []
   /\ App.llmData rejecting_parser prose = App.parse_error_reply
   /\ fixed_analysis (App.query asking) sales_schema (App.data asking)
      = fixed_analysis "" sales_schema [])
  /\ Submit.shown_sqlQuery
       (Submit.queryResult
          (Submit.resume rejecting_parser fixed_analysis asking (Some sales_schema)
             (JS.Normal prose)))
     = JS.JString "SELECT 1".
Proof.
  split; [split; [discriminate | split; reflexivity]|].
  destruct (unreadable_reply_keeps_the_analysis rejecting_parser fixed_analysis
              asking sales_schema prose _
              ltac:(discriminate) (or_intror eq_refl) eq_refl)
    as (_ & H & _).
  exact H.
Defined.

(** ** The pages of the data table *)

Local Open Scope Z_scope.

Lemma totalPages_div {A : Type} (data : list A) :
  Pages.totalPages data = (Z.of_nat (List.length data) + 9) / 10.
Proof.
  unfold Pages.totalPages, Pages.rowsPerPage, Qceiling, Qfloor.
  cbn. rewrite Z.mul_1_r.
  generalize (Z.of_nat (List.length data)). intro n.
  pose proof (Z.div_mod (- n) 10 ltac:(lia)).
  pose proof (Z.mod_pos_bound (- n) 10 ltac:(lia)).
  pose proof (Z.div_mod (n + 9) 10 ltac:(lia)).
  pose proof (Z.mod_pos_bound (n + 9) 10 ltac:(lia)).
  lia.
Qed.

Lemma firstn_plus {A : Type} (a b : nat) (l : list A) :
  firstn (a + b) l = (firstn a l ++ firstn b (skipn a l))%list.
Proof.
  revert l. induction a as [|a IH]; intro l; [reflexivity|].
  destruct l as [|x l]; cbn [Nat.add firstn skipn app].
  - now rewrite firstn_nil.
  - now rewrite IH.
Qed.

Lemma page_rows {A : Type} (data : list A) (p : Z) :
  1 <= p ->
  Pages.paginatedData data p
  = firstn 10 (skipn (10 * Z.to_nat (p - 1)) data).
Proof.
  intro Hp. unfold Pages.paginatedData, Pages.Array_slice, Pages.rowsPerPage.
  cbv zeta. set (len := Z.of_nat (List.length data)).
  destruct (Z.ltb_spec ((p - 1) * 10) 0) as [H | _]; [lia|].
  destruct (Z.ltb_spec (p * 10) 0) as [H | _]; [lia|].
  assert (E : (10 * Z.to_nat (p - 1))%nat = Z.to_nat ((p - 1) * 10)) by lia.
  rewrite E. clear E.
  destruct (Z.le_gt_cases len ((p - 1) * 10)) as [Hout | Hin].
  - rewrite Z.min_r, Z.min_r by lia.
    rewrite !skipn_all2 by (unfold len in Hout; lia). now rewrite !firstn_nil.
  - rewrite (Z.min_l ((p - 1) * 10)) by lia.
    destruct (Z.le_gt_cases (p * 10) len) as [Hfull | Hlast].
    + rewrite Z.min_l by lia. f_equal. lia.
    + rewrite Z.min_r by lia.
      rewrite !firstn_all2; [reflexivity | |]; rewrite length_skipn;
        unfold len in *; lia.
Qed.

Lemma pages_concat {A : Type} (data : list A) (m : nat) :
  List.concat (map (fun i => firstn 10 (skipn (10 * i) data)) (seq 0 m))
  = firstn (10 * m) data.
Proof.
  induction m as [|m IH]; [reflexivity|].
  rewrite seq_S, map_app, concat_app, IH. cbn [Nat.add map List.concat].
  rewrite app_nil_r. replace (10 * S m)%nat with (10 * m + 10)%nat by lia.
  now rewrite firstn_plus.
Qed.

Lemma page_sizes {A : Type} (data : list A) (p : Z) :
  1 <= p <= Pages.totalPages data ->
  Pages.paginatedData data p <> []
  /\ (List.length (Pages.paginatedData data p) <= 10)%nat
  /\ (p < Pages.totalPages data -> List.length (Pages.paginatedData data p) = 10%nat).
Proof.
  rewrite totalPages_div. set (len := Z.of_nat (List.length data)).
  pose proof (Z.div_mod (len + 9) 10 ltac:(lia)) as Hdiv.
  pose proof (Z.mod_pos_bound (len + 9) 10 ltac:(lia)) as Hmod.
  intro Hp. rewrite page_rows by lia.
  assert (Hl : List.length (firstn 10 (skipn (10 * Z.to_nat (p - 1)) data))
               = Nat.min 10 (List.length data - 10 * Z.to_nat (p - 1))).
  { now rewrite length_firstn, length_skipn. }
  split; [|split].
  - intro E. rewrite E in Hl. cbn [List.length] in Hl. unfold len in *. lia.
  - rewrite Hl. lia.
  - intro Hlt. rewrite Hl. unfold len in *. lia.
Qed.

(** X17.  The pages of the table split the rows: the pages 1 to totalPages,
    laid end to end, are the rows in their order.  Each of these pages holds
    at least one row and at most 10, every page but the last holds exactly 10,
    a page behind the last one is empty, and there is no page exactly when
    there is no row. *)
Theorem pages_split_the_rows {A : Type} (data : list A) :
  let count := Pages.totalPages data in
  List.concat (map (Pages.paginatedData data) (page_numbers count)) = data
  /\ (forall p, 1 <= p <= count ->
        Pages.paginatedData data p <> []
        /\ (List.length (Pages.paginatedData data p) <= 10)%nat
        /\ (p < count -> List.length (Pages.paginatedData data p) = 10%nat))
  /\ (forall p, count < p -> Pages.paginatedData data p = [])
  /\ (count = 0 <-> data = []).
Proof.
  cbv zeta. rewrite totalPages_div.
  set (len := Z.of_nat (List.length data)).
  assert (Hlen : 0 <= len) by (unfold len; lia).
  pose proof (Z.div_mod (len + 9) 10 ltac:(lia)) as Hdiv.
  pose proof (Z.mod_pos_bound (len + 9) 10 ltac:(lia)) as Hmod.
  set (count := (len + 9) / 10) in *.
  split; [|split; [|split]].
  - unfold page_numbers. rewrite map_map.
    rewrite (map_ext_in _ (fun i => firstn 10 (skipn (10 * i) data))).
    + rewrite pages_concat. apply firstn_all2. unfold len in *. lia.
    + intros i _. rewrite page_rows by lia. do 2 f_equal. lia.
  - intros p Hp. pose proof (page_sizes data p) as H.
    rewrite totalPages_div in H. exact (H Hp).
  - intros p Hp. rewrite page_rows by lia.
    rewrite skipn_all2; [apply firstn_nil | unfold len in *; lia].
  - split.
    + intro E. apply length_zero_iff_nil. unfold len in *. lia.
    + intros ->. reflexivity.
Qed.

Lemma pages_split_the_rows_witness :
  1 <= 3 <= Pages.totalPages rows23
  /\ Pages.paginatedData rows23 3 = [20; 21; 22].
Proof.
  destruct (pages_split_the_rows rows23) as (_ & H & _).
  destruct (H 3 ltac:(vm_compute; split; discriminate)) as (_ & _ & _).
  split; [vm_compute; split; discriminate | reflexivity].
Defined.

(** X18.  The page controls never leave the table: with rows loaded, a
    current page between 1 and totalPages stays there under any sequence of
    Previous, Next and typed page numbers, so the page shown always holds a
    row.  Page 1, which an upload sets, is such a page.  Previous on page 1
    and Next on the last page change nothing, and a typed number that is out
    of range or unreadable is dropped. *)
Theorem page_controls_stay_in_range {A : Type} (data : list A)
    (currentPage : Z) (controls : list Pages.control) :
  data <> [] ->
  1 <= currentPage <= Pages.totalPages data ->
  let total := Pages.totalPages data in
  1 <= total
  /\ 1 <= browse total currentPage controls <= total
  /\ Pages.paginatedData data (browse total currentPage controls) <> []
  /\ Pages.turn_page total 1 Pages.Previous = 1
  /\ Pages.turn_page total total Pages.Next = total
  /\ (forall value,
        ~ 1 <= value <= total ->
        Pages.turn_page total currentPage (Pages.Typed (Some value)) = currentPage)
  /\ Pages.turn_page total currentPage (Pages.Typed None) = currentPage.
Proof.
  intros Hdata Hpage. cbv zeta.
  set (total := Pages.totalPages data) in *.
  assert (Hin : 1 <= browse total currentPage controls <= total).
  { unfold browse. revert currentPage Hpage.
    induction controls as [|c controls IH]; intros p Hp; [exact Hp|].
    cbn [fold_left]. apply IH.
    destruct c as [| | [value|]]; cbn [Pages.turn_page]; [lia | lia | | exact Hp].
    destruct (Z.leb_spec 1 value), (Z.leb_spec value total); cbn [andb]; lia. }
  split; [lia|]. split; [exact Hin|]. split.
  - now apply page_sizes.
  - split; [cbn [Pages.turn_page]; lia|]. split; [cbn [Pages.turn_page]; lia|].
    split; [|reflexivity].
    intros value Hout. cbn [Pages.turn_page].
    destruct (Z.leb_spec 1 value), (Z.leb_spec value total); cbn [andb];
      try reflexivity; lia.
Qed.

Lemma page_controls_stay_in_range_witness :
  (rows23 <> [] /\ 1 <= 1 <= Pages.totalPages rows23)
  /\ browse (Pages.totalPages rows23) 1
       [Pages.Next; Pages.Next; Pages.Next; Pages.Typed (Some 7); Pages.Previous]
     = 2.
Proof.
  destruct (page_controls_stay_in_range rows23 1
              [Pages.Next; Pages.Next; Pages.Next; Pages.Typed (Some 7); Pages.Previous]
              ltac:(discriminate) ltac:(vm_compute; split; discriminate))
    as (_ & _ & _).
  split; [split; [discriminate | vm_compute; split; discriminate] | reflexivity].
Defined.

(** ** The chart of a chosen column *)

Local Open Scope string_scope.
Local Open Scope list_scope.

Lemma valueCounts_table (data : list Chart.record) (columnName : string) :
  Explore.valueCounts data columnName
  = count_table (map (Explore.value_key columnName) data).
Proof.
  unfold Explore.valueCounts.
  rewrite (fold_left_through_map Chart.bump (Explore.value_key columnName)).
  apply tally_is_count_table.
Qed.

Lemma text_or_filled (v : JS.prim) (fallback : string) :
  fallback <> "" -> Explore.text_or v fallback <> "".
Proof.
  intro H. unfold Explore.text_or.
  destruct (Explore.toString_opt v) as [t|]; [|exact H].
  now destruct (String.eqb_spec t "").
Qed.

Lemma count_point_names (t : Chart.counter) :
  map Explore.name (map Explore.count_point t) = map fst t.
Proof. rewrite map_map. reflexivity. Qed.

(** X19.  For a column that is not of type "number" and whose cell texts
    name no property that every object inherits (constructor, toString,
    __proto__ and the like), [updateChartData] counts every row once under
    the text of its cell: the labels are pairwise distinct and never empty,
    each point carries the number of rows with its label, and the counts
    add up to the number of rows: no label is dropped, there is no limit of
    10.  A missing, null or empty cell is counted under "Unknown", while
    false keeps its own label. *)
Theorem column_counts_cover_every_row
    (parseFloat : string -> JS.number)
    (data : list Chart.record) (schema : Data.Schema)
    (chartType : Data.ChartType) (columnName : string) (column : Data.Column) :
  find (fun col => String.eqb (Data.col_name col) columnName) (Data.columns schema)
  = Some column ->
  Data.col_type column <> "number" ->
  (forall k, In k (map (Explore.value_key columnName) data) -> own_label k) ->
  let keys := map (Explore.value_key columnName) data in
  exists result table,
    Explore.updateChartData parseFloat data (Some schema) chartType columnName
    = Some result
    /\ Explore.chartData result = map Explore.count_point table
    /\ Permutation table (count_table keys)
    /\ total (map snd table) = Z.of_nat (List.length data)
    /\ NoDup (map Explore.name (Explore.chartData result))
    /\ (forall k n, In (k, n) table -> k <> "" /\ n = occurrences keys k /\ 1 <= n)
    /\ (forall row,
          In row data ->
          (Chart.get row columnName = JS.VUndefined
           \/ Chart.get row columnName = JS.VNull
           \/ Chart.get row columnName = JS.VStr "") ->
          exists n, In ("Unknown", n) table)
    /\ (forall row,
          In row data -> Chart.get row columnName = JS.VBool false ->
          exists n, In ("false", n) table).
Proof.
  intros Hfind Htype _ keys. unfold Explore.updateChartData. rewrite Hfind.
  unfold Explore.transformedData.
  rewrite (proj2 (String.eqb_neq (Data.col_type column) "number")) by assumption.
  rewrite valueCounts_table. fold keys.
  pose proof (Object_entries_perm (count_table keys)) as Hperm.
  set (table := Chart.Object_entries (count_table keys)) in *.
  assert (Hrow : forall k, In k keys -> exists n, In (k, n) table).
  { intros k Hk. exists (occurrences keys k).
    apply (Permutation_in _ (Permutation_sym Hperm)).
    unfold count_table. apply in_map_iff. exists k. split; [reflexivity|].
    now apply first_seen_In. }
  eexists. exists table. split; [reflexivity|]. cbn [Explore.chartData].
  split; [reflexivity|]. split; [exact Hperm|]. split; [|split; [|split; [|split]]].
  - rewrite (total_perm _ _ (Permutation_map snd Hperm)), count_table_total.
    unfold keys. now rewrite length_map.
  - rewrite count_point_names.
    apply (Permutation_NoDup (Permutation_sym (Permutation_map fst Hperm))).
    rewrite count_table_keys. apply first_seen_NoDup.
  - intros k n Hin. apply (Permutation_in _ Hperm) in Hin.
    unfold count_table in Hin. apply in_map_iff in Hin as (k' & E & Hk).
    injection E as -> <-. apply (proj1 (first_seen_In keys k)) in Hk.
    split; [|split; [reflexivity | apply (proj1 (occurrences_pos keys k)) in Hk; lia]].
    unfold keys in Hk. apply in_map_iff in Hk as (row & <- & _).
    apply text_or_filled. discriminate.
  - intros row Hin Hcell. apply Hrow. unfold keys. apply in_map_iff.
    exists row. split; [|exact Hin]. unfold Explore.value_key.
    destruct Hcell as [-> | [-> | ->]]; reflexivity.
  - intros row Hin Hcell. apply Hrow. unfold keys. apply in_map_iff.
    exists row. split; [|exact Hin]. unfold Explore.value_key. now rewrite Hcell.
Qed.

Lemma column_counts_cover_every_row_witness :
  let schema := {| Data.tableName := "survey";
                   Data.columns := Explore.inferColumns [("Name", JS.VStr "Ada")] |} in
  (forall k, In k (map (Explore.value_key "Name") survey) -> own_label k)
  /\ exists result,
       Explore.updateChartData reads_nothing survey (Some schema) Data.pie "Name"
       = Some result
       /\ Explore.chartData result
          = [ {| Explore.name := "Ada"; Explore.value := JS.of_Z 1 |};
              {| Explore.name := "Unknown"; Explore.value := JS.of_Z 3 |} ].
Proof.
  cbv zeta.
  assert (Hown : forall k, In k (map (Explore.value_key "Name") survey) -> own_label k).
  { simpl. intros k [<- | [<- | [<- | [<- | []]]]]; reflexivity. }
  split; [exact Hown|].
  destruct (column_counts_cover_every_row reads_nothing survey
              {| Data.tableName := "survey";
                 Data.columns := Explore.inferColumns [("Name", JS.VStr "Ada")] |}
              Data.pie "Name" _ eq_refl ltac:(discriminate) Hown)
    as (result & table & E & _).
  exists result. split; [exact E|].
  injection E as <-. reflexivity.
Defined.

Lemma rows_from_length (parseFloat : string -> JS.number) (index : Z)
    (columnName : string) (data : list Chart.record) :
  List.length (Explore.rows_from parseFloat index columnName data)
  = List.length data.
Proof.
  revert index. induction data as [|row data IH]; intro index; cbn; [reflexivity|].
  now rewrite IH.
Qed.

Lemma rows_from_nth (parseFloat : string -> JS.number) (columnName : string)
    (data : list Chart.record) (index : Z) (i : nat) (row : Chart.record) :
  nth_error data i = Some row ->
  exists p,
    nth_error (Explore.rows_from parseFloat index columnName data) i = Some p
    /\ Explore.name p = ("Row " ++ JS.digits_of_Z (index + Z.of_nat i + 1))%string
    /\ (forall n, Chart.get row columnName = JS.VNum n -> Explore.value p = n)
    /\ (JS.typeof_number (Chart.get row columnName) = false ->
        Explore.value p
        = parseFloat (Explore.text_or (Chart.get row columnName) "0")).
Proof.
  revert index i. induction data as [|r data IH]; intros index i H.
  - now destruct i.
  - destruct i as [|i]; cbn [nth_error Explore.rows_from] in *.
    + injection H as ->. eexists. split; [reflexivity|].
      cbn [Explore.name Explore.value]. split; [f_equal; f_equal; lia|]. split.
      * now intros n ->.
      * intro T. now destruct (Chart.get row columnName).
    + destruct (IH (index + 1)%Z i H) as (p & E & Hn & Hv). exists p.
      split; [exact E|]. split; [|exact Hv]. rewrite Hn. f_equal. f_equal. lia.
Qed.

(** X20.  For a column of type "number", [updateChartData] draws one point
    for each row, in the order of the rows and without binning: the point of
    the i-th row (from 0) is named "Row i+1", a number cell is its value
    unchanged, and any other cell is read by parseFloat from its text, or
    from "0" when the cell is missing, null or empty. *)
Theorem number_column_one_point_per_row
    (parseFloat : string -> JS.number)
    (data : list Chart.record) (schema : Data.Schema)
    (chartType : Data.ChartType) (columnName : string) (column : Data.Column) :
  find (fun col => String.eqb (Data.col_name col) columnName) (Data.columns schema)
  = Some column ->
  Data.col_type column = "number" ->
  exists result,
    Explore.updateChartData parseFloat data (Some schema) chartType columnName
    = Some result
    /\ List.length (Explore.chartData result) = List.length data
    /\ forall i row,
         nth_error data i = Some row ->
         exists p,
           nth_error (Explore.chartData result) i = Some p
           /\ Explore.name p = ("Row " ++ JS.digits_of_Z (Z.of_nat i + 1))%string
           /\ (forall n, Chart.get row columnName = JS.VNum n -> Explore.value p = n)
           /\ (JS.typeof_number (Chart.get row columnName) = false ->
               Explore.value p
               = parseFloat (Explore.text_or (Chart.get row columnName) "0"))
           /\ ((Chart.get row columnName = JS.VUndefined
                \/ Chart.get row columnName = JS.VNull
                \/ Chart.get row columnName = JS.VStr "") ->
               Explore.value p = parseFloat "0").
Proof.
  intros Hfind Htype. unfold Explore.updateChartData. rewrite Hfind.
  unfold Explore.transformedData. rewrite Htype. cbn [String.eqb Ascii.eqb Bool.eqb].
  eexists. split; [reflexivity|]. cbn [Explore.chartData].
  split; [apply rows_from_length|].
  intros i row Hrow.
  destruct (rows_from_nth parseFloat columnName data 0 i row Hrow)
    as (p & E & Hn & Hnum & Hother).
  exists p. split; [exact E|]. split; [exact Hn|]. split; [exact Hnum|].
  split; [exact Hother|].
  intros [C | [C | C]]; rewrite Hother; rewrite C; reflexivity.
Qed.

Lemma number_column_one_point_per_row_witness :
  exists result,
    Explore.updateChartData reads_nothing sales (Some sales_schema) Data.bar "Amount"
    = Some result
    /\ List.length (Explore.chartData result) = 2%nat.
Proof.
  destruct (number_column_one_point_per_row reads_nothing sales sales_schema
              Data.bar "Amount" _ eq_refl eq_refl) as (result & E & L & _).
  exists result. split; [exact E | exact L].
Defined.

(** ** The schema read off an upload *)

Lemma Object_keys_perm (item : Chart.record) :
  Permutation (Explore.Object_keys item) (map fst item).
Proof.
  unfold Explore.Object_keys. rewrite Array_sort_perm. apply filter_split_perm.
Qed.

Lemma find_named (type_of : string -> string) (keys : list string) (k : string) :
  find (fun col => String.eqb (Data.col_name col) k)
       (map (fun key => {| Data.col_name := key; Data.col_type := type_of key |}) keys)
  = if existsb (String.eqb k) keys
    then Some {| Data.col_name := k; Data.col_type := type_of k |}
    else None.
Proof.
  induction keys as [|key keys IH]; [reflexivity|].
  cbn [map find existsb Data.col_name]. rewrite (String.eqb_sym k key).
  destruct (String.eqb_spec key k) as [-> | _]; [reflexivity | exact IH].
Qed.

Lemma existsb_eqb_In (k : string) (keys : list string) :
  existsb (String.eqb k) keys = true <-> In k keys.
Proof.
  rewrite existsb_exists. split.
  - intros (x & Hx & E). apply String.eqb_eq in E. now subst.
  - intro H. exists k. split; [exact H | apply String.eqb_refl].
Qed.

(** X21.  The schema [handleFileUpload] reads off the first row fits the two
    chart builders.  Its columns are the keys of the first row, each once,
    and a column is of type "number" exactly when the first row holds a
    number there.  [updateChartData] sets a result exactly for the keys of
    the first row, and it draws one point per row exactly for the columns on
    which [processDataForChart] takes its numeric branch; on all others both
    count categories. *)
Theorem inferred_schema_fits_the_charts
    (parseFloat : string -> JS.number)
    (firstRow : Chart.record) (rest : list Chart.record)
    (table : string) (chartType : Data.ChartType) (columnName : string) :
  NoDup (map fst firstRow) ->
  let data := firstRow :: rest in
  let schema := {| Data.tableName := table;
                   Data.columns := Explore.inferColumns firstRow |} in
  Permutation (map Data.col_name (Data.columns schema)) (map fst firstRow)
  /\ NoDup (map Data.col_name (Data.columns schema))
  /\ (forall column,
        In column (Data.columns schema) ->
        (Data.col_type column = "number"
         <-> JS.typeof_number (Chart.get firstRow (Data.col_name column)) = true))
  /\ (Explore.updateChartData parseFloat data (Some schema) chartType columnName = None
      <-> ~ In columnName (map fst firstRow))
  /\ (In columnName (map fst firstRow) ->
      columnName <> "" ->
      exists result,
        Explore.updateChartData parseFloat data (Some schema) chartType columnName
        = Some result
        /\ ((Explore.chartData result
             = Explore.rows_from parseFloat 0 columnName data
             /\ Chart.processDataForChart data columnName
                = Chart.numericSeries data columnName)
            \/ (Explore.chartData result
                = map Explore.count_point
                    (Chart.Object_entries (Explore.valueCounts data columnName))
                /\ Chart.processDataForChart data columnName
                   = Chart.categoricalSeries data columnName))).
Proof.
  intros Hnodup data schema. cbn [Data.columns schema].
  assert (Hnames : map Data.col_name (Explore.inferColumns firstRow)
                   = Explore.Object_keys firstRow).
  { unfold Explore.inferColumns. rewrite map_map. cbn [Data.col_name]. apply map_id. }
  assert (Htype : forall v, Explore.detectColumnType v = "number"
                            <-> JS.typeof_number v = true).
  { intro v. destruct v; cbn; split; congruence. }
  assert (Hkey : forall k, In k (Explore.Object_keys firstRow) <-> In k (map fst firstRow)).
  { intro k. split; apply Permutation_in;
      [|apply Permutation_sym]; apply Object_keys_perm. }
  assert (Hupdate :
    Explore.updateChartData parseFloat data (Some schema) chartType columnName
    = if existsb (String.eqb columnName) (Explore.Object_keys firstRow)
      then Some {| Explore.answer := "Data loaded successfully";
                   Explore.sqlQuery := "";
                   Explore.needsChart := true;
                   Explore.chartType := chartType;
                   Explore.chartData :=
                     Explore.transformedData parseFloat data
                       {| Data.col_name := columnName;
                          Data.col_type :=
                            Explore.detectColumnType (Chart.get firstRow columnName) |}
                       columnName;
                   Explore.chartDataColumn := columnName |}
      else None).
  { unfold Explore.updateChartData, schema, Explore.inferColumns.
    cbn [Data.columns]. rewrite find_named.
    now destruct (existsb (String.eqb columnName) (Explore.Object_keys firstRow)). }
  split; [|split; [|split; [|split]]].
  - rewrite Hnames. apply Object_keys_perm.
  - rewrite Hnames.
    apply (Permutation_NoDup (Permutation_sym (Object_keys_perm firstRow)) Hnodup).
  - intros column Hin. unfold Explore.inferColumns in Hin.
    apply in_map_iff in Hin as (key & <- & _). cbn [Data.col_type Data.col_name].
    apply Htype.
  - rewrite Hupdate.
    destruct (existsb (String.eqb columnName) (Explore.Object_keys firstRow)) eqn:E.
    + apply existsb_eqb_In, Hkey in E. split; [discriminate | contradiction].
    + split; [|reflexivity]. intros _ Hin. apply Hkey, existsb_eqb_In in Hin.
      congruence.
  - intros Hin Hname. rewrite Hupdate.
    rewrite (proj2 (existsb_eqb_In columnName _) (proj2 (Hkey columnName) Hin)).
    eexists. split; [reflexivity|]. cbn [Explore.chartData].
    unfold Explore.transformedData, data, Chart.processDataForChart.
    cbn [Data.col_type].
    rewrite (proj2 (String.eqb_neq columnName "")) by assumption.
    destruct (Chart.get firstRow columnName); cbn; auto.
Qed.

Lemma inferred_schema_fits_the_charts_witness :
  NoDup (map fst [("Region", JS.VStr "north"); ("Amount", JS.VNum (JS.of_Z 10))])
  /\ Explore.inferColumns [("Region", JS.VStr "north"); ("Amount", JS.VNum (JS.of_Z 10))]
     = Data.columns sales_schema.
Proof.
  assert (H : NoDup (map fst [("Region", JS.VStr "north");
                              ("Amount", JS.VNum (JS.of_Z 10))])).
  { cbn. repeat constructor; cbn; intuition discriminate. }
  destruct (inferred_schema_fits_the_charts reads_nothing
              [("Region", JS.VStr "north"); ("Amount", JS.VNum (JS.of_Z 10))]
              (tl sales) "sales" Data.bar "Amount" H) as (_ & _ & _).
  split; [exact H | reflexivity].
Defined.

(** * The code as an engine runs it *)

(** ** Rounding to binary64 *)

Local Open Scope Z_scope.

Lemma pow2_pos (e : Z) : (0 < Binary64.pow2 e)%Q.
Proof. apply Qpower_0_lt. reflexivity. Qed.

Lemma pow2_plus (a b : Z) :
  (Binary64.pow2 (a + b) == Binary64.pow2 a * Binary64.pow2 b)%Q.
Proof. apply Qpower_plus. discriminate. Qed.

Lemma pow2_le (a b : Z) : a <= b -> (Binary64.pow2 a <= Binary64.pow2 b)%Q.
Proof. intro H. apply Qpower_le_compat_l; [exact H | discriminate]. Qed.

Lemma pow2_Z (n : Z) : 0 <= n -> (Binary64.pow2 n == inject_Z (2 ^ n))%Q.
Proof. intro H. symmetry. apply (Zpower_Qpower 2 n H). Qed.

(** [exponent q] is not above the binary logarithm of [q]. *)
Lemma exponent_below (q : Q) :
  (0 < q)%Q -> (Binary64.pow2 (Binary64.exponent q) <= q)%Q.
Proof.
  intro Hq. unfold Binary64.exponent. cbv zeta.
  destruct (Qle_bool _ q) eqn:T; [now apply Qle_bool_iff|].
  destruct q as [n d]. cbn [Qnum Qden].
  assert (Hn : 0 < n) by (unfold Qlt in Hq; cbn in Hq; lia).
  set (ln := Z.log2 n). set (ld := Z.log2 (Z.pos d)).
  destruct (Z.log2_spec n Hn) as [Ln _]. fold ln in Ln.
  destruct (Z.log2_spec (Z.pos d) ltac:(lia)) as [_ Ld]. fold ld in Ld.
  assert (H0 : 0 <= ln) by apply Z.log2_nonneg.
  assert (H1 : 0 <= ld) by apply Z.log2_nonneg.
  assert (E : (Binary64.pow2 ln
               == Binary64.pow2 (ln - ld - 1) * Binary64.pow2 (ld + 1))%Q).
  { rewrite <- pow2_plus. now replace (ln - ld - 1 + (ld + 1)) with ln by lia. }
  rewrite (pow2_Z ln H0), (pow2_Z (ld + 1)) in E by lia.
  replace (Z.succ ld) with (ld + 1) in Ld by lia.
  apply Qmult_le_r with (z := inject_Z (2 ^ (ld + 1))).
  { change 0%Q with (inject_Z 0). rewrite <- Zlt_Qlt. lia. }
  rewrite <- E.
  apply Qle_trans with (y := inject_Z n); [rewrite <- Zle_Qle; exact Ln|].
  unfold Qle, Qmult, inject_Z. cbn [Qnum Qden].
  rewrite Z.mul_1_r, Pos.mul_1_r. nia.
Qed.

Lemma nearest_even_floor (q : Q) :
  Qfloor q <= Binary64.nearest_even q <= Qfloor q + 1.
Proof.
  unfold Binary64.nearest_even. cbv zeta.
  destruct (Qcompare _ _); [destruct (Z.even _)| |]; lia.
Qed.

Lemma nearest_even_above (q : Q) :
  (inject_Z (Binary64.nearest_even q) <= q + (1 # 2))%Q.
Proof.
  unfold Binary64.nearest_even. cbv zeta.
  pose proof (Qfloor_le q) as F.
  destruct (Qcompare (q - inject_Z (Qfloor q)) (1 # 2)) eqn:C.
  - apply Qeq_alt in C. destruct (Z.even _); [|rewrite inject_Z_plus];
      set (f := inject_Z (Qfloor q)) in *; change (inject_Z 1) with 1%Q; lra.
  - set (f := inject_Z (Qfloor q)) in *. lra.
  - apply Qgt_alt in C. rewrite inject_Z_plus.
    set (f := inject_Z (Qfloor q)) in *. change (inject_Z 1) with 1%Q. lra.
Qed.

(** An integer that is not above [q] is not above the integer nearest
    to [q]. *)
Lemma nearest_even_ge (k : Z) (q : Q) :
  (inject_Z k <= q)%Q -> k <= Binary64.nearest_even q.
Proof.
  intro H. pose proof (nearest_even_floor q) as [L _].
  apply Qfloor_resp_le in H. rewrite Qfloor_Z in H. lia.
Qed.

(** What [round_positive] gives: an infinity, or the multiple of the unit in
    the last place nearest to [q]. *)
Lemma round_positive_cases (q : Q) :
  let ulp := Binary64.pow2 (Z.max (Binary64.exponent q - 52) (-1074)) in
  Binary64.round_positive q = JS.PInf
  \/ Binary64.round_positive q
     = JS.Fin (inject_Z (Binary64.nearest_even (q / ulp)) * ulp).
Proof.
  cbv zeta. unfold Binary64.round_positive.
  destruct (Qle_bool _ _); [now left | now right].
Qed.

Lemma round_zero (q : Q) : (q == 0)%Q -> Binary64.round q = JS.Fin 0.
Proof.
  intro H. unfold Binary64.round. now rewrite (proj1 (Qeq_alt q 0) H).
Qed.

Lemma round_of_positive (q : Q) :
  (0 < q)%Q -> Binary64.round q = Binary64.round_positive q.
Proof.
  intro H. unfold Binary64.round.
  now rewrite (proj1 (Qgt_alt q 0) H).
Qed.

(** Rounding keeps a number at or above an integer [k] that binary64 holds
    exactly. *)
Lemma round_at_least (k : Z) (q : Q) :
  0 <= k <= 2 ^ 53 -> (inject_Z k <= q)%Q ->
  Binary64.round q = JS.PInf
  \/ exists r, Binary64.round q = JS.Fin r /\ (inject_Z k <= r)%Q.
Proof.
  intros Hk Hq.
  assert (H0 : (0 <= q)%Q).
  { apply Qle_trans with (y := inject_Z k); [|exact Hq].
    change 0%Q with (inject_Z 0). rewrite <- Zle_Qle. lia. }
  destruct (Qle_lt_or_eq _ _ H0) as [Hpos | Hz].
  2:{ right. exists 0%Q. rewrite round_zero by (symmetry; exact Hz).
      split; [reflexivity|]. now rewrite Hz. }
  rewrite round_of_positive by assumption.
  destruct (round_positive_cases q) as [-> | ->]; [now left|]. right.
  set (ex := Z.max (Binary64.exponent q - 52) (-1074)).
  set (ulp := Binary64.pow2 ex).
  assert (Hulp : (0 < ulp)%Q) by apply pow2_pos.
  eexists. split; [reflexivity|].
  destruct (Z.le_gt_cases ex 0) as [Hex | Hex].
  - (* the unit is at most 1: [k] is a multiple of it *)
    assert (E : (Binary64.pow2 (- ex) * ulp == 1)%Q).
    { unfold ulp. rewrite <- pow2_plus. now replace (- ex + ex) with 0 by lia. }
    assert (P : (Binary64.pow2 (- ex) == inject_Z (2 ^ (- ex)))%Q)
      by (apply pow2_Z; lia).
    assert (K : (inject_Z (k * 2 ^ (- ex)) * ulp == inject_Z k)%Q).
    { rewrite inject_Z_mult, <- P, <- Qmult_assoc, E. ring. }
    rewrite <- K. apply Qmult_le_compat_r; [|now apply Qlt_le_weak].
    rewrite <- Zle_Qle. apply nearest_even_ge.
    apply Qle_shift_div_l; [exact Hulp|]. now rewrite K.
  - (* the unit is above 1: the rounded number is at least [2^53] *)
    assert (Ee : ex = Binary64.exponent q - 52) by (unfold ex in *; lia).
    pose proof (exponent_below q Hpos) as B.
    assert (S : (Binary64.pow2 (Binary64.exponent q)
                 == Binary64.pow2 52 * ulp)%Q).
    { unfold ulp. rewrite <- pow2_plus, Ee.
      now replace (52 + (Binary64.exponent q - 52)) with (Binary64.exponent q) by lia. }
    assert (M : 2 ^ 52 <= Binary64.nearest_even (q / ulp)).
    { apply nearest_even_ge. rewrite <- (pow2_Z 52) by lia.
      apply Qle_shift_div_l; [exact Hulp|]. now rewrite <- S. }
    assert (U : (2 <= ulp)%Q).
    { change 2%Q with (Binary64.pow2 1). apply pow2_le. lia. }
    apply Qle_trans with (y := (inject_Z (2 ^ 52) * 2)%Q).
    + change (inject_Z (2 ^ 52) * 2)%Q with (inject_Z (2 ^ 52 * 2)).
      rewrite <- Zle_Qle. lia.
    + apply Qle_trans with (y := (inject_Z (2 ^ 52) * ulp)%Q).
      * apply Qmult_le_l; [reflexivity | exact U].
      * apply Qmult_le_compat_r; [|now apply Qlt_le_weak].
        now rewrite <- Zle_Qle.
Qed.

Lemma round_nonneg (q : Q) :
  (0 <= q)%Q ->
  Binary64.round q = JS.PInf
  \/ exists r, Binary64.round q = JS.Fin r /\ (0 <= r)%Q.
Proof.
  intro H. apply (round_at_least 0 q); [lia | exact H].
Qed.

(** A rounded number that is normal, at least [2^-1022], is not above the
    exact one by more than a ninth of it. *)
Lemma round_normal_above (q r : Q) :
  (0 < q)%Q -> Binary64.round q = JS.Fin r ->
  (Binary64.pow2 (-1022) <= r)%Q ->
  (r <= q * (10 # 9))%Q.
Proof.
  intros Hq Hr Hn. rewrite round_of_positive in Hr by assumption.
  destruct (round_positive_cases q) as [E | E]; rewrite E in Hr; [discriminate|].
  injection Hr as <-.
  set (ex := Z.max (Binary64.exponent q - 52) (-1074)) in *.
  set (ulp := Binary64.pow2 ex) in *.
  set (m := Binary64.nearest_even (q / ulp)) in *.
  assert (Hulp : (0 < ulp)%Q) by apply pow2_pos.
  assert (M : 2 ^ 52 <= m).
  { destruct (Z.le_gt_cases (Binary64.exponent q - 52) (-1074)) as [Hex | Hex].
    - assert (Ee : ex = -1074) by (unfold ex; lia).
      assert (S : (Binary64.pow2 (-1022) == Binary64.pow2 52 * ulp)%Q).
      { unfold ulp. rewrite Ee, <- pow2_plus. reflexivity. }
      rewrite S in Hn. apply Qmult_le_r in Hn; [|exact Hulp].
      rewrite (pow2_Z 52) in Hn by lia. now rewrite <- Zle_Qle in Hn.
    - assert (Ee : ex = Binary64.exponent q - 52) by (unfold ex; lia).
      pose proof (exponent_below q Hq) as B.
      assert (S : (Binary64.pow2 (Binary64.exponent q)
                   == Binary64.pow2 52 * ulp)%Q).
      { unfold ulp. rewrite <- pow2_plus, Ee.
        now replace (52 + (Binary64.exponent q - 52))
          with (Binary64.exponent q) by lia. }
      apply nearest_even_ge. rewrite <- (pow2_Z 52) by lia.
      apply Qle_shift_div_l; [exact Hulp|]. now rewrite <- S. }
  pose proof (nearest_even_above (q / ulp)) as A. fold m in A.
  assert (X : (q == q / ulp * ulp)%Q) by (field; lra).
  assert (M5 : (5 <= inject_Z m)%Q).
  { change 5%Q with (inject_Z 5). rewrite <- Zle_Qle. lia. }
  assert (B : (inject_Z m <= q / ulp * (10 # 9))%Q) by lra.
  apply Qle_trans with (y := (q / ulp * (10 # 9) * ulp)%Q).
  - apply Qmult_le_compat_r; [exact B | now apply Qlt_le_weak].
  - rewrite X at 2. apply Qle_lteq. right. ring.
Qed.

(** ** Counting into bins *)

Lemma incr_at_nth (bins : list Z) (i j : nat) :
  (i < List.length bins)%nat ->
  nth j (Chart.incr_at bins i) 0 = nth j bins 0 + (if (j =? i)%nat then 1 else 0).
Proof.
  revert i j. induction bins as [|b bins IH]; intros i j H; [simpl in H; lia|].
  destruct i as [|i], j as [|j]; cbn [Chart.incr_at nth Nat.eqb]; try lia.
  apply IH. simpl in H. lia.
Qed.

(** [bins[idx]++] adds one to the element whose number [idx] is, and to no
    other. *)
Lemma increment_nth (bins : list Z) (idx : JS.number) (j : nat) :
  (j < List.length bins)%nat ->
  nth j (Chart.increment bins idx) 0
  = nth j bins 0
    + (if JS.strict_eqb idx (JS.of_Z (Z.of_nat j)) then 1 else 0).
Proof.
  intro Hj. unfold Chart.increment, Chart.array_slot.
  destruct idx as [| | |q]; cbn [JS.strict_eqb JS.of_Z]; try lia.
  destruct (Qeq_bool q (inject_Z (Qfloor q))) eqn:I; cbn [andb].
  - apply Qeq_bool_eq in I.
    destruct (Z.leb_spec 0 (Qfloor q)) as [L | L]; cbn [andb].
    + destruct (Z.ltb_spec (Qfloor q) (Z.of_nat (List.length bins))) as [U | U].
      * rewrite incr_at_nth by lia. f_equal.
        destruct (Nat.eqb_spec j (Z.to_nat (Qfloor q))) as [-> | N].
        -- rewrite Z2Nat.id by lia. rewrite <- I. now rewrite Qeq_bool_refl.
        -- destruct (Qeq_bool q (inject_Z (Z.of_nat j))) eqn:E; [|reflexivity].
           apply Qeq_bool_eq in E. apply Qfloor_comp in E.
           rewrite Qfloor_Z in E. lia.
      * destruct (Qeq_bool q (inject_Z (Z.of_nat j))) eqn:E; [|lia].
        apply Qeq_bool_eq in E. apply Qfloor_comp in E.
        rewrite Qfloor_Z in E. lia.
    + destruct (Qeq_bool q (inject_Z (Z.of_nat j))) eqn:E; [|lia].
      apply Qeq_bool_eq in E. apply Qfloor_comp in E.
      rewrite Qfloor_Z in E. lia.
  - destruct (Qeq_bool q (inject_Z (Z.of_nat j))) eqn:E; [|lia].
    apply Qeq_bool_eq in E. pose proof (Qfloor_comp _ _ E) as F.
    rewrite Qfloor_Z in F. rewrite F, E, Qeq_bool_refl in I. discriminate I.
Qed.

Section Tally.

Variable idx : JS.prim -> JS.number.

Local Abbreviation tally :=
  (fun bins values => fold_left (fun bins v => Chart.increment bins (idx v)) values bins).

Lemma tally_length (values : list JS.prim) (bins : list Z) :
  List.length (tally bins values) = List.length bins.
Proof.
  revert bins. induction values as [|v values IH]; intro bins; [reflexivity|].
  cbn [fold_left]. now rewrite IH, increment_length.
Qed.

Lemma tally_bounds (values : list JS.prim) (bins : list Z) :
  Forall (fun x => 0 <= x) bins ->
  Forall (fun x => 0 <= x) (tally bins values)
  /\ total bins <= total (tally bins values)
     <= total bins + Z.of_nat (List.length values).
Proof.
  revert bins. induction values as [|v values IH]; intros bins F.
  - cbn [fold_left List.length]. split; [exact F | lia].
  - cbn [fold_left List.length].
    destruct (increment_bounds bins (idx v) F) as [F1 T1].
    destruct (IH _ F1) as [F2 T2]. split; [exact F2 | lia].
Qed.

(** Each bin counts the values whose index is its number. *)
Lemma tally_nth (values : list JS.prim) (bins : list Z) (j : nat) :
  (j < List.length bins)%nat ->
  nth j (tally bins values) 0
  = nth j bins 0
    + Z.of_nat (List.length
        (filter (fun v => JS.strict_eqb (idx v) (JS.of_Z (Z.of_nat j))) values)).
Proof.
  revert bins. induction values as [|v values IH]; intros bins Hj.
  - cbn [fold_left filter List.length]. lia.
  - cbn [fold_left filter]. rewrite IH by now rewrite increment_length.
    rewrite increment_nth by assumption.
    destruct (JS.strict_eqb (idx v) _); cbn [List.length]; lia.
Qed.

(** When every value has an index inside the array, no value is lost. *)
Lemma tally_total (values : list JS.prim) (bins : list Z) :
  (forall v, In v values ->
     exists i, idx v = JS.of_Z i /\ 0 <= i < Z.of_nat (List.length bins)) ->
  total (tally bins values) = total bins + Z.of_nat (List.length values).
Proof.
  revert bins. induction values as [|v values IH]; intros bins H.
  - cbn [fold_left List.length]. lia.
  - cbn [fold_left List.length].
    destruct (H v ltac:(now left)) as (i & E & Hi).
    rewrite IH.
    + rewrite E, increment_total by assumption. lia.
    + intros w Hw. rewrite increment_length. apply H. now right.
Qed.

End Tally.

Lemma nth_repeat_zero (n j : nat) : nth j (repeat 0 n) 0 = 0.
Proof.
  revert j. induction n as [|n IH]; intros [|j]; cbn; auto.
Qed.

Lemma engine_label_bins_length (min size : JS.number) (index : Z) (bins : list Z) :
  List.length (Engine.label_bins min size index bins) = List.length bins.
Proof.
  revert index. induction bins as [|b bins IH]; intro index; simpl; auto.
Qed.

Lemma engine_label_bins_values (min size : JS.number) (index : Z) (bins : list Z) :
  map Chart.value (Engine.label_bins min size index bins) = bins.
Proof.
  revert index. induction bins as [|b bins IH]; intro index; simpl; [reflexivity|].
  now rewrite IH.
Qed.

Lemma binned_length (data : list Chart.record) (column : string) :
  List.length (Engine.binned data column) = Z.to_nat (Chart.binCount data column).
Proof.
  unfold Engine.binned, Engine.fill_bins.
  now rewrite engine_label_bins_length, tally_length, repeat_length.
Qed.

Lemma binned_values (data : list Chart.record) (column : string) :
  map Chart.value (Engine.binned data column)
  = Engine.fill_bins (Engine.chart_min data column) (Engine.binSize data column)
      (Chart.binCount data column) (Chart.numericValues data column).
Proof. unfold Engine.binned. apply engine_label_bins_values. Qed.

(** ** The one call that can fail *)

Section Calls.

Variable argument_limit : nat.
Variable RangeError_message : string.

Local Abbreviation run := (Engine.processDataForChart argument_limit RangeError_message).

Lemma numericSeries_returns (data : list Chart.record) (column : string) :
  (List.length (Chart.numericValues data column) <= argument_limit)%nat ->
  Engine.numericSeries argument_limit RangeError_message data column
  = JS.Normal (Engine.binned data column).
Proof.
  intro H. unfold Engine.numericSeries, Engine.spread. cbv zeta.
  rewrite length_map.
  rewrite (proj2 (Nat.ltb_ge _ _) H). reflexivity.
Qed.

Lemma numericSeries_throws (data : list Chart.record) (column : string) :
  (argument_limit < List.length (Chart.numericValues data column))%nat ->
  Engine.numericSeries argument_limit RangeError_message data column
  = JS.Throw (JS.Error RangeError_message).
Proof.
  intro H. unfold Engine.numericSeries, Engine.spread. cbv zeta.
  rewrite length_map.
  rewrite (proj2 (Nat.ltb_lt _ _) H). reflexivity.
Qed.

(** [processDataForChart] throws in the numeric branch with more values than
    one call takes, and nowhere else; what it returns has at most 10
    points. *)
Lemma processDataForChart_outcome (data : list Chart.record) (column : string) :
  (run data column = JS.Throw (JS.Error RangeError_message)
   /\ column <> ""
   /\ (exists first rest,
         data = first :: rest
         /\ JS.typeof_number (Chart.get first column) = true)
   /\ (argument_limit < List.length (Chart.numericValues data column))%nat)
  \/ (exists series,
        run data column = JS.Normal series
        /\ (List.length series <= 10)%nat
        /\ ~ (column <> ""
              /\ (exists first rest,
                    data = first :: rest
                    /\ JS.typeof_number (Chart.get first column) = true)
              /\ (argument_limit
                  < List.length (Chart.numericValues data column))%nat)).
Proof.
  unfold Engine.processDataForChart. destruct data as [|first rest].
  { right. exists []. split; [reflexivity|]. split; [simpl; lia|].
    intros (_ & (f & r & E & _) & _). discriminate E. }
  destruct (String.eqb_spec column "") as [-> | Hcol].
  { right. exists []. split; [reflexivity|]. split; [simpl; lia|].
    intros (N & _). now apply N. }
  destruct (JS.typeof_number (Chart.get first column)) eqn:T.
  - destruct (Nat.le_gt_cases
                (List.length (Chart.numericValues (first :: rest) column))
                argument_limit) as [L | L].
    + right. rewrite numericSeries_returns by assumption.
      eexists. split; [reflexivity|]. split.
      * rewrite binned_length. unfold Chart.binCount. lia.
      * intros (_ & _ & G). lia.
    + left. rewrite numericSeries_throws by assumption.
      split; [reflexivity|]. split; [assumption|]. split; [|assumption].
      now exists first, rest.
  - right. eexists. split; [reflexivity|]. split.
    + unfold Chart.categoricalSeries. rewrite length_firstn. lia.
    + intros (_ & (f & r & E & Tf) & _). injection E as <- <-. congruence.
Qed.

End Calls.

(** Off the numeric branch the engine returns the series of [Chart]. *)
Lemma engine_agrees_off_the_numeric_branch
    (argument_limit : nat) (RangeError_message : string)
    (data : list Chart.record) (column : string) :
  (forall first rest,
     data = first :: rest -> column <> "" ->
     JS.typeof_number (Chart.get first column) = false) ->
  Engine.processDataForChart argument_limit RangeError_message data column
  = JS.Normal (Chart.processDataForChart data column).
Proof.
  intro H. unfold Engine.processDataForChart, Chart.processDataForChart.
  destruct data as [|first rest]; [reflexivity|].
  destruct (String.eqb_spec column "") as [-> | N]; [reflexivity|].
  now rewrite (H first rest eq_refl N).
Qed.

(** ** Empty inputs, absent columns and long columns *)

(** C7 as stated fails twice.  For a column name that no record carries the
    series is not empty: on the one-record dataset with the only column a,
    the series for the column b is the single point ("undefined", 1),
    whatever the engine.  And the function can throw: with room for three
    arguments in a call, a column of four numbers ends in a [RangeError]. *)
Lemma absent_column_series_not_empty :
  (forall (argument_limit : nat) (message : string),
     Engine.processDataForChart argument_limit message one_row "b"
     = JS.Normal [ {| Chart.name := "undefined"; Chart.value := 1 |} ])
  /\ Engine.processDataForChart 3 stack_message (number_rows "k" [1; 2; 3; 4]) "k"
     = JS.Throw (JS.Error stack_message).
Proof.
  split; [intros; reflexivity | reflexivity].
Qed.

(** C7, as the code has it.  [processDataForChart] returns the empty series
    for an empty dataset and for the empty column name.  For a non-empty
    column name that no record of a non-empty dataset carries, and that no
    object inherits, it returns the one-point series whose label is
    "undefined" and whose value is the number of records.  It throws in one
    case only, with the engine's [RangeError]: in the numeric branch, when
    the values kept are more than one call takes as arguments. *)
Theorem empty_inputs_and_absent_columns
    (argument_limit : nat) (RangeError_message : string)
    (data : list Chart.record) (column : string) :
  let run := Engine.processDataForChart argument_limit RangeError_message in
  run [] column = JS.Normal []
  /\ run data "" = JS.Normal []
  /\ (data <> [] -> column <> "" ->
      own_label column ->
      (forall item, In item data -> Chart.get item column = JS.VUndefined) ->
      run data column
      = JS.Normal [ {| Chart.name := "undefined";
                       Chart.value := Z.of_nat (List.length data) |} ])
  /\ ((exists e, run data column = JS.Throw e)
      <-> column <> ""
          /\ (exists first rest,
                data = first :: rest
                /\ JS.typeof_number (Chart.get first column) = true)
          /\ (argument_limit
              < List.length (Chart.numericValues data column))%nat)
  /\ (forall e, run data column = JS.Throw e -> e = JS.Error RangeError_message).
Proof.
  cbv zeta. split; [reflexivity|]. split; [now destruct data|].
  split; [|split].
  - intros Hdata Hcol _ Habsent. destruct data as [|first rest]; [congruence|].
    unfold Engine.processDataForChart.
    rewrite (proj2 (String.eqb_neq column "")) by assumption.
    rewrite (Habsent first) by now left.
    cbn [JS.typeof_number]. unfold Chart.categoricalSeries. f_equal.
    rewrite ranked_plain.
    + rewrite absent_column_keys by assumption. unfold count_table.
      change (List.length (first :: rest)) with (S (List.length rest)).
      rewrite first_seen_repeat. cbn [map]. now rewrite occurrences_repeat.
    + rewrite absent_column_keys by assumption.
      intros k Hk. apply repeat_spec in Hk. subst k. reflexivity.
  - destruct (processDataForChart_outcome argument_limit RangeError_message
                data column) as [(E & H) | (series & E & _ & H)].
    + split; [intros _; exact H | intros _; eexists; exact E].
    + split; [intros [e Ee]; rewrite E in Ee; discriminate Ee|].
      intro G. now elim H.
  - intros e Ee.
    destruct (processDataForChart_outcome argument_limit RangeError_message
                data column) as [(E & _) | (series & E & _)];
      rewrite E in Ee; [now injection Ee as <- | discriminate Ee].
Qed.

Lemma empty_inputs_and_absent_columns_witness :
  (one_row <> [] /\ "b" <> "" /\ own_label "b"
   /\ (forall item, In item one_row -> Chart.get item "b" = JS.VUndefined))
  /\ Engine.processDataForChart argument_room stack_message one_row "b"
     = JS.Normal [ {| Chart.name := "undefined";
                      Chart.value := Z.of_nat (List.length one_row) |} ].
Proof.
  assert (H : forall item, In item one_row -> Chart.get item "b" = JS.VUndefined).
  { intros item [<- | []]. reflexivity. }
  split.
  - split; [discriminate|]. split; [discriminate|]. split; [reflexivity | exact H].
  - destruct (empty_inputs_and_absent_columns argument_room stack_message one_row "b")
      as (_ & _ & G & _).
    apply G; [discriminate | discriminate | reflexivity | exact H].
Defined.

(** ** Bins never count more than the values *)

(** X3.  Take a column whose first record holds a number, so that the
    numeric branch runs, whatever else the column holds (numbers, numeric
    texts, [NaN], infinities, nulls).  When the values kept are no more than
    one call takes as arguments, the branch returns
    [min(10, number of distinct values)] bins, between 1 and 10, every bin
    count is 0 or more, and together the bins never count more than the
    values kept.  With more values kept it throws the engine's [RangeError].
    The values kept are never more than the records. *)
Theorem numeric_series_never_overcounts
    (argument_limit : nat) (RangeError_message : string)
    (data : list Chart.record) (column : string)
    (first : Chart.record) (rest : list Chart.record) :
  data = first :: rest ->
  column <> "" ->
  JS.typeof_number (Chart.get first column) = true ->
  let run := Engine.processDataForChart argument_limit RangeError_message in
  let kept := List.length (Chart.numericValues data column) in
  let distinct := JS.Set_size (Chart.uniqueValues data column) in
  ((kept <= argument_limit)%nat ->
   exists series,
     run data column = JS.Normal series
     /\ Z.of_nat (List.length series) = Z.min 10 distinct
     /\ (1 <= List.length series <= 10)%nat
     /\ (forall p, In p series -> 0 <= Chart.value p)
     /\ total (map Chart.value series) <= Z.of_nat kept)
  /\ ((argument_limit < kept)%nat ->
      run data column = JS.Throw (JS.Error RangeError_message))
  /\ (kept <= List.length data)%nat.
Proof.
  intros -> Hcol Hfirst. cbv zeta.
  assert (Hrun : Engine.processDataForChart argument_limit RangeError_message
                   (first :: rest) column
                 = Engine.numericSeries argument_limit RangeError_message
                     (first :: rest) column).
  { unfold Engine.processDataForChart.
    rewrite (proj2 (String.eqb_neq column "")) by assumption.
    now rewrite Hfirst. }
  rewrite Hrun. split; [|split].
  - intro Hroom. rewrite numericSeries_returns by assumption.
    eexists. split; [reflexivity|].
    pose proof (binCount_range first rest column Hfirst) as Hc.
    rewrite binned_length, binned_values. unfold Engine.fill_bins.
    assert (Hz : Forall (fun x => 0 <= x)
                   (repeat 0 (Z.to_nat (Chart.binCount (first :: rest) column)))).
    { apply Forall_forall. intros x Hx. apply repeat_spec in Hx. lia. }
    destruct (tally_bounds
                (Engine.binIndex (Engine.chart_min (first :: rest) column)
                   (Engine.binSize (first :: rest) column)
                   (Chart.binCount (first :: rest) column))
                (Chart.numericValues (first :: rest) column) _ Hz) as [F T].
    rewrite total_repeat_zero in T.
    split; [unfold Chart.binCount in *; lia|]. split; [lia|]. split; [|lia].
    intros p Hp. apply (in_map Chart.value) in Hp. rewrite binned_values in Hp.
    rewrite Forall_forall in F. now apply F.
  - intro Hmany. now apply numericSeries_throws.
  - unfold Chart.numericValues, Chart.column_values.
    etransitivity; [apply filter_length_le|]. now rewrite length_map.
Qed.

Lemma numeric_series_never_overcounts_witness :
  (ages = [("age", JS.VNum (JS.of_Z 20))] :: tl ages
   /\ "age" <> ""
   /\ JS.typeof_number (Chart.get [("age", JS.VNum (JS.of_Z 20))] "age") = true
   /\ (List.length (Chart.numericValues ages "age") <= argument_room)%nat)
  /\ exists series,
       Engine.processDataForChart argument_room stack_message ages "age"
       = JS.Normal series
       /\ (1 <= List.length series <= 10)%nat
       /\ total (map Chart.value series)
          <= Z.of_nat (List.length (Chart.numericValues ages "age")).
Proof.
  assert (Hroom : (List.length (Chart.numericValues ages "age") <= argument_room)%nat)
    by (vm_compute; lia).
  destruct (numeric_series_never_overcounts argument_room stack_message ages "age"
              [("age", JS.VNum (JS.of_Z 20))] (tl ages)
              eq_refl ltac:(discriminate) eq_refl) as (H & _).
  destruct (H Hroom) as (series & E & _ & H2 & _ & H4).
  split; [|exists series; split; [exact E | split; [exact H2 | exact H4]]].
  split; [reflexivity|]. split; [discriminate|]. split; [reflexivity | exact Hroom].
Defined.

(** ** The numeric branch in binary64 *)

Lemma round_is_number (q : Q) : is_number (Binary64.round q).
Proof.
  unfold Binary64.round, is_number.
  destruct (Qcompare q 0); [discriminate | |].
  - destruct (round_positive_cases (- q)) as [-> | ->]; discriminate.
  - destruct (round_positive_cases q) as [-> | ->]; discriminate.
Qed.

Lemma nearest_finite (x : JS.number) (r : Q) :
  Binary64.nearest x = JS.Fin r ->
  exists d, x = JS.Fin d /\ Binary64.round d = JS.Fin r.
Proof.
  destruct x as [| | |d]; try discriminate. intro H. now exists d.
Qed.

Lemma nearest_is_number (x : JS.number) :
  is_number x -> is_number (Binary64.nearest x).
Proof.
  destruct x; try (intros; assumption). intros _. apply round_is_number.
Qed.

Lemma engine_values_are_numbers (data : list Chart.record) (column : string) :
  Forall is_number (map Engine.number_of (Chart.numericValues data column)).
Proof.
  pose proof (numericValues_are_numbers data column) as H.
  rewrite Forall_map in H |- *. rewrite Forall_forall in H |- *.
  intros v Hv. apply nearest_is_number. now apply H.
Qed.

(** Between a finite minimum and a finite maximum every value is finite. *)
Lemma engine_value_bounds (data : list Chart.record) (column : string)
    (qmin qmax : Q) :
  Engine.chart_min data column = JS.Fin qmin ->
  Engine.chart_max data column = JS.Fin qmax ->
  (exists v, In v (Chart.numericValues data column)
             /\ Engine.number_of v = JS.Fin qmin)
  /\ (exists v, In v (Chart.numericValues data column)
                /\ Engine.number_of v = JS.Fin qmax)
  /\ forall v, In v (Chart.numericValues data column) ->
       exists qv, Engine.number_of v = JS.Fin qv /\ (qmin <= qv <= qmax)%Q.
Proof.
  intros Hmin Hmax.
  pose proof (engine_values_are_numbers data column) as Hnum.
  destruct (fold_min_spec _ JS.PInf ltac:(discriminate) Hnum) as (Imin & _ & Hlow).
  destruct (fold_max_spec _ JS.NInf ltac:(discriminate) Hnum) as (Imax & _ & Hhigh).
  change (fold_left JS.Math_min2 _ JS.PInf)
    with (Engine.chart_min data column) in Imin, Hlow.
  change (fold_left JS.Math_max2 _ JS.NInf)
    with (Engine.chart_max data column) in Imax, Hhigh.
  rewrite Hmin in Imin, Hlow. rewrite Hmax in Imax, Hhigh.
  split; [|split].
  - destruct Imin as [E | I]; [discriminate E|].
    apply in_map_iff in I as (v & E & I). now exists v.
  - destruct Imax as [E | I]; [discriminate E|].
    apply in_map_iff in I as (v & E & I). now exists v.
  - intros v Hv. apply (in_map Engine.number_of) in Hv.
    rewrite Forall_forall in Hlow, Hhigh.
    specialize (Hlow _ Hv). specialize (Hhigh _ Hv).
    destruct (Engine.number_of v) as [| | |qv];
      try discriminate Hlow; try discriminate Hhigh.
    exists qv. split; [reflexivity|]. split; now apply Qle_bool_iff.
Qed.

Lemma floor_clamped (x : JS.number) (k c : Z) :
  0 <= k <= c - 1 ->
  x = JS.PInf \/ (exists t, x = JS.Fin t /\ (inject_Z k <= t)%Q) ->
  exists i, JS.Math_min2 (JS.Math_floor x) (JS.of_Z (c - 1)) = JS.of_Z i
            /\ k <= i <= c - 1.
Proof.
  intros Hk [-> | (t & -> & Ht)].
  - exists (c - 1). split; [reflexivity | lia].
  - cbn [JS.Math_floor]. rewrite Math_min2_of_Z.
    eexists. split; [reflexivity|].
    apply Qfloor_resp_le in Ht. rewrite Qfloor_Z in Ht. lia.
Qed.

(** A value at or above the minimum has a bin, whatever the rounding. *)
Lemma engine_index_in_range (qv qmin s : Q) (c : Z) :
  (qmin <= qv)%Q -> (0 < s)%Q -> 1 <= c ->
  exists i,
    JS.Math_min2
      (JS.Math_floor
         (Binary64.div (Binary64.sub (JS.Fin qv) (JS.Fin qmin)) (JS.Fin s)))
      (JS.of_Z (c - 1))
    = JS.of_Z i
    /\ 0 <= i <= c - 1.
Proof.
  intros Hv Hs Hc. apply (floor_clamped _ 0 c); [lia|].
  unfold Binary64.sub, JS.sub. cbn [JS.neg JS.add Binary64.nearest].
  destruct (round_nonneg (qv + - qmin)) as [-> | (d & -> & Hd)]; [lra | |].
  - left. unfold Binary64.div. cbn [JS.div].
    unfold JS.signed_inf, JS.Qlt_bool.
    now rewrite (proj2 (Qle_bool_iff 0 s)) by lra.
  - unfold Binary64.div. cbn [JS.div]. rewrite (positive_nonzero s Hs).
    cbn [Binary64.nearest].
    assert (Hq : (0 <= d / s)%Q).
    { apply Qle_shift_div_l; [exact Hs | lra]. }
    destruct (round_nonneg (d / s) Hq) as [-> | (t & -> & Ht)];
      [now left | right; now exists t].
Qed.

Lemma engine_index_of_min (qmin s : Q) (c : Z) :
  (0 < s)%Q -> 1 <= c ->
  JS.Math_min2
    (JS.Math_floor
       (Binary64.div (Binary64.sub (JS.Fin qmin) (JS.Fin qmin)) (JS.Fin s)))
    (JS.of_Z (c - 1))
  = JS.of_Z 0.
Proof.
  intros Hs Hc. unfold Binary64.sub, JS.sub. cbn [JS.neg JS.add Binary64.nearest].
  rewrite round_zero by ring.
  unfold Binary64.div. cbn [JS.div]. rewrite (positive_nonzero s Hs).
  cbn [Binary64.nearest]. rewrite round_zero by (field; lra).
  change (JS.Math_floor (JS.Fin 0)) with (JS.of_Z 0).
  rewrite Math_min2_of_Z. f_equal. lia.
Qed.

(** With a normal width the whole range, divided by the width, is not below
    the last index. *)
Lemma engine_index_of_max (r s : Q) (c : Z) :
  (0 < r)%Q -> 1 <= c <= 10 ->
  Binary64.div (JS.Fin r) (JS.of_Z c) = JS.Fin s ->
  (Binary64.pow2 (-1022) <= s)%Q ->
  JS.Math_min2 (JS.Math_floor (Binary64.div (JS.Fin r) (JS.Fin s)))
               (JS.of_Z (c - 1))
  = JS.of_Z (c - 1).
Proof.
  intros Hr Hc Hs Hn.
  assert (Hs0 : (0 < s)%Q).
  { apply Qlt_le_trans with (y := Binary64.pow2 (-1022)); [apply pow2_pos | exact Hn]. }
  assert (HC : (0 < inject_Z c)%Q).
  { change 0%Q with (inject_Z 0). rewrite <- Zlt_Qlt. lia. }
  unfold Binary64.div, JS.of_Z in Hs. cbn [JS.div] in Hs.
  rewrite (positive_nonzero _ HC) in Hs. cbn [Binary64.nearest] in Hs.
  set (u := (r / inject_Z c)%Q) in *.
  assert (Hu : (0 < u)%Q) by (apply Qlt_shift_div_l; [exact HC | lra]).
  pose proof (round_normal_above u s Hu Hs Hn) as A.
  assert (R : (r == u * inject_Z c)%Q) by (unfold u; field; lra).
  assert (Y : (inject_Z (c - 1) <= r / s)%Q).
  { apply Qle_shift_div_l; [exact Hs0|]. rewrite R. clearbody u.
    assert (Cs : c = 1 \/ c = 2 \/ c = 3 \/ c = 4 \/ c = 5
                 \/ c = 6 \/ c = 7 \/ c = 8 \/ c = 9 \/ c = 10) by lia.
    repeat (destruct Cs as [Cs | Cs];
            [subst c; simpl Z.sub; unfold inject_Z; lra|]).
    subst c. simpl Z.sub. unfold inject_Z. lra. }
  assert (E : exists i,
             JS.Math_min2 (JS.Math_floor (Binary64.div (JS.Fin r) (JS.Fin s)))
                          (JS.of_Z (c - 1)) = JS.of_Z i
             /\ c - 1 <= i <= c - 1).
  { apply floor_clamped; [lia|].
    unfold Binary64.div. cbn [JS.div]. rewrite (positive_nonzero s Hs0).
    cbn [Binary64.nearest].
    destruct (round_at_least (c - 1) (r / s)) as [-> | (t & -> & Ht)];
      [lia | exact Y | now left | right; now exists t]. }
  destruct E as (i & -> & Hi). f_equal. lia.
Qed.

(** The operations of [Binary64] give what the floats of the kernel give, on
    pairs that reach rounding, overflow and gradual underflow. *)
Example binary64_agrees_with_the_kernel :
  forallb (fun p =>
             Binary64.agree PrimFloat.add Binary64.add (fst p) (snd p)
             && Binary64.agree PrimFloat.sub Binary64.sub (fst p) (snd p)
             && Binary64.agree PrimFloat.mul Binary64.mul (fst p) (snd p)
             && Binary64.agree PrimFloat.div Binary64.div (fst p) (snd p)
             && Binary64.agree PrimFloat.div Binary64.div (snd p) (fst p))
          float_pairs
  = true.
Proof. vm_compute. reflexivity. Qed.

(** On the ages the engine gives the series of the exact arithmetic. *)
Example ages_series_in_binary64 :
  Engine.processDataForChart argument_room stack_message ages "age"
  = JS.Normal (Chart.processDataForChart ages "age").
Proof. vm_compute. reflexivity. Qed.

(** C2 as stated fails in binary64, in two ways.  When the range overflows,
    as for a column that holds the largest number and its opposite, the
    width is [Infinity], the maximum gets the index [NaN] and is counted in
    no bin.  And at the bottom of binary64 the maximum can miss the last bin
    though range and width are finite and positive: for 0 to 9 and 16 times
    [2^-1074] there are 10 bins, the width 1.6 is rounded to 2, and the
    maximum gets the index 8. *)
Lemma maximum_outside_the_last_bin :
  (Engine.chart_range extremes "x" = JS.PInf
   /\ Engine.binIndex (Engine.chart_min extremes "x") (Engine.binSize extremes "x")
        (Chart.binCount extremes "x") (JS.VNum (JS.of_Z largest))
      = JS.NaN
   /\ exists series,
        Engine.processDataForChart argument_room stack_message extremes "x"
        = JS.Normal series
        /\ map Chart.value series = [1; 0])
  /\ (Engine.chart_range smallest_multiples "x" = JS.Fin (16 # 2 ^ 1074)
      /\ Engine.binSize smallest_multiples "x" = JS.Fin (2 # 2 ^ 1074)
      /\ Chart.binCount smallest_multiples "x" = 10
      /\ Engine.binIndex (Engine.chart_min smallest_multiples "x")
           (Engine.binSize smallest_multiples "x")
           (Chart.binCount smallest_multiples "x")
           (JS.VNum (JS.Fin (16 # 2 ^ 1074)))
         = JS.of_Z 8).
Proof.
  split.
  - split; [vm_compute; reflexivity|]. split; [vm_compute; reflexivity|].
    eexists. split; [vm_compute; reflexivity | reflexivity].
  - repeat split; vm_compute; reflexivity.
Qed.

(** C2, as the code has it.  Take a dataset whose first record holds a number
    in the column, so that the numeric branch runs, with no more values kept
    than one call takes as arguments, and let the range [max - min] and the
    width [range / binCount], as binary64 has them, be finite and strictly
    positive.  Then the branch returns one point for each of the 1 to 10
    bins.  Every kept value is finite and gets the index
    [min(floor((value - min) / binSize), binCount - 1)], computed in
    binary64, an integer in [[0, binCount - 1]].  The bin with a number counts
    the values with that index, so each value is counted once and the counts
    add up to the number of values.  A minimum gets the index 0.  When the
    width is normal, at least [2^-1022], a maximum gets the last index. *)
Theorem numeric_binning_in_binary64
    (argument_limit : nat) (RangeError_message : string)
    (data : list Chart.record) (column : string)
    (first : Chart.record) (rest : list Chart.record) (r qsize : Q) :
  data = first :: rest ->
  column <> "" ->
  JS.typeof_number (Chart.get first column) = true ->
  (List.length (Chart.numericValues data column) <= argument_limit)%nat ->
  Engine.chart_range data column = JS.Fin r ->
  (0 < r)%Q ->
  Engine.binSize data column = JS.Fin qsize ->
  (0 < qsize)%Q ->
  let values := Chart.numericValues data column in
  let count := Chart.binCount data column in
  let min := Engine.chart_min data column in
  let max := Engine.chart_max data column in
  let index := Engine.binIndex min (JS.Fin qsize) count in
  exists series,
    Engine.processDataForChart argument_limit RangeError_message data column
    = JS.Normal series
    /\ 1 <= count <= 10
    /\ List.length series = Z.to_nat count
    /\ (forall v, In v values ->
          exists qv i,
            Engine.number_of v = JS.Fin qv
            /\ index v = JS.of_Z i
            /\ 0 <= i <= count - 1
            /\ JS.of_Z i
               = JS.Math_min2
                   (JS.Math_floor
                      (Binary64.div (Binary64.sub (Engine.number_of v) min)
                                    (JS.Fin qsize)))
                   (JS.of_Z (count - 1)))
    /\ (forall j, (j < Z.to_nat count)%nat ->
          nth j (map Chart.value series) 0
          = Z.of_nat
              (List.length
                 (filter (fun v => JS.strict_eqb (index v) (JS.of_Z (Z.of_nat j)))
                         values)))
    /\ total (map Chart.value series) = Z.of_nat (List.length values)
    /\ (exists v, In v values /\ Engine.number_of v = min)
    /\ (forall v, In v values -> Engine.number_of v = min -> index v = JS.of_Z 0)
    /\ (exists v, In v values /\ Engine.number_of v = max)
    /\ ((Binary64.pow2 (-1022) <= qsize)%Q ->
        forall v, In v values -> Engine.number_of v = max ->
                  index v = JS.of_Z (count - 1)).
Proof.
  intros Hdata Hcol Hfirst Hroom Hr Hpos Hsize Hspos values count min max index.
  assert (Hc : 1 <= count <= 10) by (subst data; now apply binCount_range).
  assert (Hrun : Engine.processDataForChart argument_limit RangeError_message
                   data column
                 = JS.Normal (Engine.binned data column)).
  { unfold Engine.processDataForChart. subst data.
    rewrite (proj2 (String.eqb_neq column "")) by assumption.
    rewrite Hfirst. now apply numericSeries_returns. }
  (* minimum and maximum are finite *)
  pose proof Hr as Hr'. unfold Engine.chart_range, Binary64.sub in Hr'.
  apply nearest_finite in Hr' as (d & Hd & _).
  apply sub_finite in Hd as (qmax & qmin & Hmax & Hmin & _).
  destruct (engine_value_bounds data column qmin qmax Hmin Hmax)
    as (Imin & Imax & Hvals).
  fold min in Hmin. fold max in Hmax. fold values in Imin, Imax, Hvals.
  assert (Hidx : forall v, In v values ->
            exists i, index v = JS.of_Z i /\ 0 <= i <= count - 1).
  { intros v Hv. destruct (Hvals v Hv) as (qv & Ev & Lv & _).
    unfold index, Engine.binIndex. rewrite Ev, Hmin.
    apply engine_index_in_range; [exact Lv | exact Hspos | lia]. }
  assert (Hbins : map Chart.value (Engine.binned data column)
                  = fold_left (fun bins v => Chart.increment bins (index v))
                      values (repeat 0 (Z.to_nat count))).
  { rewrite binned_values. unfold Engine.fill_bins. fold min count values.
    now rewrite Hsize. }
  exists (Engine.binned data column). split; [exact Hrun|].
  split; [exact Hc|]. split; [apply binned_length|].
  split; [|split; [|split; [|split; [|split; [|split]]]]].
  - intros v Hv. destruct (Hidx v Hv) as (i & Ei & Hi).
    destruct (Hvals v Hv) as (qv & Ev & _).
    exists qv, i. split; [exact Ev|]. split; [exact Ei|]. split; [exact Hi|].
    now rewrite <- Ei.
  - intros j Hj. rewrite Hbins.
    rewrite (tally_nth index values) by now rewrite repeat_length.
    now rewrite nth_repeat_zero.
  - rewrite Hbins, (tally_total index values).
    + rewrite total_repeat_zero. lia.
    + intros v Hv. destruct (Hidx v Hv) as (i & Ei & Hi).
      exists i. split; [exact Ei|]. rewrite repeat_length. lia.
  - rewrite Hmin. exact Imin.
  - intros v _ Ev. unfold index, Engine.binIndex. rewrite Ev, Hmin.
    apply engine_index_of_min; [exact Hspos | lia].
  - rewrite Hmax. exact Imax.
  - intros Hnormal v _ Ev. unfold index, Engine.binIndex. rewrite Ev.
    change (Binary64.sub max min) with (Engine.chart_range data column).
    rewrite Hr. apply engine_index_of_max; [exact Hpos | exact Hc | | exact Hnormal].
    unfold Engine.binSize in Hsize. fold count in Hsize. now rewrite Hr in Hsize.
Qed.

Lemma numeric_binning_in_binary64_witness :
  exists r qsize series,
    (ages = [("age", JS.VNum (JS.of_Z 20))] :: tl ages
     /\ "age" <> ""
     /\ JS.typeof_number (Chart.get [("age", JS.VNum (JS.of_Z 20))] "age") = true
     /\ (List.length (Chart.numericValues ages "age") <= argument_room)%nat
     /\ Engine.chart_range ages "age" = JS.Fin r
     /\ (0 < r)%Q
     /\ Engine.binSize ages "age" = JS.Fin qsize
     /\ (0 < qsize)%Q
     /\ (Binary64.pow2 (-1022) <= qsize)%Q)
    /\ (r == 70)%Q
    /\ (qsize == 35 # 2)%Q
    /\ Engine.processDataForChart argument_room stack_message ages "age"
       = JS.Normal series
    /\ map Chart.value series = [3; 0; 0; 1]
    /\ Engine.binIndex (Engine.chart_min ages "age") (JS.Fin qsize)
         (Chart.binCount ages "age") (JS.VNum (JS.of_Z 90))
       = JS.of_Z 3.
Proof.
  pose (r := match Engine.chart_range ages "age" with JS.Fin q => q | _ => 0%Q end).
  pose (qsize := match Engine.binSize ages "age" with JS.Fin q => q | _ => 0%Q end).
  assert (Hroom : (List.length (Chart.numericValues ages "age") <= argument_room)%nat)
    by (vm_compute; lia).
  assert (Hr : Engine.chart_range ages "age" = JS.Fin r)
    by (vm_compute; reflexivity).
  assert (Hs : Engine.binSize ages "age" = JS.Fin qsize)
    by (vm_compute; reflexivity).
  assert (Hrp : (0 < r)%Q) by (vm_compute; reflexivity).
  assert (Hsp : (0 < qsize)%Q) by (vm_compute; reflexivity).
  assert (Hn : (Binary64.pow2 (-1022) <= qsize)%Q)
    by (apply Qle_bool_iff; vm_compute; reflexivity).
  destruct (numeric_binning_in_binary64 argument_room stack_message ages "age"
              [("age", JS.VNum (JS.of_Z 20))] (tl ages) r qsize
              eq_refl ltac:(discriminate) eq_refl Hroom Hr Hrp Hs Hsp)
    as (series & E & _ & _ & _ & _ & _ & _ & _ & _ & Hlast).
  exists r, qsize, series. split.
  - split; [reflexivity|]. split; [discriminate|]. split; [reflexivity|].
    split; [exact Hroom|]. split; [exact Hr|]. split; [exact Hrp|].
    split; [exact Hs|]. split; [exact Hsp | exact Hn].
  - split; [vm_compute; reflexivity|]. split; [vm_compute; reflexivity|].
    split; [exact E|]. split.
    + vm_compute in E. injection E as <-. reflexivity.
    + apply (Hlast Hn (JS.VNum (JS.of_Z 90))); [|vm_compute; reflexivity].
      right. right. right. now left.
Defined.

(** ** What [analyzeDataWithAI] of [App.tsx] does with a failure *)

Local Open Scope string_scope.

Section Failures.

Variable argument_limit : nat.
Variable RangeError_message : string.

Local Abbreviation attempt := (Engine.attempt argument_limit RangeError_message).
Local Abbreviation resume :=
  (Engine.analyzeDataWithAI_resume argument_limit RangeError_message).


End Failures.


(** ** SQL taken out of a reply *)



Section Fences.

Variable argument_limit : nat.
Variable RangeError_message : string.


End Fences.

